(** * Shop models: stock, checkout, cancellation and review rating

    A shallow embedding of the business methods of [shop/models.py]
    (and of the [checkout] action of [shop/views.py]) over an explicit
    database state.

    Conventions of the embedding:
    - a table whose rows are read and written by primary key is a
      [gmap nat row]; a model instance is the pair of its [pk] and its
      row, so a method [m(self, ...)] takes [self_pk] and [self];
    - the tables of cart lines and order lines, which the methods scan
      ([cart.items.all()], [order.items.all()]), are lists of rows in
      table order; an order line carries its key;
    - a related object ([item.product], [self.order_item.order]) is the
      row that the table holds when the attribute is read;
    - [DecimalField(decimal_places=2)] values are integers counting
      hundredths ([price], [total_amount], [average_rating]);
    - Python integers are [Z]; a write that the database refuses makes
      [save] raise and leaves the tables as they were: the range of the
      [stock] column is tested where [StockMovement.save] and the runs
      of stock operations write it, the unique constraint of the
      addresses where [Address.save] writes them; the other methods are
      stated for writes that the columns hold;
    - a method that can raise (a related row that does not exist, a
      write that is refused) returns [option]; [None] is the raised
      exception;
    - [timezone.now()] is the argument [now], one clock reading per call;
    - columns that no modelled method reads or writes (slug, description,
      images, created, addresses, ...) are left out. *)

From Stdlib Require Import ZArith QArith Qabs Ascii String Lia.
From stdpp Require Import base option list gmap strings pretty.

Local Open Scope string_scope.
Local Open Scope Z_scope.

(** ** Rows *)

Module Product.
Record t := mk {
  name : string;
  price : Z;
  stock : Z;
  available : bool;
  average_rating : Z;
  total_reviews : Z;
  updated : Z;
  last_stock_update : Z
}.

Definition set_stock (v : Z) (p : t) : t :=
  mk (name p) (price p) v (available p) (average_rating p)
     (total_reviews p) (updated p) (last_stock_update p).

Definition set_price (v : Z) (p : t) : t :=
  mk (name p) v (stock p) (available p) (average_rating p)
     (total_reviews p) (updated p) (last_stock_update p).

Definition set_average_rating (v : Z) (p : t) : t :=
  mk (name p) (price p) (stock p) (available p) v
     (total_reviews p) (updated p) (last_stock_update p).

Definition set_total_reviews (v : Z) (p : t) : t :=
  mk (name p) (price p) (stock p) (available p) (average_rating p)
     v (updated p) (last_stock_update p).

Definition set_updated (v : Z) (p : t) : t :=
  mk (name p) (price p) (stock p) (available p) (average_rating p)
     (total_reviews p) v (last_stock_update p).

Definition set_last_stock_update (v : Z) (p : t) : t :=
  mk (name p) (price p) (stock p) (available p) (average_rating p)
     (total_reviews p) (updated p) v.
End Product.

Module Cart.
Record t := mk {
  user : nat;
  status : string;
  updated_at : Z
}.

Definition set_status (v : string) (c : t) : t := mk (user c) v (updated_at c).
Definition set_updated_at (v : Z) (c : t) : t := mk (user c) (status c) v.
End Cart.

Module CartItem.
Record t := mk {
  cart : nat;
  product : nat;
  quantity : Z
}.
End CartItem.

Module Order.
Record t := mk {
  user : nat;
  status : string;
  total_amount : Z;
  updated_at : Z
}.

Definition set_status (v : string) (o : t) : t :=
  mk (user o) v (total_amount o) (updated_at o).
Definition set_updated_at (v : Z) (o : t) : t :=
  mk (user o) (status o) (total_amount o) v.

(** [can_cancel]: [self.status in ["pending", "processing"]]. *)
Definition can_cancel (self : t) : bool :=
  String.eqb (status self) "pending" || String.eqb (status self) "processing".
End Order.

Module OrderItem.
Record t := mk {
  pk : nat;
  order : nat;
  product : nat;
  quantity : Z;
  price : Z
}.

(** [subtotal]: [self.price * self.quantity], the price being the
    row's own column. *)
Definition subtotal (self : t) : Z := price self * quantity self.
End OrderItem.

Module Review.
Record t := mk {
  product : nat;
  user : nat;
  rating : Z;
  is_verified_purchase : bool;
  order_item : option nat;
  helpful_votes : Z;
  reported_count : Z;
  is_visible : bool;
  moderation_notes : string;
  updated_at : Z
}.

Definition set_is_verified_purchase (v : bool) (r : t) : t :=
  mk (product r) (user r) (rating r) v (order_item r) (helpful_votes r)
     (reported_count r) (is_visible r) (moderation_notes r) (updated_at r).
Definition set_reported_count (v : Z) (r : t) : t :=
  mk (product r) (user r) (rating r) (is_verified_purchase r) (order_item r)
     (helpful_votes r) v (is_visible r) (moderation_notes r) (updated_at r).
Definition set_is_visible (v : bool) (r : t) : t :=
  mk (product r) (user r) (rating r) (is_verified_purchase r) (order_item r)
     (helpful_votes r) (reported_count r) v (moderation_notes r) (updated_at r).
Definition set_moderation_notes (v : string) (r : t) : t :=
  mk (product r) (user r) (rating r) (is_verified_purchase r) (order_item r)
     (helpful_votes r) (reported_count r) (is_visible r) v (updated_at r).
Definition set_updated_at (v : Z) (r : t) : t :=
  mk (product r) (user r) (rating r) (is_verified_purchase r) (order_item r)
     (helpful_votes r) (reported_count r) (is_visible r) (moderation_notes r) v.
End Review.

Module StockMovement.
Record t := mk {
  product : nat;
  quantity : Z;
  type : string
}.
End StockMovement.

(** ** The database *)

Record DB := mkDB {
  products : gmap nat Product.t;
  carts : gmap nat Cart.t;
  cart_items : list CartItem.t;
  orders : gmap nat Order.t;
  order_items : list OrderItem.t;
  reviews : gmap nat Review.t;
  stock_movements : list StockMovement.t;
  order_seq : nat;
  order_item_seq : nat;
  review_seq : nat
}.

Definition set_products (v : gmap nat Product.t) (db : DB) : DB :=
  mkDB v (carts db) (cart_items db) (orders db) (order_items db) (reviews db)
       (stock_movements db) (order_seq db) (order_item_seq db) (review_seq db).

Definition set_carts (v : gmap nat Cart.t) (db : DB) : DB :=
  mkDB (products db) v (cart_items db) (orders db) (order_items db) (reviews db)
       (stock_movements db) (order_seq db) (order_item_seq db) (review_seq db).

Definition set_cart_items (v : list CartItem.t) (db : DB) : DB :=
  mkDB (products db) (carts db) v (orders db) (order_items db) (reviews db)
       (stock_movements db) (order_seq db) (order_item_seq db) (review_seq db).

Definition set_stock_movements (v : list StockMovement.t) (db : DB) : DB :=
  mkDB (products db) (carts db) (cart_items db) (orders db) (order_items db)
       (reviews db) v (order_seq db) (order_item_seq db) (review_seq db).

(** ** Product *)

(** [Product.save()]: both timestamp columns are [auto_now], so every
    save stamps them; the row is then written under the instance's key. *)
Definition Product_save (now : Z) (self_pk : nat) (self : Product.t) (db : DB)
  : Product.t * DB :=
  let self' := Product.set_last_stock_update now (Product.set_updated now self) in
  (self', set_products (<[self_pk := self']> (products db)) db).

(** [Product.adjust_stock(quantity, operation='remove')]. The result is
    the returned boolean, the instance as the call leaves it, and the
    database. *)
Definition Product_adjust_stock (now : Z) (self_pk : nat) (self : Product.t)
    (quantity : Z) (operation : string) (db : DB) : bool * Product.t * DB :=
  if String.eqb operation "remove" then
    if Product.stock self >=? quantity then
      let self1 := Product.set_stock (Product.stock self - quantity) self in
      let self2 := Product.set_last_stock_update now self1 in
      let '(self3, db') := Product_save now self_pk self2 db in
      (true, self3, db')
    else (false, self, db)
  else if String.eqb operation "add" then
    let self1 := Product.set_stock (Product.stock self + quantity) self in
    let self2 := Product.set_last_stock_update now self1 in
    let '(self3, db') := Product_save now self_pk self2 db in
    (true, self3, db')
  else (false, self, db).

(** The row that [adjust_stock] writes when it changes the stock to [s]. *)
Definition stock_written (now s : Z) (self : Product.t) : Product.t :=
  Product.set_last_stock_update now
    (Product.set_updated now
       (Product.set_last_stock_update now (Product.set_stock s self))).

(** ** The stock column *)

(** [stock = models.PositiveIntegerField(default=0)]: an integer column
    with the check [stock >= 0]. It holds the integers from 0 to
    [stock_max], the largest integer of the database; the write of any
    other stock is refused by the database, [save] raises and nothing
    is written. The functions that write a stock under this check take
    [stock_max] as their first argument. *)
Definition stock_in_column (stock_max s : Z) : bool :=
  (0 <=? s) && (s <=? stock_max).

(** The largest [integer] of PostgreSQL, the database of the settings. *)
Definition postgresql_integer_max : Z := 2147483647.

(** [adjust_stock] as the database lets it run: [None] when the [save]
    in it raises, the stock that it writes being outside the column;
    the tables are then as before the call. A call that returns
    [False] writes nothing. *)
Definition Product_adjust_stock_checked (stock_max now : Z) (self_pk : nat)
    (self : Product.t) (quantity : Z) (operation : string) (db : DB)
  : option (bool * Product.t * DB) :=
  let r := Product_adjust_stock now self_pk self quantity operation db in
  if r.1.1 && negb (stock_in_column stock_max (Product.stock r.1.2)) then None
  else Some r.

(** ** StockMovement *)

(** [StockMovement.save()]: the product is the movement's related row;
    its stock is changed by type, it is saved, then the movement row is
    inserted. When the new stock is outside the column the database
    refuses the product row, [product.save()] raises, and neither the
    product row nor the movement is written: [None], as when the
    product row does not exist. The movement row is inserted as given;
    its own columns hold every movement of a declared type whose
    product row was accepted. *)
Definition StockMovement_save (stock_max now : Z) (self : StockMovement.t)
    (db : DB) : option (Product.t * DB) :=
  product ← products db !! StockMovement.product self;
  let stock := Product.stock product in
  let product1 :=
    if String.eqb (StockMovement.type self) "in" then
      Product.set_stock (stock + StockMovement.quantity self) product
    else if String.eqb (StockMovement.type self) "out" then
      Product.set_stock (stock - Z.abs (StockMovement.quantity self)) product
    else if String.eqb (StockMovement.type self) "adjustment" then
      Product.set_stock (stock + StockMovement.quantity self) product
    else product in
  let product2 := Product.set_last_stock_update now product1 in
  if stock_in_column stock_max (Product.stock product2) then
    let '(product3, db1) := Product_save now (StockMovement.product self) product2 db in
    Some (product3, set_stock_movements (stock_movements db1 ++ [self]) db1)
  else None.

(** ** Sequences of stock operations *)

(** A call of [adjust_stock] on an instance, or the [save] of a
    movement. *)
Inductive stock_operation :=
  | Adjust_stock (pk : nat) (self : Product.t) (quantity : Z) (operation : string)
  | Movement_save (movement : StockMovement.t).

(** The tables after one operation; an operation that raises leaves
    them as they are. *)
Definition run_stock_operation (stock_max now : Z) (db : DB) (op : stock_operation)
  : DB :=
  match op with
  | Adjust_stock pk self quantity operation =>
      match
        Product_adjust_stock_checked stock_max now pk self quantity operation db
      with
      | Some (_, _, db') => db'
      | None => db
      end
  | Movement_save movement =>
      match StockMovement_save stock_max now movement db with
      | Some (_, db') => db'
      | None => db
      end
  end.

(** The tables after each operation of a sequence, in order. *)
Fixpoint stock_trace (stock_max now : Z) (db : DB) (ops : list stock_operation)
  : list DB :=
  match ops with
  | [] => []
  | op :: rest =>
      let db' := run_stock_operation stock_max now db op in
      db' :: stock_trace stock_max now db' rest
  end.

(** ** Order and OrderItem *)

(** [Order.objects.create(user=..., total_amount=...)]: the key comes
    from the table's sequence, [status] takes its default. *)
Definition Order_objects_create (now : Z) (user : nat) (total_amount : Z) (db : DB)
  : nat * Order.t * DB :=
  let pk := order_seq db in
  let order := Order.mk user "pending" total_amount now in
  (pk, order,
   mkDB (products db) (carts db) (cart_items db) (<[pk := order]> (orders db))
        (order_items db) (reviews db) (stock_movements db)
        (S pk) (order_item_seq db) (review_seq db)).

(** [OrderItem.objects.create(order=..., product=..., quantity=..., price=...)]. *)
Definition OrderItem_objects_create (order product : nat) (quantity price : Z)
    (db : DB) : DB :=
  let item := OrderItem.mk (order_item_seq db) order product quantity price in
  mkDB (products db) (carts db) (cart_items db) (orders db)
       (order_items db ++ [item]) (reviews db) (stock_movements db)
       (order_seq db) (S (order_item_seq db)) (review_seq db).

(** [Order.save()]: [updated_at] is [auto_now]. *)
Definition Order_save (now : Z) (self_pk : nat) (self : Order.t) (db : DB)
  : Order.t * DB :=
  let self' := Order.set_updated_at now self in
  (self',
   mkDB (products db) (carts db) (cart_items db) (<[self_pk := self']> (orders db))
        (order_items db) (reviews db) (stock_movements db)
        (order_seq db) (order_item_seq db) (review_seq db)).

(** [order.items.all()]: the related manager of [OrderItem.order]. *)
Definition Order_items (db : DB) (self_pk : nat) : list OrderItem.t :=
  filter (λ i, OrderItem.order i = self_pk) (order_items db).

(** The loop of [cancel_order]: each item's product is loaded when
    [item.product] is first read, then credited through [adjust_stock]. *)
Fixpoint cancel_restore (now : Z) (items : list OrderItem.t) (db : DB) : option DB :=
  match items with
  | [] => Some db
  | item :: rest =>
      product ← products db !! OrderItem.product item;
      let '(_, _, db') :=
        Product_adjust_stock now (OrderItem.product item) product
                             (OrderItem.quantity item) "add" db in
      cancel_restore now rest db'
  end.

(** [Order.cancel_order()]: the returned pair, the instance and the
    database. *)
Definition Order_cancel_order (now : Z) (self_pk : nat) (self : Order.t) (db : DB)
  : option (bool * string * Order.t * DB) :=
  if negb (Order.can_cancel self) then
    Some (false, "Order cannot be cancelled", self, db)
  else
    db1 ← cancel_restore now (Order_items db self_pk) db;
    let self1 := Order.set_status "cancelled" self in
    let '(self2, db2) := Order_save now self_pk self1 db1 in
    Some (true, "Order cancelled successfully", self2, db2).

(** ** Cart *)

(** [cart.items.all()]: the related manager of [CartItem.cart]. *)
Definition Cart_items (db : DB) (self_pk : nat) : list CartItem.t :=
  filter (λ i, CartItem.cart i = self_pk) (cart_items db).

(** [CartItem.subtotal()]: [self.product.price * self.quantity]. *)
Definition CartItem_subtotal (db : DB) (self : CartItem.t) : option Z :=
  product ← products db !! CartItem.product self;
  Some (Product.price product * CartItem.quantity self).

(** [sum(item.subtotal() for item in items)]. *)
Fixpoint sum_subtotals (db : DB) (items : list CartItem.t) : option Z :=
  match items with
  | [] => Some 0
  | item :: rest =>
      s ← CartItem_subtotal db item;
      t ← sum_subtotals db rest;
      Some (s + t)
  end.

(** [Cart.total_price()]. *)
Definition Cart_total_price (db : DB) (self_pk : nat) : option Z :=
  sum_subtotals db (Cart_items db self_pk).

(** [Cart.total_items()]. *)
Definition Cart_total_items (db : DB) (self_pk : nat) : Z :=
  foldr (λ item acc, CartItem.quantity item + acc) 0 (Cart_items db self_pk).

(** [Cart.save()]: [updated_at] is [auto_now]. *)
Definition Cart_save (now : Z) (self_pk : nat) (self : Cart.t) (db : DB)
  : Cart.t * DB :=
  let self' := Cart.set_updated_at now self in
  (self', set_carts (<[self_pk := self']> (carts db)) db).

(** The first loop of [checkout]: the message of the first line that
    fails a test, [None] when every line passes. *)
Fixpoint checkout_validate (db : DB) (items : list CartItem.t) : option (option string) :=
  match items with
  | [] => Some None
  | item :: rest =>
      product ← products db !! CartItem.product item;
      if negb (Product.available product) then
        Some (Some ("Product " ++ Product.name product ++ " is not available"))
      else if CartItem.quantity item >? Product.stock product then
        Some (Some ("Insufficient stock for " ++ Product.name product))
      else checkout_validate db rest
  end.

(** The second loop of [checkout]: an order line per cart line at the
    product's price, then the stock debit, whose result is dropped. *)
Fixpoint checkout_process (now : Z) (order_pk : nat) (items : list CartItem.t)
    (db : DB) : option DB :=
  match items with
  | [] => Some db
  | item :: rest =>
      product ← products db !! CartItem.product item;
      let db1 := OrderItem_objects_create order_pk (CartItem.product item)
                   (CartItem.quantity item) (Product.price product) db in
      let '(_, _, db2) :=
        Product_adjust_stock now (CartItem.product item) product
                             (CartItem.quantity item) "remove" db1 in
      checkout_process now order_pk rest db2
  end.

(** What [checkout] returns next to its boolean: the message, or the
    order it created. *)
Inductive checkout_payload :=
  | Message (m : string)
  | Created (order_pk : nat) (order : Order.t).

(** [Cart.checkout()]: the returned pair, the instance and the database. *)
Definition Cart_checkout (now : Z) (self_pk : nat) (self : Cart.t) (db : DB)
  : option (bool * checkout_payload * Cart.t * DB) :=
  failure ← checkout_validate db (Cart_items db self_pk);
  match failure with
  | Some m => Some (false, Message m, self, db)
  | None =>
      total ← Cart_total_price db self_pk;
      let '(order_pk, order, db1) :=
        Order_objects_create now (Cart.user self) total db in
      db2 ← checkout_process now order_pk (Cart_items db1 self_pk) db1;
      let self1 := Cart.set_status "checked_out" self in
      let '(self2, db3) := Cart_save now self_pk self1 db2 in
      Some (true, Created order_pk order, self2, db3)
  end.

(** ** CartViewSet *)

Inductive Response :=
  | HTTP_200_OK (order_pk : nat) (order : Order.t)
  | HTTP_400_BAD_REQUEST (error : string)
  | HTTP_404_NOT_FOUND.

(** [get_object_or_404(Cart, user=request.user)]. *)
Definition Cart_get_by_user (db : DB) (user : nat) : option (nat * Cart.t) :=
  snd <$> list_find (λ kc, Cart.user kc.2 = user) (map_to_list (carts db)).

(** [Order.objects.filter(user=user, status="pending").exists()]. *)
Definition pending_order_exists (db : DB) (user : nat) : bool :=
  bool_decide
    (filter (λ ko, Order.user ko.2 = user ∧ Order.status ko.2 = "pending")
            (map_to_list (orders db)) ≠ []).

(** The choices of [Order.status], against which the serializer checks
    a status sent with the request. *)
Definition Order_STATUS_CHOICES : list string :=
  ["pending"; "processing"; "shipped"; "delivered"; "cancelled"].

(** The message of the serializer for a status outside the choices:
    the value between double quotes, then the text. *)
Definition invalid_choice (value : string) : string :=
  String "034"%char (value ++ String "034"%char " is not a valid choice.").

(** [CartViewSet.checkout(request)]: the action calls the serializer's
    [create], which makes an order of amount 0, and then deletes the
    cart's lines. [request_status] is the only writable field of the
    request body. *)
Definition CartViewSet_checkout (now : Z) (request_user : nat)
    (request_status : option string) (db : DB) : Response * DB :=
  match Cart_get_by_user db request_user with
  | None => (HTTP_404_NOT_FOUND, db)
  | Some (cart_pk, cart) =>
      if bool_decide (Cart_items db cart_pk = []) then
        (HTTP_400_BAD_REQUEST "Cannot create an order from an empty cart.", db)
      else if
        match request_status with
        | Some s => negb (bool_decide (s ∈ Order_STATUS_CHOICES))
        | None => false
        end
      then (HTTP_400_BAD_REQUEST (invalid_choice (default "" request_status)), db)
      else if pending_order_exists db request_user then
        (HTTP_400_BAD_REQUEST "You have an existing pending order.", db)
      else
        let '(order_pk, order, db1) := Order_objects_create now request_user 0 db in
        let db2 :=
          set_cart_items (filter (λ i, CartItem.cart i ≠ cart_pk) (cart_items db1)) db1 in
        (HTTP_200_OK order_pk order, db2)
  end.

(** ** Review *)

(** [OrderItem] row of a given key, as the descriptor of
    [Review.order_item] loads it. *)
Definition OrderItem_objects_get (db : DB) (pk : nat) : option OrderItem.t :=
  snd <$> list_find (λ i, OrderItem.pk i = pk) (order_items db).

(** [product.reviews.filter(is_visible=True)]: the selected rows with
    their keys. *)
Definition visible_reviews (db : DB) (product_pk : nat) : list (nat * Review.t) :=
  filter (λ kr, Review.product kr.2 = product_pk ∧ Review.is_visible kr.2 = true)
         (map_to_list (reviews db)).

Definition sum_ratings (rs : list (nat * Review.t)) : Z :=
  foldr (λ kr acc, Review.rating kr.2 + acc) 0 rs.

(** [reviews.aggregate(avg_rating=Avg('rating'))['avg_rating']] on a
    non-empty selection: the sum of the ratings over their number. *)
Definition Avg_rating (rs : list (nat * Review.t)) : Q :=
  Qmake (sum_ratings rs) (Pos.of_nat (length rs)).

(** The note that [report] appends; it starts with a line feed. *)
Definition auto_hidden_note : string :=
  String "010"%char "Auto-hidden due to multiple reports.".

Section Review_methods.

(** [round(avg_rating, 2)], as hundredths. The aggregate reaches Python
    as a binary float, whose rounding is not the rounding of the exact
    mean at every tie; no property of the function is assumed. *)
Variable round2 : Q → Z.

(** [Review.update_product_rating()]. *)
Definition Review_update_product_rating (now : Z) (self : Review.t) (db : DB)
  : option DB :=
  product ← products db !! Review.product self;
  let reviews := visible_reviews db (Review.product self) in
  if bool_decide (reviews ≠ []) then
    let avg_rating := Avg_rating reviews in
    let product1 := Product.set_average_rating (round2 avg_rating) product in
    let product2 := Product.set_total_reviews (Z.of_nat (length reviews)) product1 in
    Some (Product_save now (Review.product self) product2 db).2
  else Some db.

(** The first statement of [Review.save()]: the purchase check. *)
Definition Review_verify_purchase (self : Review.t) (db : DB) : option Review.t :=
  if negb (Review.is_verified_purchase self) then
    match Review.order_item self with
    | Some item_pk =>
        item ← OrderItem_objects_get db item_pk;
        order ← orders db !! OrderItem.order item;
        if bool_decide (Order.user order = Review.user self)
           && String.eqb (Order.status order) "delivered"
           && bool_decide (OrderItem.product item = Review.product self)
        then Some (Review.set_is_verified_purchase true self)
        else Some self
    | None => Some self
    end
  else Some self.

(** [super().save()]: an instance without key is inserted under the
    next key of the sequence; [updated_at] is [auto_now]. *)
Definition Review_super_save (now : Z) (self_pk : option nat) (self : Review.t)
    (db : DB) : nat * Review.t * DB :=
  let self' := Review.set_updated_at now self in
  let pk := default (review_seq db) self_pk in
  (pk, self',
   mkDB (products db) (carts db) (cart_items db) (orders db) (order_items db)
        (<[pk := self']> (reviews db)) (stock_movements db)
        (order_seq db) (order_item_seq db)
        (match self_pk with Some _ => review_seq db | None => S (review_seq db) end)).

(** [Review.save()]: the key of the row, the instance and the database. *)
Definition Review_save (now : Z) (self_pk : option nat) (self : Review.t) (db : DB)
  : option (nat * Review.t * DB) :=
  self1 ← Review_verify_purchase self db;
  let '(pk, self2, db1) := Review_super_save now self_pk self1 db in
  db2 ← Review_update_product_rating now self2 db1;
  Some (pk, self2, db2).

(** [Review.report()]. *)
Definition Review_report (now : Z) (self_pk : option nat) (self : Review.t) (db : DB)
  : option (nat * Review.t * DB) :=
  let self1 := Review.set_reported_count (Review.reported_count self + 1) self in
  let self2 :=
    if Review.reported_count self1 >=? 5 then
      Review.set_moderation_notes
        (Review.moderation_notes self1 ++ auto_hidden_note)
        (Review.set_is_visible false self1)
    else self1 in
  Review_save now self_pk self2 db.

End Review_methods.

(** Rounding of [n/d] ([0 < d]) to the nearest integer, ties to even. *)
Definition round_half_even (n d : Z) : Z :=
  let q := n / d in
  let r2 := 2 * (n mod d) in
  if r2 <? d then q
  else if d <? r2 then q + 1
  else if Z.even q then q else q + 1.

(** Rounding to two decimals of an exact quotient, as hundredths: the
    instance of [round2] that the examples run with. *)
Definition round_half_even_2dp (x : Q) : Z :=
  round_half_even (100 * Qnum x) (Z.pos (Qden x)).

(** *** The rounding of the source

    [Avg('rating')] reaches Python as a float, the double nearest to
    the mean; [round(avg_rating, 2)] rounds the exact value of that
    double to two decimals, ties to even; the [DecimalField] stores the
    hundredths. *)

(** [2^e] for a positive [e], 1 otherwise. *)
Definition pow2 (e : Z) : Z := 2 ^ Z.max 0 e.

(** The binade of [a/d] ([0 < a], [0 < d]): the [b] with
    [2^b <= a/d < 2^(b+1)]. *)
Definition binade (a d : Z) : Z :=
  let l := Z.log2 a - Z.log2 d in
  if a * pow2 (- l) <? d * pow2 l then l - 1 else l.

(** The double nearest to a rational, ties to the even mantissa, as the
    rational that it is: a mantissa of 53 bits times a power of 2. The
    exponent range of a double is left out: a mean of small integers is
    far inside it. *)
Definition float_of_Q (x : Q) : Q :=
  let n := Qnum x in
  let d := Z.pos (Qden x) in
  if n =? 0 then 0%Q
  else
    let e := binade (Z.abs n) d - 52 in
    let m := round_half_even (n * pow2 (- e)) (d * pow2 e) in
    Qmake (m * pow2 e) (Z.to_pos (pow2 (- e))).

(** [round(avg_rating, 2)] on the aggregate, as hundredths. *)
Definition python_round2 (x : Q) : Z := round_half_even_2dp (float_of_Q x).

(** ** Concrete tables used by the examples *)

Definition widget : Product.t := Product.mk "Widget" 5000 10 true 0 0 0 0.

Definition sold_out : Product.t := Product.mk "Gadget" 1999 0 true 0 0 0 0.

(** One product with stock 10 at 50.00, and the cart of user 7 holding
    three units of it. *)
Definition db_scenario : DB :=
  mkDB {[ 1%nat := widget ]} {[ 1%nat := Cart.mk 7 "active" 0 ]}
       [CartItem.mk 1 1 3] ∅ [] ∅ [] 1 1 1.

(** A product without stock. *)
Definition db_sold_out : DB :=
  mkDB {[ 1%nat := sold_out ]} ∅ [] ∅ [] ∅ [] 1 1 1.


(** The same cart asking for eleven units, one more than the stock. *)
Definition db_eleven : DB :=
  mkDB {[ 1%nat := widget ]} {[ 1%nat := Cart.mk 7 "active" 0 ]}
       [CartItem.mk 1 1 11] ∅ [] ∅ [] 1 1 1.

(** ** Predicates of the statements *)

(** A cart line passes the tests of [checkout]: its product is
    available and holds at least the line's quantity. *)
Definition line_ok (db : DB) (item : CartItem.t) : Prop :=
  ∃ p, products db !! CartItem.product item = Some p
       ∧ Product.available p = true
       ∧ CartItem.quantity item ≤ Product.stock p.

(** A cart line fails a test of [checkout], and [m] is the message for
    it, which carries the product's name. *)
Definition line_offends (db : DB) (item : CartItem.t) (m : string) : Prop :=
  ∃ p, products db !! CartItem.product item = Some p
       ∧ ((Product.available p = false
           ∧ m = "Product " ++ Product.name p ++ " is not available")
          ∨ (Product.available p = true
             ∧ Product.stock p < CartItem.quantity item
             ∧ m = "Insufficient stock for " ++ Product.name p)).

(** Every line of a list points to a product row. *)
Definition lines_have_product (db : DB) (items : list CartItem.t) : Prop :=
  Forall (λ item, is_Some (products db !! CartItem.product item)) items.

(** [sum(item.subtotal() for item in order.items.all())]. *)
Definition Order_items_total (db : DB) (order_pk : nat) : Z :=
  foldr (λ item acc, OrderItem.subtotal item + acc) 0 (Order_items db order_pk).

(** The order lines present refer to orders whose key the sequence has
    already given out. *)
Definition order_lines_below_seq (db : DB) : Prop :=
  Forall (λ item, (OrderItem.order item < order_seq db)%nat) (order_items db).

(** The order line [oi] of order [order_pk] copies the cart line [ci]
    and carries the price that the product has in [db]. *)
Definition line_snapshot (order_pk : nat) (db : DB) (ci : CartItem.t)
    (oi : OrderItem.t) : Prop :=
  OrderItem.order oi = order_pk
  ∧ OrderItem.product oi = CartItem.product ci
  ∧ OrderItem.quantity oi = CartItem.quantity ci
  ∧ Product.price <$> products db !! CartItem.product ci = Some (OrderItem.price oi).

(** The quantity that the lines [items] record for product [product_pk]. *)
Definition credited (product_pk : nat) (items : list OrderItem.t) : Z :=
  foldr (λ item acc, OrderItem.quantity item + acc) 0
        (filter (λ i, OrderItem.product i = product_pk) items).

(** Every order line of a list points to a product row. *)
Definition order_lines_have_product (db : DB) (items : list OrderItem.t) : Prop :=
  Forall (λ item, is_Some (products db !! OrderItem.product item)) items.

(** The tables after the three units were ordered: order 1 of user 7
    with one line, and seven units left. *)
Definition db_ordered : DB :=
  mkDB {[ 1%nat := Product.set_stock 7 widget ]}
       {[ 1%nat := Cart.mk 7 "checked_out" 0 ]}
       [CartItem.mk 1 1 3]
       {[ 1%nat := Order.mk 7 "pending" 15000 0 ]}
       [OrderItem.mk 1 1 1 3 5000] ∅ [] 2 2 1.

(** The foreign keys of a review instance point to rows: its product,
    and, when it has one, its order line and that line's order. *)
Definition Review_integrity (db : DB) (self : Review.t) : Prop :=
  is_Some (products db !! Review.product self)
  ∧ match Review.order_item self with
    | Some item_pk =>
        ∃ item, OrderItem_objects_get db item_pk = Some item
                ∧ is_Some (orders db !! OrderItem.order item)
    | None => True
    end.

(** No other row has the user and the product of the instance: the
    constraint [one_review_per_user_product] of the table does not
    stand in the way of its [save]. *)
Definition Review_unique (db : DB) (self_pk : option nat) (self : Review.t) : Prop :=
  ∀ k r, reviews db !! k = Some r →
         Review.user r = Review.user self →
         Review.product r = Review.product self →
         self_pk = Some k.

(** The rating is one of [RATING_CHOICES]. *)
Definition rating_in_choices (r : Review.t) : Prop := 1 ≤ Review.rating r ≤ 5.

(** The review refers to an order line of the reviewed product in a
    delivered order of the reviewer. *)
Definition bought_and_delivered (db : DB) (self : Review.t) : Prop :=
  ∃ item_pk item order,
    Review.order_item self = Some item_pk
    ∧ OrderItem_objects_get db item_pk = Some item
    ∧ orders db !! OrderItem.order item = Some order
    ∧ Order.status order = "delivered"
    ∧ Order.user order = Review.user self
    ∧ OrderItem.product item = Review.product self.

(** The single review of the product below: four stars, visible,
    reported four times so far. *)
Definition review_four_stars : Review.t :=
  Review.mk 1 7 4 false None 0 4 true "" 0.

(** A product rated 4.00 by its one review. *)
Definition db_reviewed : DB :=
  mkDB {[ 1%nat := Product.mk "Widget" 5000 10 true 400 1 0 0 ]} ∅ [] ∅ []
       {[ 1%nat := review_four_stars ]} [] 1 1 2.

(** The tables after order 1 was delivered. *)
Definition db_delivered : DB :=
  mkDB {[ 1%nat := Product.set_stock 7 widget ]}
       {[ 1%nat := Cart.mk 7 "checked_out" 0 ]}
       [CartItem.mk 1 1 3]
       {[ 1%nat := Order.mk 7 "delivered" 15000 0 ]}
       [OrderItem.mk 1 1 1 3 5000] ∅ [] 2 2 1.

(** A new review by user 7 of product 1, referring to order line 1. *)
Definition review_of_purchase : Review.t :=
  Review.mk 1 7 5 false (Some 1%nat) 0 0 true "" 0.

(** A second review of the same product, by user 8: five stars. *)
Definition review_five_stars : Review.t :=
  Review.mk 1 8 5 false None 0 0 true "" 0.

(** The quantity that the cart lines [items] ask of product [product_pk]. *)
Definition debited (product_pk : nat) (items : list CartItem.t) : Z :=
  foldr (λ item acc, CartItem.quantity item + acc) 0
        (filter (λ i, CartItem.product i = product_pk) items).

(** ** Sequences of stock movements *)

(** The change of stock that [StockMovement.save] applies for a
    movement: its quantity for [in] and [adjustment], minus the
    absolute value of its quantity for [out], nothing for another type. *)
Definition movement_delta (m : StockMovement.t) : Z :=
  if String.eqb (StockMovement.type m) "in" then StockMovement.quantity m
  else if String.eqb (StockMovement.type m) "out" then
    - Z.abs (StockMovement.quantity m)
  else if String.eqb (StockMovement.type m) "adjustment" then
    StockMovement.quantity m
  else 0.

(** The movements [ms] saved one after the other, the product of each
    being read from the table when the movement is saved (as for
    movements given by product key, or sharing one product instance). *)
Fixpoint StockMovement_save_all (stock_max now : Z) (ms : list StockMovement.t)
    (db : DB)
  : option DB :=
  match ms with
  | [] => Some db
  | m :: rest =>
      r ← StockMovement_save stock_max now m db;
      StockMovement_save_all stock_max now rest r.2
  end.

(** The sum of the changes that the movements [ms] apply to product
    [product_pk]. *)
Definition ledger_delta (product_pk : nat) (ms : list StockMovement.t) : Z :=
  foldr (λ m acc, movement_delta m + acc) 0
        (filter (λ m, StockMovement.product m = product_pk) ms).

(** Every movement of a list points to a product row. *)
Definition movements_have_product (db : DB) (ms : list StockMovement.t) : Prop :=
  Forall (λ m, is_Some (products db !! StockMovement.product m)) ms.

(** The type of a movement is one of [MOVEMENT_TYPES]. *)
Definition movement_type_declared (m : StockMovement.t) : Prop :=
  StockMovement.type m = "in" ∨ StockMovement.type m = "out"
  ∨ StockMovement.type m = "adjustment".

(** By the ledger, the stock of a movement's product is inside the
    column after the movement, for every movement of the list. *)
Definition ledger_in_column (stock_max : Z) (db : DB) (ms : list StockMovement.t)
  : Prop :=
  ∀ (i : nat) m p,
    ms !! i = Some m →
    products db !! StockMovement.product m = Some p →
    stock_in_column stock_max
      (Product.stock p + ledger_delta (StockMovement.product m) (take (S i) ms))
    = true.

(** No product row has a negative stock. *)
Definition stocks_nonneg (db : DB) : Prop :=
  map_Forall (λ _ p, 0 ≤ Product.stock p) (products db).

(** A delivery of five units, then two units taken out, entered with a
    negative quantity. *)
Definition movements_in_out : list StockMovement.t :=
  [StockMovement.mk 1 5 "in"; StockMovement.mk 1 (-2) "out"].

(** ** Tables of the further examples *)

(** The scenario without any cart line. *)
Definition db_empty_cart : DB :=
  mkDB {[ 1%nat := widget ]} {[ 1%nat := Cart.mk 7 "active" 0 ]}
       [] ∅ [] ∅ [] 1 1 1.

(** No order line of a list records a negative quantity. *)
Definition quantities_nonneg (items : list OrderItem.t) : Prop :=
  Forall (λ item, 0 ≤ OrderItem.quantity item) items.

(** ** CartItem: validation on save *)

(** [CartItem.clean()]: [None] inside when it returns, the message of
    the [ValidationError] when it raises one. The stock is tested
    before the availability. *)
Definition CartItem_clean (db : DB) (self : CartItem.t) : option (option string) :=
  product ← products db !! CartItem.product self;
  if CartItem.quantity self >? Product.stock product then
    Some (Some ("Only " ++ pretty (Product.stock product)
                ++ " items available in stock"))
  else if negb (Product.available product) then
    Some (Some "This product is not available")
  else Some None.

(** The pairs that [unique_together = ("cart", "product")] keeps apart. *)
Definition cart_line_keys (items : list CartItem.t) : list (nat * nat) :=
  (λ i, (CartItem.cart i, CartItem.product i)) <$> items.

(** [validate_unique()] for an instance without key: no line of the
    table has its cart and product. *)
Definition CartItem_validate_unique (db : DB) (self : CartItem.t) : bool :=
  bool_decide ((CartItem.cart self, CartItem.product self)
               ∉ cart_line_keys (cart_items db)).

Section CartItem_save.

(** [clean_fields()]: the checks that the framework derives from the
    column types; no property of them is assumed. *)
Variable clean_fields : DB → CartItem.t → bool.

(** [full_clean()]: the field checks, [clean], then the uniqueness
    check; [true] when no [ValidationError] is raised. *)
Definition CartItem_full_clean (db : DB) (self : CartItem.t) : option bool :=
  clean_error ← CartItem_clean db self;
  Some (clean_fields db self
        && bool_decide (clean_error = None)
        && CartItem_validate_unique db self).

(** [CartItem.save()] on an instance without key: [Some db'] inside
    when the line is inserted, [None] inside when [full_clean] raises
    its [ValidationError]. *)
Definition CartItem_save (db : DB) (self : CartItem.t) : option (option DB) :=
  ok ← CartItem_full_clean db self;
  if ok : bool then Some (Some (set_cart_items (cart_items db ++ [self]) db))
  else Some None.

End CartItem_save.

(** The cart of user 7 holding one unit of a product without stock. *)
Definition db_sold_out_cart : DB :=
  mkDB {[ 1%nat := sold_out ]} {[ 1%nat := Cart.mk 7 "active" 0 ]}
       [CartItem.mk 1 1 1] ∅ [] ∅ [] 1 1 1.

(** A discontinued product of which two units are left. *)
Definition db_discontinued : DB :=
  mkDB {[ 1%nat := Product.mk "Widget" 5000 2 false 0 0 0 0 ]}
       {[ 1%nat := Cart.mk 7 "active" 0 ]} [] ∅ [] ∅ [] 1 1 1.

(** ** Reviews: repeated reports, and creation through the view *)

(** [k] copies of the note of [report], one after the other. *)
Fixpoint note_times (k : nat) : string :=
  match k with
  | O => ""
  | S k' => auto_hidden_note ++ note_times k'
  end.

(** [Review.objects.filter(user=..., product=...).exists()]. *)
Definition review_exists (db : DB) (user product : nat) : bool :=
  bool_decide
    (map_Exists (λ _ r, Review.user r = user ∧ Review.product r = product)
                (reviews db)).

(** [OrderItem.objects.filter(order__user=..., order__status="delivered",
    product=...).exists()]. *)
Definition delivered_purchase_exists (db : DB) (user product : nat) : bool :=
  existsb
    (λ item,
       match orders db !! OrderItem.order item with
       | Some order =>
           bool_decide (Order.user order = user)
           && String.eqb (Order.status order) "delivered"
           && bool_decide (OrderItem.product item = product)
       | None => false
       end)
    (order_items db).

(** No two reviews are by the same user on the same product. *)
Definition one_review_per_user_product (db : DB) : Prop :=
  ∀ k1 k2 r1 r2,
    reviews db !! k1 = Some r1 → reviews db !! k2 = Some r2 →
    Review.user r1 = Review.user r2 → Review.product r1 = Review.product r2 →
    k1 = k2.

Section Review_view.

Variable round2 : Q → Z.

(** [report()] called [n] times on a stored review, each call on the
    instance that the one before left. *)
Fixpoint Review_report_times (now : Z) (n : nat) (self_pk : nat) (self : Review.t)
    (db : DB) : option (Review.t * DB) :=
  match n with
  | O => Some (self, db)
  | S n' =>
      r ← Review_report round2 now (Some self_pk) self db;
      Review_report_times now n' self_pk r.1.2 r.2
  end.

(** [ReviewViewSet.perform_create(serializer)], the product and the
    rating being the validated data that the methods read: on the left
    the message of the [ValidationError], on the right the key and the
    row of the review created and the database. The instance is built
    with the defaults of the columns, and saved by [Review.save]. *)
Definition ReviewViewSet_perform_create (now : Z) (request_user product : nat)
    (rating : Z) (db : DB) : option (string + nat * Review.t * DB) :=
  if review_exists db request_user product then
    Some (inl "You have already reviewed this product")
  else
    let is_verified := delivered_purchase_exists db request_user product in
    let review :=
      Review.mk product request_user rating is_verified None 0 0 true "" now in
    inr <$> Review_save round2 now None review db.

End Review_view.

(** User [user] has a delivered order with a line for [product]. *)
Definition delivered_purchase (db : DB) (user product : nat) : Prop :=
  ∃ item order,
    item ∈ order_items db
    ∧ orders db !! OrderItem.order item = Some order
    ∧ Order.user order = user
    ∧ Order.status order = "delivered"
    ∧ OrderItem.product item = product.

(** ** Wishlist *)

Module WishlistItem.
Record t := mk {
  pk : nat;
  user : nat;
  product : nat;
  added_at : Z;
  notes : string
}.
End WishlistItem.

(** The wishlist table with the sequence of its keys. *)
Record Wishlist := mkWishlist {
  wishlist_items : list WishlistItem.t;
  wishlist_seq : nat
}.

(** [WishlistItem.objects.filter(user=..., product=...)]. *)
Definition wishlist_filter (w : Wishlist) (user product : nat) : list WishlistItem.t :=
  filter (λ r, WishlistItem.user r = user ∧ WishlistItem.product r = product)
         (wishlist_items w).

(** [.first()] under [ordering = ['-added_at']]: a row of the latest
    [added_at], the earliest in the table among those. *)
Fixpoint latest_added (rows : list WishlistItem.t) : option WishlistItem.t :=
  match rows with
  | [] => None
  | r :: rest =>
      match latest_added rest with
      | Some r' =>
          if WishlistItem.added_at r <? WishlistItem.added_at r' then Some r'
          else Some r
      | None => Some r
      end
  end.

(** What the [toggle] action answers: status 200 with [removed],
    status 201 with [added], or the message of a [ValidationError]. *)
Inductive toggle_response :=
  | Toggle_removed
  | Toggle_added
  | Toggle_invalid (message : string).

(** [WishlistViewSet.toggle(request)] for a body in which [product_id]
    is a number, or which has none ([None]). The number 0 is falsy and
    counts as missing. *)
Definition WishlistViewSet_toggle (now : Z) (request_user : nat)
    (product_id : option nat) (db : DB) (w : Wishlist) : toggle_response * Wishlist :=
  match product_id with
  | None | Some O => (Toggle_invalid "Product ID is required", w)
  | Some pid =>
      match products db !! pid with
      | None => (Toggle_invalid "Invalid product ID", w)
      | Some _ =>
          match latest_added (wishlist_filter w request_user pid) with
          | Some wishlist_item =>
              (Toggle_removed,
               mkWishlist
                 (filter (λ r, WishlistItem.pk r ≠ WishlistItem.pk wishlist_item)
                         (wishlist_items w))
                 (wishlist_seq w))
          | None =>
              (Toggle_added,
               mkWishlist
                 (wishlist_items w
                  ++ [WishlistItem.mk (wishlist_seq w) request_user pid now ""])
                 (S (wishlist_seq w)))
          end
      end
  end.

(** [WishlistViewSet.check_product(request)] for a parameter that is
    the decimal writing of a number, or is missing or empty ([None]):
    the message of the [ValidationError] when it is missing, else the
    value of [in_wishlist]. *)
Definition WishlistViewSet_check_product (request_user : nat)
    (product_id : option nat) (w : Wishlist) : string + bool :=
  match product_id with
  | None => inl "Product ID is required"
  | Some pid => inr (bool_decide (wishlist_filter w request_user pid ≠ []))
  end.

(** A user has a product on the wishlist. *)
Definition in_wishlist (w : Wishlist) (user product : nat) : Prop :=
  ∃ r, r ∈ wishlist_items w
       ∧ WishlistItem.user r = user ∧ WishlistItem.product r = product.

(** The keys of the rows are distinct and below the sequence, and no
    user has a product twice ([unique_together]). *)
Definition wishlist_wf (w : Wishlist) : Prop :=
  NoDup (WishlistItem.pk <$> wishlist_items w)
  ∧ NoDup ((λ r, (WishlistItem.user r, WishlistItem.product r)) <$> wishlist_items w)
  ∧ Forall (λ r, (WishlistItem.pk r < wishlist_seq w)%nat) (wishlist_items w).

(** User 7 has product 1 on the wishlist, user 8 has nothing. *)
Definition wishlist_of_7 : Wishlist :=
  mkWishlist [WishlistItem.mk 1 7 1 50 ""] 2.

(** ** Address *)

Module Address.
Record t := mk {
  user : nat;
  type : string;
  is_default : bool
}.

Definition set_is_default (v : bool) (a : t) : t := mk (user a) (type a) v.
End Address.

(** The address table with the sequence of its keys. *)
Record AddressBook := mkAddressBook {
  addresses : gmap nat Address.t;
  address_seq : nat
}.

(** [UniqueConstraint(fields=['user', 'type', 'is_default'],
    name='unique_default_address_per_type')]: no two rows agree on the
    three columns. The database holds no table that breaks it, and
    refuses the statement that would. *)
Definition unique_default_address_per_type (rows : gmap nat Address.t) : Prop :=
  map_Forall
    (λ k1 a1,
       map_Forall
         (λ k2 a2,
            Address.user a1 = Address.user a2 →
            Address.type a1 = Address.type a2 →
            Address.is_default a1 = Address.is_default a2 →
            k1 = k2)
         rows)
    rows.

(** The keys of the rows are below the sequence. *)
Definition address_keys_below_seq (book : AddressBook) : Prop :=
  map_Forall (λ k _, (k < address_seq book)%nat) (addresses book).

(** [Address.objects.filter(user=self.user, type=self.type,
    is_default=True).exclude(id=self.id).update(is_default=False)]. *)
Definition demote_other_defaults (self_pk : option nat) (self : Address.t)
    (rows : gmap nat Address.t) : gmap nat Address.t :=
  map_imap
    (λ k a,
       Some (if bool_decide (Address.user a = Address.user self
                             ∧ Address.type a = Address.type self
                             ∧ Address.is_default a = true
                             ∧ Some k ≠ self_pk)
             then Address.set_is_default false a else a))
    rows.

(** [Address.save()]: the key of the row and the table; [None] when
    the database refuses a statement, the [update] of the other
    defaults or the write of the address, and [save] raises
    [IntegrityError]. *)
Definition Address_save (self_pk : option nat) (self : Address.t)
    (book : AddressBook) : option (nat * AddressBook) :=
  rows ←
    (if Address.is_default self then
       let demoted := demote_other_defaults self_pk self (addresses book) in
       if bool_decide (unique_default_address_per_type demoted)
       then Some demoted else None
     else Some (addresses book));
  let pk := default (address_seq book) self_pk in
  let rows' := <[pk := self]> rows in
  if bool_decide (unique_default_address_per_type rows') then
    Some (pk,
          mkAddressBook rows'
            (match self_pk with
             | Some _ => address_seq book
             | None => S (address_seq book)
             end))
  else None.

(** What stands in the way of a [save]: a row of the user and type of
    the address that is not default, beside the address itself if it is
    not default, and beside another row that is default if the address
    is: the row to demote. *)
Definition address_save_clash (self_pk : option nat) (self : Address.t)
    (book : AddressBook) : Prop :=
  ∃ k a,
    addresses book !! k = Some a
    ∧ Address.user a = Address.user self
    ∧ Address.type a = Address.type self
    ∧ Address.is_default a = false
    ∧ if Address.is_default self then
        ∃ k' a', addresses book !! k' = Some a'
                 ∧ Some k' ≠ self_pk
                 ∧ Address.user a' = Address.user self
                 ∧ Address.type a' = Address.type self
                 ∧ Address.is_default a' = true
      else Some k ≠ self_pk.

(** No user has two default addresses of one type. *)
Definition one_default_per_type (book : AddressBook) : Prop :=
  ∀ k1 k2 a1 a2,
    addresses book !! k1 = Some a1 → addresses book !! k2 = Some a2 →
    Address.user a1 = Address.user a2 → Address.type a1 = Address.type a2 →
    Address.is_default a1 = true → Address.is_default a2 = true →
    k1 = k2.

(** User 7 with a default shipping address and a default billing
    address. *)
Definition book_of_7 : AddressBook :=
  mkAddressBook {[ 1%nat := Address.mk 7 "shipping" true;
                   2%nat := Address.mk 7 "billing" true ]} 3.

(** User 7 with two shipping addresses, the second one default. *)
Definition book_of_two : AddressBook :=
  mkAddressBook {[ 1%nat := Address.mk 7 "shipping" false;
                   2%nat := Address.mk 7 "shipping" true ]} 3.

(** ** ProductViewSet: the summary of the reviews action *)

(** The [summary] entry that the [reviews] action adds to its response. *)
Record ReviewsSummary := mkReviewsSummary {
  summary_average_rating : Z;
  summary_total_reviews : Z;
  rating_distribution : list (Z * nat);
  verified_reviews : nat;
  total_reviews_shown : nat
}.

(** [{i: reviews.filter(rating=i).count() for i in range(1, 6)}]. *)
Definition rating_counts (reviews : list (nat * Review.t)) : list (Z * nat) :=
  (λ i, (i, length (filter (λ kr, Review.rating kr.2 = i) reviews)))
    <$> [1; 2; 3; 4; 5].

(** [ProductViewSet.reviews(request)] for a request of the first page,
    its summary: the two stored aggregates of the product, and three
    counts over the visible reviews of the product. The summary is put
    into the data of the paginated response, a dictionary. When the
    product has no visible review the page is the empty list, which is
    falsy: the response is built from the serialized list instead, and
    [update], which a list does not have, raises [AttributeError]. *)
Definition ProductViewSet_reviews_summary (db : DB) (product_pk : nat)
  : option ReviewsSummary :=
  product ← products db !! product_pk;
  let reviews := visible_reviews db product_pk in
  let page := take 10 reviews in
  if bool_decide (page = []) then None
  else
    Some (mkReviewsSummary
            (Product.average_rating product)
            (Product.total_reviews product)
            (rating_counts reviews)
            (length (filter (λ kr, Review.is_verified_purchase kr.2 = true) reviews))
            (length reviews)).

(** The sum of the counts of a rating distribution. *)
Definition distribution_total (d : list (Z * nat)) : nat :=
  foldr (λ e acc, (e.2 + acc)%nat) 0%nat d.

(** ** Password validators *)

(** A Python string as the list of its code points. *)
Abbreviation str := (list N).

(** The character classes of the four searches: [[A-Z]], [[a-z]],
    [[0-9]] and the class of the special characters. *)
Definition is_upper (c : N) : bool := ((65 <=? c) && (c <=? 90))%N.
Definition is_lower (c : N) : bool := ((97 <=? c) && (c <=? 122))%N.
Definition is_digit (c : N) : bool := ((48 <=? c) && (c <=? 57))%N.

(** The code points of the twenty characters of the last class:
    exclamation mark, at sign, number sign, dollar, percent, circumflex,
    ampersand, asterisk, the two parentheses, comma, full stop, question
    mark, double quote, colon, the two braces, vertical bar, less-than
    and greater-than. *)
Definition special_characters : list N :=
  [33; 64; 35; 36; 37; 94; 38; 42; 40; 41; 44; 46; 63; 34; 58; 123; 125; 124;
   60; 62]%N.

Definition is_special (c : N) : bool := bool_decide (c ∈ special_characters).

(** [PasswordComplexityValidator(min_length).validate(password)]:
    [None] when it returns, the code of the [ValidationError] when it
    raises. *)
Definition PasswordComplexityValidator_validate (min_length : Z) (password : str)
  : option string :=
  if Z.of_nat (length password) <? min_length then Some "password_too_short"
  else if negb (existsb is_upper password) then Some "password_no_upper"
  else if negb (existsb is_lower password) then Some "password_no_lower"
  else if negb (existsb is_digit password) then Some "password_no_digit"
  else if negb (existsb is_special password) then Some "password_no_symbol"
  else None.

(** The password [Abc1!xyz]. *)
Definition password_ok : str := [65; 98; 99; 49; 33; 120; 121; 122]%N.

(** ** Product: availability for sale *)

(** [Product.in_stock]: [self.stock > 0 and self.available]. *)
Definition Product_in_stock (self : Product.t) : bool :=
  (Product.stock self >? 0) && Product.available self.

(** ** Signals: the profile and the cart of a saved user *)

Module Profile.
Record t := mk {
  user : nat
}.
End Profile.

(** The profile table, and the sequences of the profile and cart keys. *)
Record Accounts := mkAccounts {
  profiles : gmap nat Profile.t;
  profile_seq : nat;
  cart_seq : nat
}.

(** [Model.objects.filter(user=...)] on a table whose rows have an owner. *)
Definition rows_of {A} (owner : A → nat) (rows : gmap nat A) (user : nat)
  : list (nat * A) :=
  filter (λ kr, owner kr.2 = user) (map_to_list rows).

(** [Model.objects.get_or_create(user=...)]: the table and the sequence
    afterwards. The row is looked up; it is created, as [fresh], when
    there is none; several rows raise [MultipleObjectsReturned]. *)
Definition get_or_create {A} (owner : A → nat) (fresh : A) (seq : nat)
    (rows : gmap nat A) : option (gmap nat A * nat) :=
  match rows_of owner rows (owner fresh) with
  | [] => Some (<[seq := fresh]> rows, S seq)
  | [_] => Some (rows, seq)
  | _ => None
  end.

(** [create_or_update_user_related_models(sender, instance, created)],
    the receiver of [post_save] of a user. Of a profile only the owner
    is kept: the [profile.save()] at the end writes the other fields of
    an existing row, and neither adds a row nor changes an owner. *)
Definition create_or_update_user_related_models (now : Z) (instance : nat)
    (created : bool) (acc : Accounts) (db : DB) : option (Accounts * DB) :=
  p ← get_or_create Profile.user (Profile.mk instance) (profile_seq acc)
        (profiles acc);
  c ← get_or_create Cart.user (Cart.mk instance "active" now) (cart_seq acc)
        (carts db);
  Some (mkAccounts p.1 p.2 c.2, set_carts c.1 db).

(** No two rows of a table have the same owner, and the keys are below
    the sequence. *)
Definition one_row_per_user {A} (owner : A → nat) (seq : nat) (rows : gmap nat A)
  : Prop :=
  (∀ k1 k2 r1 r2, rows !! k1 = Some r1 → rows !! k2 = Some r2 →
                  owner r1 = owner r2 → k1 = k2)
  ∧ ∀ k r, rows !! k = Some r → (k < seq)%nat.

(** The accounts before any user was saved. *)
Definition no_accounts : Accounts := mkAccounts ∅ 1 2.

(** ** Secrets read from the environment *)

(** [str.isspace] on one code point: the white space that [strip]
    removes. *)
Definition is_space (c : N) : bool :=
  (((9 <=? c) && (c <=? 13)) || ((28 <=? c) && (c <=? 32))
   || (c =? 133) || (c =? 160) || (c =? 5760)
   || ((8192 <=? c) && (c <=? 8202))
   || (c =? 8232) || (c =? 8233) || (c =? 8239) || (c =? 8287)
   || (c =? 12288))%N.

Fixpoint str_lstrip (s : str) : str :=
  match s with
  | [] => []
  | c :: rest => if is_space c then str_lstrip rest else s
  end.

Definition str_rstrip (s : str) : str := reverse (str_lstrip (reverse s)).

(** [s.strip()]. *)
Definition str_strip (s : str) : str := str_rstrip (str_lstrip s).

(** [s.startswith(p)]. *)
Fixpoint str_startswith (p s : str) : bool :=
  match p, s with
  | [], _ => true
  | _ :: _, [] => false
  | a :: p', b :: s' => (a =? b)%N && str_startswith p' s'
  end.

(** The scan of [split]: [current] holds, reversed, the piece being
    read; after a separator was found at a position, [skip] counts the
    characters of it still to pass. *)
Fixpoint split_scan (sep : str) (skip : nat) (current : str) (s : str) : list str :=
  match s with
  | [] => [reverse current]
  | c :: rest =>
      match skip with
      | S k => split_scan sep k current rest
      | O =>
          if str_startswith sep s
          then reverse current :: split_scan sep (length sep - 1) [] rest
          else split_scan sep 0 (c :: current) rest
      end
  end.

(** [s.split(sep)]: [None] is the [ValueError] for an empty separator. *)
Definition str_split (s sep : str) : option (list str) :=
  match sep with
  | [] => None
  | _ => Some (split_scan sep 0 [] s)
  end.

(** [sep.join(items)]. *)
Fixpoint str_join (sep : str) (items : list str) : str :=
  match items with
  | [] => []
  | [item] => item
  | item :: rest => (item ++ sep ++ str_join sep rest)%list
  end.

(** [get_list_secret(key, default, separator)] under the environment
    [env]: the variable when it is set, else the default, which is a
    list or [None]. *)
Definition get_list_secret (env : gmap str str) (key : str)
    (default : option (list str)) (separator : str) : option (list str) :=
  match env !! key with
  | Some value =>
      match str_split value separator with
      | Some pieces =>
          Some (filter (λ item : str, item ≠ []) (str_strip <$> pieces))
      | None => None
      end
  | None =>
      match default with
      | Some items => Some items
      | None => Some []
      end
  end.

(** A string is not empty and neither starts nor ends with white space. *)
Definition trimmed (item : str) : Prop :=
  item ≠ []
  ∧ (∀ c, head item = Some c → is_space c = false)
  ∧ (∀ c, last item = Some c → is_space c = false).

(** The hosts [a] and [b], and the value [ a, ,b] in which they are
    set: with spaces, and an empty piece. *)
Definition hosts : list str := [[97]; [98]]%N.
Definition hosts_value : str := [32; 97; 44; 32; 44; 98]%N.
(** * Properties *)

(** ** Stock adjustment *)

Lemma adjust_stock_remove_eq now pk self q db :
  Product_adjust_stock now pk self q "remove" db =
    if Product.stock self >=? q then
      (true, stock_written now (Product.stock self - q) self,
       set_products (<[pk := stock_written now (Product.stock self - q) self]>
                       (products db)) db)
    else (false, self, db).
Proof. unfold Product_adjust_stock; simpl. by destruct (_ >=? _). Qed.

Lemma adjust_stock_add_eq now pk self q db :
  Product_adjust_stock now pk self q "add" db =
    (true, stock_written now (Product.stock self + q) self,
     set_products (<[pk := stock_written now (Product.stock self + q) self]>
                     (products db)) db).
Proof. reflexivity. Qed.

(** With a non-negative quantity, [adjust_stock] keeps a non-negative
    stock non-negative. *)
Lemma adjust_stock_nonneg now pk self q op db :
  0 ≤ Product.stock self → 0 ≤ q →
  0 ≤ Product.stock (Product_adjust_stock now pk self q op db).1.2.
Proof.
  intros Hs Hq. unfold Product_adjust_stock.
  destruct (String.eqb op "remove");
    [destruct (_ >=? _) eqn:E|destruct (String.eqb op "add")]; simpl; lia.
Qed.

(** With a non-negative quantity, [adjust_stock] on an instance of
    non-negative stock leaves every stored stock non-negative, if every
    stored stock was. *)
Lemma adjust_stock_table_nonneg now pk self q op db :
  map_Forall (λ _ p, 0 ≤ Product.stock p) (products db) →
  0 ≤ Product.stock self → 0 ≤ q →
  map_Forall (λ _ p, 0 ≤ Product.stock p)
             (products (Product_adjust_stock now pk self q op db).2).
Proof.
  intros Hall Hs Hq. unfold Product_adjust_stock.
  destruct (String.eqb op "remove");
    [destruct (_ >=? _) eqn:E|destruct (String.eqb op "add")]; simpl; try done.
  - apply map_Forall_insert_2; [|done]. simpl. apply Z.geb_le in E. lia.
  - apply map_Forall_insert_2; [|done]. simpl. lia.
Qed.

(** C5. [adjust_stock(quantity, 'remove')] returns [True] exactly when
    [stock >= quantity]; it then takes [quantity] off the stock, stamps
    the instance and writes it, leaving the other columns as they were;
    when [stock < quantity] it returns [False] and neither the instance
    nor the database changes. *)
Theorem C5_adjust_stock_remove now pk (self : Product.t) q db :
  let '(ok, self', db') := Product_adjust_stock now pk self q "remove" db in
  (ok = true ↔ q ≤ Product.stock self)
  ∧ (q ≤ Product.stock self →
       Product.stock self' = Product.stock self - q
       ∧ products db' !! pk = Some self'
       ∧ Product.last_stock_update self' = now
       ∧ Product.name self' = Product.name self
       ∧ Product.price self' = Product.price self
       ∧ Product.available self' = Product.available self
       ∧ Product.average_rating self' = Product.average_rating self
       ∧ Product.total_reviews self' = Product.total_reviews self)
  ∧ (Product.stock self < q → ok = false ∧ self' = self ∧ db' = db).
Proof.
  rewrite adjust_stock_remove_eq.
  destruct (Product.stock self >=? q) eqn:E.
  - apply Z.geb_le in E. split_and!; [split; [lia|done]| |lia].
    intros _. split_and!; try done. simpl. by rewrite lookup_insert_eq.
  - rewrite Z.geb_leb in E. apply Z.leb_gt in E.
    split_and!; [split; [done|lia]|lia|done].
Qed.

(** ** Stock operations under the check of the column *)

Lemma stock_in_column_spec stock_max s :
  stock_in_column stock_max s = true ↔ 0 ≤ s ≤ stock_max.
Proof. unfold stock_in_column. rewrite andb_true_iff, !Z.leb_le. done. Qed.

(** What [adjust_stock] has written: the row of the instance when it
    returned [True], nothing when it returned [False]. *)
Lemma adjust_stock_cases now pk self q op db :
  let '(ok, self', db') := Product_adjust_stock now pk self q op db in
  if ok then db' = set_products (<[pk := self']> (products db)) db
  else self' = self ∧ db' = db.
Proof.
  unfold Product_adjust_stock.
  destruct (String.eqb op "remove");
    [destruct (_ >=? _)|destruct (String.eqb op "add")]; done.
Qed.

(** What [StockMovement.save] does on a product row: the stock moves by
    the change of the movement when the column holds the result, and
    the [save] is refused when it does not. *)
Lemma StockMovement_save_eq stock_max now m db p :
  products db !! StockMovement.product m = Some p →
  ∃ p',
    Product.stock p' = Product.stock p + movement_delta m
    ∧ StockMovement_save stock_max now m db
      = if stock_in_column stock_max (Product.stock p + movement_delta m) then
          Some (p', set_stock_movements (stock_movements db ++ [m])
                      (set_products (<[StockMovement.product m := p']> (products db))
                                    db))
        else None.
Proof.
  intros Hp. unfold StockMovement_save, movement_delta. rewrite Hp. simpl.
  destruct (String.eqb (StockMovement.type m) "in"); simpl;
    [|destruct (String.eqb (StockMovement.type m) "out"); simpl;
      [|destruct (String.eqb (StockMovement.type m) "adjustment"); simpl]].
  - eexists. split; [|reflexivity]. done.
  - eexists. split; [|replace (Product.stock p + - Z.abs (StockMovement.quantity m))
                        with (Product.stock p - Z.abs (StockMovement.quantity m))
                        by lia; reflexivity]. simpl. lia.
  - eexists. split; [|reflexivity]. done.
  - eexists. split; [|rewrite Z.add_0_r; reflexivity]. simpl. lia.
Qed.

(** One operation keeps the stored stocks non-negative. *)
Lemma run_stock_operation_nonneg stock_max now db op :
  stocks_nonneg db → stocks_nonneg (run_stock_operation stock_max now db op).
Proof.
  intros Hall. destruct op as [pk self q operation|m]; simpl.
  - unfold Product_adjust_stock_checked.
    pose proof (adjust_stock_cases now pk self q operation db) as Hc.
    destruct (Product_adjust_stock now pk self q operation db) as [[ok self'] db'].
    simpl. destruct ok; simpl.
    + destruct (stock_in_column stock_max (Product.stock self')) eqn:Hin; simpl;
        [|done].
      subst db'. apply map_Forall_insert_2; [|done].
      apply stock_in_column_spec in Hin. lia.
    + by destruct Hc as [_ ->].
  - destruct (products db !! StockMovement.product m) as [p|] eqn:Hp.
    + destruct (StockMovement_save_eq stock_max now m db p Hp) as (p' & Hs & ->).
      destruct (stock_in_column stock_max (Product.stock p + movement_delta m))
        eqn:Hin; [|done].
      apply map_Forall_insert_2; [|done].
      apply stock_in_column_spec in Hin. lia.
    + unfold StockMovement_save. by rewrite Hp.
Qed.

(** C1. From tables without negative stock, the stored stock of every
    product is non-negative after each operation of any sequence of
    [adjust_stock] calls, on any instance and with any quantity and
    operation, and [StockMovement] saves: what the guard of [remove]
    does not stop, the check of the column refuses, the call raises
    and nothing is written. An [adjust_stock] that returns leaves the
    instance, if it had a non-negative stock, with a non-negative
    stock; a movement [save] that returns, its product. *)
Theorem C1_stock_stays_nonneg stock_max now db (ops : list stock_operation) :
  stocks_nonneg db →
  Forall stocks_nonneg (stock_trace stock_max now db ops)
  ∧ (∀ pk self q operation ok self' db',
       Product_adjust_stock_checked stock_max now pk self q operation db
       = Some (ok, self', db') →
       0 ≤ Product.stock self → 0 ≤ Product.stock self')
  ∧ (∀ m product db',
       StockMovement_save stock_max now m db = Some (product, db') →
       0 ≤ Product.stock product).
Proof.
  intros Hall. split_and!.
  - revert db Hall. induction ops as [|op rest IH]; intros db Hall; simpl.
    + constructor.
    + pose proof (run_stock_operation_nonneg stock_max now db op Hall) as H1.
      constructor; [done|]. by apply IH.
  - intros pk self q operation ok self' db'. unfold Product_adjust_stock_checked.
    pose proof (adjust_stock_cases now pk self q operation db) as Hc.
    destruct (Product_adjust_stock now pk self q operation db) as [[ok0 self0] db0].
    simpl. destruct ok0; simpl.
    + destruct (stock_in_column stock_max (Product.stock self0)) eqn:Hin; simpl;
        [|done].
      intros [= <- <- <-] _. apply stock_in_column_spec in Hin. lia.
    + intros [= <- <- <-] Hs. by destruct Hc as [-> _].
  - intros m product db' Hs.
    destruct (products db !! StockMovement.product m) as [p|] eqn:Hp.
    + destruct (StockMovement_save_eq stock_max now m db p Hp) as (p' & Hst & Heq).
      rewrite Heq in Hs.
      destruct (stock_in_column stock_max (Product.stock p + movement_delta m))
        eqn:Hin; [|done].
      injection Hs as <- <-. apply stock_in_column_spec in Hin. lia.
    + unfold StockMovement_save in Hs. by rewrite Hp in Hs.
Qed.

(** The operations of the witness: a unit taken out of a product
    without stock, eleven units taken off by a negative [add], five
    units delivered, two removed. *)
Lemma C1_stock_stays_nonneg_witness :
  stocks_nonneg db_sold_out
  ∧ Forall stocks_nonneg
      (stock_trace postgresql_integer_max 1 db_sold_out
         [Movement_save (StockMovement.mk 1 1 "out");
          Adjust_stock 1 sold_out (-11) "add";
          Movement_save (StockMovement.mk 1 5 "in");
          Adjust_stock 1 (Product.set_stock 5 sold_out) 2 "remove"]).
Proof.
  assert (H : stocks_nonneg db_sold_out).
  { apply map_Forall_singleton. simpl. lia. }
  split; [exact H|].
  exact (proj1 (C1_stock_stays_nonneg postgresql_integer_max 1 db_sold_out _ H)).
Defined.

(** The first two operations raise and write nothing: the stock stays
    at 0 and no movement is recorded; the last two bring it to 5 and
    to 3. *)
Example stock_trace_run :
  StockMovement_save postgresql_integer_max 1 (StockMovement.mk 1 1 "out") db_sold_out
  = None
  ∧ Product_adjust_stock_checked postgresql_integer_max 1 1 sold_out (-11) "add"
      db_sold_out
    = None
  ∧ (λ db, (Product.stock <$> products db !! 1%nat, length (stock_movements db)))
      <$> stock_trace postgresql_integer_max 1 db_sold_out
            [Movement_save (StockMovement.mk 1 1 "out");
             Adjust_stock 1 sold_out (-11) "add";
             Movement_save (StockMovement.mk 1 5 "in");
             Adjust_stock 1 (Product.set_stock 5 sold_out) 2 "remove"]
    = [(Some 0, 0%nat); (Some 0, 0%nat); (Some 5, 1%nat); (Some 3, 1%nat)].
Proof. by vm_compute. Qed.

(** ** Checkout: the validation loop *)

Lemma checkout_validate_spec db items :
  match checkout_validate db items with
  | Some None => Forall (line_ok db) items
  | Some (Some m) => ∃ item, item ∈ items ∧ line_offends db item m
  | None => ¬ lines_have_product db items
  end.
Proof.
  induction items as [|item rest IH]; simpl; [constructor|].
  destruct (products db !! CartItem.product item) as [p|] eqn:Hp; simpl.
  - destruct (Product.available p) eqn:Ha; simpl.
    + destruct (CartItem.quantity item >? Product.stock p) eqn:Hq.
      * apply Z.gtb_lt in Hq. exists item. split; [left|].
        exists p. split; [done|]. right. done.
      * rewrite Z.gtb_ltb in Hq. apply Z.ltb_ge in Hq.
        destruct (checkout_validate db rest) as [[m|]|].
        -- destruct IH as (i & Hi & Ho). exists i. split; [by right|done].
        -- constructor; [|done]. by exists p.
        -- intros H. apply IH. by inversion H.
    + exists item. split; [left|]. exists p. split; [done|]. by left.
  - intros H. inversion H as [|?? [? Hs] ?]; subst. congruence.
Qed.

Lemma line_ok_not_offends db item m : line_ok db item → ¬ line_offends db item m.
Proof.
  intros (p & Hp & Ha & Hq) (p' & Hp' & H). simplify_eq.
  destruct H as [[? _]|(_ & ? & _)]; [congruence|lia].
Qed.

(** C2. [checkout] returns success only when every line of the cart
    has an available product holding the line's quantity; when the
    lines point to product rows and one of them fails a test, it
    returns failure with a message built on the name of a failing
    line's product, and the cart instance and the whole database (cart
    row, cart lines, product stock) are as before. *)
Theorem C2_checkout_validation now pk (self : Cart.t) db :
  (∀ payload self' db',
     Cart_checkout now pk self db = Some (true, payload, self', db') →
     Forall (line_ok db) (Cart_items db pk))
  ∧ (lines_have_product db (Cart_items db pk) →
     Exists (λ item, ¬ line_ok db item) (Cart_items db pk) →
     ∃ item m,
       item ∈ Cart_items db pk
       ∧ line_offends db item m
       ∧ Cart_checkout now pk self db = Some (false, Message m, self, db)).
Proof.
  pose proof (checkout_validate_spec db (Cart_items db pk)) as Hv.
  unfold Cart_checkout.
  destruct (checkout_validate db (Cart_items db pk)) as [[m|]|]; simpl; split.
  - intros ??? [=].
  - intros _ _. destruct Hv as (item & Hi & Ho). by exists item, m.
  - done.
  - intros _ Hex. apply Exists_exists in Hex as (item & Hi & Hn).
    rewrite Forall_forall in Hv. destruct Hn. by apply Hv.
  - intros ??? [=].
  - intros Hfk. by destruct Hv.
Qed.

Lemma C2_checkout_validation_witness :
  ∃ item m,
    item ∈ Cart_items db_eleven 1
    ∧ line_offends db_eleven item m
    ∧ Cart_checkout 5 1 (Cart.mk 7 "active" 0) db_eleven
      = Some (false, Message m, Cart.mk 7 "active" 0, db_eleven).
Proof.
  apply (proj2 (C2_checkout_validation 5 1 (Cart.mk 7 "active" 0) db_eleven)).
  - repeat constructor. by exists widget.
  - apply Exists_cons_hd. intros (p & Hp & _ & Hq).
    vm_compute in Hp. injection Hp as <-. vm_compute in Hq. by apply Hq.
Defined.

(** ** Checkout: the order and its lines *)

Lemma adjust_stock_db now pk self q op db :
  (Product_adjust_stock now pk self q op db).2 = db
  ∨ ∃ s, (Product_adjust_stock now pk self q op db).2
         = set_products (<[pk := stock_written now s self]> (products db)) db.
Proof.
  unfold Product_adjust_stock.
  destruct (String.eqb op "remove");
    [destruct (_ >=? _)|destruct (String.eqb op "add")]; simpl; eauto.
Qed.

(** [adjust_stock] on an instance read from the table changes no price. *)
Lemma adjust_stock_price now pk self q op db k :
  products db !! pk = Some self →
  Product.price <$> products (Product_adjust_stock now pk self q op db).2 !! k
  = Product.price <$> products db !! k.
Proof.
  intros Hp. destruct (adjust_stock_db now pk self q op db) as [->|[s ->]]; [done|].
  simpl. destruct (decide (pk = k)) as [->|Hne].
  - by rewrite lookup_insert_eq, Hp.
  - by rewrite lookup_insert_ne.
Qed.

Lemma adjust_stock_other_tables now pk self q op db :
  let db' := (Product_adjust_stock now pk self q op db).2 in
  order_items db' = order_items db ∧ orders db' = orders db
  ∧ cart_items db' = cart_items db ∧ carts db' = carts db
  ∧ reviews db' = reviews db.
Proof.
  simpl. by destruct (adjust_stock_db now pk self q op db) as [->|[s ->]].
Qed.

Lemma checkout_process_spec now order_pk items :
  ∀ db db2,
    checkout_process now order_pk items db = Some db2 →
    ∃ new,
      order_items db2 = (order_items db ++ new)%list
      ∧ Forall2 (line_snapshot order_pk db) items new
      ∧ orders db2 = orders db
      ∧ carts db2 = carts db
      ∧ ∀ k, Product.price <$> products db2 !! k = Product.price <$> products db !! k.
Proof.
  induction items as [|item rest IH]; intros db db2 H; simpl in H.
  - injection H as <-. exists []. by rewrite app_nil_r.
  - destruct (products db !! CartItem.product item) as [p|] eqn:Hp; [|done].
    simpl in H.
    set (db1 := OrderItem_objects_create order_pk (CartItem.product item)
                  (CartItem.quantity item) (Product.price p) db) in *.
    destruct (Product_adjust_stock now (CartItem.product item) p
                (CartItem.quantity item) "remove" db1) as [[ok p'] db'] eqn:E.
    assert (Hdb' : db' = (Product_adjust_stock now (CartItem.product item) p
                            (CartItem.quantity item) "remove" db1).2)
      by (by rewrite E).
    assert (Hp1 : products db1 !! CartItem.product item = Some p) by done.
    pose proof (adjust_stock_other_tables now (CartItem.product item) p
                  (CartItem.quantity item) "remove" db1) as (Hoi & Ho & _ & Hc & _).
    rewrite <- Hdb' in Hoi, Ho, Hc.
    assert (Hprice : ∀ k, Product.price <$> products db' !! k
                          = Product.price <$> products db !! k).
    { intros k. rewrite Hdb'. by rewrite adjust_stock_price. }
    destruct (IH _ _ H) as (new & Hnew & Hall & Hord & Hcarts & Hpr).
    exists (OrderItem.mk (order_item_seq db) order_pk (CartItem.product item)
              (CartItem.quantity item) (Product.price p) :: new).
    split_and!.
    + rewrite Hnew, Hoi. simpl. by rewrite <- app_assoc.
    + constructor.
      * split_and!; try done. by rewrite Hp.
      * eapply Forall2_impl; [exact Hall|].
        intros ci oi (? & ? & ? & Hq). split_and!; try done. by rewrite <- Hprice.
    + by rewrite Hord, Ho.
    + by rewrite Hcarts, Hc.
    + intros k. by rewrite Hpr.
Qed.

Lemma sum_subtotals_snapshot order_pk db items new t :
  sum_subtotals db items = Some t →
  Forall2 (line_snapshot order_pk db) items new →
  foldr (λ item acc, OrderItem.subtotal item + acc) 0 new = t.
Proof.
  intros Hs Hall. revert t Hs.
  induction Hall as [|ci oi items new (_ & _ & Hq & Hpr) _ IH]; intros t Hs; simpl in *.
  - by injection Hs.
  - unfold CartItem_subtotal in Hs.
    destruct (products db !! CartItem.product ci) as [p|]; [|done]. simpl in *.
    destruct (sum_subtotals db items) as [t'|]; [|done]. simpl in Hs.
    injection Hs as <-. injection Hpr as Hpr.
    rewrite (IH t' eq_refl). unfold OrderItem.subtotal. by rewrite Hq, Hpr.
Qed.

Lemma filter_order_fresh (order_pk : nat) (old : list OrderItem.t) :
  Forall (λ item, (OrderItem.order item < order_pk)%nat) old →
  filter (λ i, OrderItem.order i = order_pk) old = [].
Proof.
  induction 1 as [|item old Hlt _ IH]; [done|].
  rewrite filter_cons_False; [done|lia].
Qed.

Lemma filter_order_snapshot order_pk db items (new : list OrderItem.t) :
  Forall2 (line_snapshot order_pk db) items new →
  filter (λ i, OrderItem.order i = order_pk) new = new.
Proof.
  induction 1 as [|ci oi items new (Ho & _) _ IH]; [done|].
  rewrite filter_cons_True; [by rewrite IH|done].
Qed.

(** The steps that a successful [checkout] went through. *)
Lemma Cart_checkout_success now pk self db order_pk order self' db' :
  Cart_checkout now pk self db = Some (true, Created order_pk order, self', db') →
  ∃ t db2,
    checkout_validate db (Cart_items db pk) = Some None
    ∧ sum_subtotals db (Cart_items db pk) = Some t
    ∧ order_pk = order_seq db
    ∧ order = Order.mk (Cart.user self) "pending" t now
    ∧ checkout_process now order_pk (Cart_items db pk)
        (Order_objects_create now (Cart.user self) t db).2 = Some db2
    ∧ self' = Cart.set_updated_at now (Cart.set_status "checked_out" self)
    ∧ db' = set_carts (<[pk := self']> (carts db2)) db2.
Proof.
  intros H. unfold Cart_checkout in H.
  destruct (checkout_validate db (Cart_items db pk)) as [[m|]|]; simpl in H; try done.
  unfold Cart_total_price in H.
  destruct (sum_subtotals db (Cart_items db pk)) as [t|] eqn:Ht; simpl in H; [|done].
  change (Cart_items _ pk) with (Cart_items db pk) in H.
  match type of H with
  | context [checkout_process now ?k ?l ?d] =>
      destruct (checkout_process now k l d) as [db2|] eqn:Hproc
  end; simpl in H; [|done].
  injection H as <- <- <- <-. by exists t, db2.
Qed.

(** The lines of the order that a successful [checkout] created are its
    new lines, one per cart line. *)
Lemma Cart_checkout_lines now pk self db order_pk order self' db' :
  order_lines_below_seq db →
  Cart_checkout now pk self db = Some (true, Created order_pk order, self', db') →
  orders db' !! order_pk = Some order
  ∧ Forall2 (line_snapshot order_pk db) (Cart_items db pk) (Order_items db' order_pk)
  ∧ sum_subtotals db (Cart_items db pk) = Some (Order.total_amount order).
Proof.
  intros Hfresh H.
  apply Cart_checkout_success in H
    as (t & db2 & _ & Ht & -> & -> & Hproc & -> & ->).
  apply checkout_process_spec in Hproc as (new & Hnew & Hall & Hord & _ & _).
  simpl in Hnew, Hord, Hall.
  assert (Hitems : Order_items
                     (set_carts (<[pk := Cart.set_updated_at now
                                            (Cart.set_status "checked_out" self)]>
                                   (carts db2)) db2) (order_seq db) = new).
  { unfold Order_items. simpl. rewrite Hnew, filter_app.
    rewrite (filter_order_fresh _ _ Hfresh). simpl.
    by eapply filter_order_snapshot. }
  split_and!.
  - simpl. rewrite Hord. by rewrite lookup_insert_eq.
  - by rewrite Hitems.
  - done.
Qed.

(** C3. When [checkout] succeeds, the order it returns is stored, its
    lines copy the cart's lines at the prices the products had when
    [checkout] was called, its [total_amount] is the sum of its lines'
    subtotals, and that sum stays equal to it whatever the product
    table is replaced with afterwards. *)
Theorem C3_checkout_total now pk (self : Cart.t) db order_pk order self' db' :
  order_lines_below_seq db →
  Cart_checkout now pk self db = Some (true, Created order_pk order, self', db') →
  orders db' !! order_pk = Some order
  ∧ Forall2 (line_snapshot order_pk db) (Cart_items db pk) (Order_items db' order_pk)
  ∧ Order.total_amount order = Order_items_total db' order_pk
  ∧ ∀ ps, Order_items_total (set_products ps db') order_pk = Order.total_amount order.
Proof.
  intros Hfresh H.
  destruct (Cart_checkout_lines _ _ _ _ _ _ _ _ Hfresh H) as (Hstored & Hall & Ht).
  assert (Htot : Order_items_total db' order_pk = Order.total_amount order)
    by (by eapply sum_subtotals_snapshot).
  split_and!; try done.
Qed.

Lemma C3_checkout_total_witness :
  ∃ order db',
    orders db' !! 1%nat = Some order
    ∧ Forall2 (line_snapshot 1 db_scenario) (Cart_items db_scenario 1)
              (Order_items db' 1)
    ∧ Order.total_amount order = Order_items_total db' 1
    ∧ ∀ ps, Order_items_total (set_products ps db') 1 = Order.total_amount order.
Proof.
  do 2 eexists.
  eapply (C3_checkout_total 100 1 (Cart.mk 7 "active" 0) db_scenario).
  - constructor.
  - vm_compute. reflexivity.
Defined.

(** C8. On the scenario (stock 10, price 50.00, three units in the
    cart) [Cart.checkout] returns an order of 150.00, leaves stock 7 and
    marks the cart [checked_out], but the cart keeps its line; the
    [checkout] action of [CartViewSet] empties the cart, but its order
    has amount 0 and no line, the stock stays 10 and the cart stays
    [active]. Neither path gives the whole outcome. *)
Theorem C8_checkout_scenario :
  (∃ order self' db',
     Cart_checkout 100 1 (Cart.mk 7 "active" 0) db_scenario
       = Some (true, Created 1 order, self', db')
     ∧ Order.total_amount order = 15000
     ∧ Product.stock <$> products db' !! 1%nat = Some 7
     ∧ Cart.status self' = "checked_out"
     ∧ Cart.status <$> carts db' !! 1%nat = Some "checked_out"
     ∧ Order_items_total db' 1 = 15000
     ∧ Cart_items db' 1 = [CartItem.mk 1 1 3])
  ∧ (∃ order db',
       CartViewSet_checkout 100 7 None db_scenario = (HTTP_200_OK 1 order, db')
       ∧ Cart_items db' 1 = []
       ∧ Order.total_amount order = 0
       ∧ Order_items db' 1 = []
       ∧ Product.stock <$> products db' !! 1%nat = Some 10
       ∧ Cart.status <$> carts db' !! 1%nat = Some "active").
Proof.
  split.
  - do 3 eexists. split; [vm_compute; reflexivity|]. by vm_compute.
  - do 2 eexists. split; [vm_compute; reflexivity|]. by vm_compute.
Qed.

(** ** Cancellation *)

Lemma cancel_restore_spec now items :
  ∀ db,
    order_lines_have_product db items →
    ∃ db',
      cancel_restore now items db = Some db'
      ∧ orders db' = orders db
      ∧ order_items db' = order_items db
      ∧ carts db' = carts db
      ∧ cart_items db' = cart_items db
      ∧ reviews db' = reviews db
      ∧ ∀ k p, products db !! k = Some p →
               ∃ p', products db' !! k = Some p'
                     ∧ Product.stock p' = Product.stock p + credited k items.
Proof.
  induction items as [|item rest IH]; intros db Hfk; simpl.
  - exists db. split_and!; try done. intros k p Hp. exists p. split; [done|].
    unfold credited; simpl. lia.
  - inversion Hfk as [|?? [p0 Hp0] Hrest]; subst.
    rewrite Hp0; simpl.
    set (p1 := stock_written now (Product.stock p0 + OrderItem.quantity item) p0).
    set (db1 := set_products (<[OrderItem.product item := p1]> (products db)) db).
    destruct (IH db1) as (db' & Hrun & Ho & Hoi & Hc & Hci & Hr & Hstock).
    { eapply Forall_impl; [exact Hrest|]. intros i [q Hq]. simpl.
      destruct (decide (OrderItem.product item = OrderItem.product i)) as [<-|Hne].
      - rewrite lookup_insert_eq. by eexists.
      - rewrite lookup_insert_ne by done. by eexists. }
    exists db'. split_and!; try done.
    intros k p Hp. unfold credited.
    destruct (decide (OrderItem.product item = k)) as [Heq|Hne].
    + rewrite filter_cons_True by done. simpl.
      destruct (Hstock k p1) as (p' & Hp' & Hs).
      { simpl. subst k. by rewrite lookup_insert_eq. }
      exists p'. split; [done|]. rewrite Hs. unfold credited.
      subst k. rewrite Hp0 in Hp. injection Hp as <-. simpl. lia.
    + rewrite filter_cons_False by done.
      destruct (Hstock k p) as (p' & Hp' & Hs).
      { simpl. by rewrite lookup_insert_ne. }
      exists p'. by split.
Qed.

Lemma can_cancel_true (self : Order.t) :
  Order.status self ∈ ["pending"; "processing"] → Order.can_cancel self = true.
Proof.
  unfold Order.can_cancel. intros H.
  repeat (apply elem_of_cons in H as [->|H]; [by rewrite ?orb_true_r|]).
  by apply elem_of_nil in H.
Qed.

Lemma can_cancel_false (self : Order.t) :
  Order.status self ∈ ["delivered"; "shipped"; "cancelled"] →
  Order.can_cancel self = false.
Proof.
  unfold Order.can_cancel. intros H.
  repeat (apply elem_of_cons in H as [->|H]; [done|]).
  by apply elem_of_nil in H.
Qed.

(** C4. [cancel_order] on an order whose status is delivered, shipped
    or cancelled returns failure and changes neither the instance nor
    the database; on an order whose status is pending or processing
    (its lines pointing to product rows) it returns success, every
    product's stock has grown by exactly the quantity that the order's
    lines record for it, and the order, instance and stored row, has
    status cancelled. *)
Theorem C4_cancel_order now pk (self : Order.t) db :
  (Order.status self ∈ ["delivered"; "shipped"; "cancelled"] →
   Order_cancel_order now pk self db
     = Some (false, "Order cannot be cancelled", self, db))
  ∧ (Order.status self ∈ ["pending"; "processing"] →
     order_lines_have_product db (Order_items db pk) →
     ∃ self' db',
       Order_cancel_order now pk self db
         = Some (true, "Order cancelled successfully", self', db')
       ∧ Order.status self' = "cancelled"
       ∧ orders db' !! pk = Some self'
       ∧ order_items db' = order_items db
       ∧ ∀ k p, products db !! k = Some p →
                ∃ p', products db' !! k = Some p'
                      ∧ Product.stock p'
                        = Product.stock p + credited k (Order_items db pk)).
Proof.
  unfold Order_cancel_order. split.
  - intros Hs. by rewrite (can_cancel_false _ Hs).
  - intros Hs Hfk. rewrite (can_cancel_true _ Hs). simpl.
    destruct (cancel_restore_spec now _ db Hfk)
      as (db1 & -> & Ho & Hoi & _ & _ & _ & Hstock).
    simpl. do 2 eexists. split; [reflexivity|].
    split_and!; try done. simpl. by rewrite lookup_insert_eq.
Qed.

Lemma C4_cancel_order_witness :
  Order_cancel_order 200 1 (Order.mk 7 "delivered" 15000 0) db_ordered
    = Some (false, "Order cannot be cancelled", Order.mk 7 "delivered" 15000 0,
            db_ordered)
  ∧ ∃ self' db',
      Order_cancel_order 200 1 (Order.mk 7 "pending" 15000 0) db_ordered
        = Some (true, "Order cancelled successfully", self', db')
      ∧ Order.status self' = "cancelled"
      ∧ orders db' !! 1%nat = Some self'
      ∧ order_items db' = order_items db_ordered
      ∧ ∀ k p, products db_ordered !! k = Some p →
               ∃ p', products db' !! k = Some p'
                     ∧ Product.stock p'
                       = Product.stock p + credited k (Order_items db_ordered 1).
Proof.
  split.
  - apply (proj1 (C4_cancel_order 200 1 (Order.mk 7 "delivered" 15000 0) db_ordered)).
    simpl. apply elem_of_cons. by left.
  - apply (proj2 (C4_cancel_order 200 1 (Order.mk 7 "pending" 15000 0) db_ordered)).
    + simpl. apply elem_of_cons. by left.
    + repeat constructor. by eexists.
Defined.

(** ** Checkout, then cancellation *)

Lemma debited_absent k (items : list CartItem.t) :
  k ∉ (CartItem.product <$> items) → debited k items = 0.
Proof.
  unfold debited. induction items as [|item rest IH]; intros Hk; [done|].
  rewrite fmap_cons in Hk. apply not_elem_of_cons in Hk as [Hne Hk].
  rewrite filter_cons_False by done. by apply IH.
Qed.

(** When no product comes twice in the lines and every line passes the
    tests, each debit of the second loop is granted: every product loses
    exactly what the lines ask of it. *)
Lemma checkout_process_stock now order_pk items :
  ∀ db db2,
    NoDup (CartItem.product <$> items) →
    Forall (line_ok db) items →
    checkout_process now order_pk items db = Some db2 →
    ∀ k p, products db !! k = Some p →
           ∃ p', products db2 !! k = Some p'
                 ∧ Product.stock p' = Product.stock p - debited k items.
Proof.
  induction items as [|item rest IH]; intros db db2 Hnd Hok H k p Hp; simpl in H.
  - injection H as <-. exists p. split; [done|]. unfold debited; simpl. lia.
  - rewrite fmap_cons in Hnd. apply NoDup_cons in Hnd as [Hnotin Hnd].
    apply Forall_cons in Hok as [(p0 & Hp0 & _ & Hq) Hok].
    rewrite Hp0 in H. simpl in H. rewrite adjust_stock_remove_eq in H.
    assert (Hge : (Product.stock p0 >=? CartItem.quantity item) = true)
      by (apply Z.geb_le; lia).
    rewrite Hge in H.
    set (w := stock_written now (Product.stock p0 - CartItem.quantity item) p0) in *.
    match type of H with
    | checkout_process _ _ _ ?d = _ => set (db1 := d) in *
    end.
    assert (Hok1 : Forall (line_ok db1) rest).
    { rewrite Forall_forall in Hok. apply Forall_forall. intros r Hr.
      destruct (Hok r Hr) as (pr & Hpr & Har & Hqr). exists pr. split; [|done].
      subst db1. simpl. rewrite lookup_insert_ne; [done|].
      intros Heq. apply Hnotin. rewrite Heq. by apply list_elem_of_fmap_2. }
    unfold debited.
    destruct (decide (CartItem.product item = k)) as [Heq|Hne].
    + rewrite filter_cons_True by done. simpl.
      destruct (IH db1 db2 Hnd Hok1 H k w) as (p' & Hp' & Hs).
      { subst db1 k. simpl. by rewrite lookup_insert_eq. }
      exists p'. split; [done|]. rewrite Hs.
      subst k. rewrite Hp0 in Hp. injection Hp as <-.
      rewrite (debited_absent _ _ Hnotin). simpl.
      fold (debited (CartItem.product item) rest).
      rewrite (debited_absent _ _ Hnotin). lia.
    + rewrite filter_cons_False by done.
      destruct (IH db1 db2 Hnd Hok1 H k p) as (p' & Hp' & Hs).
      { subst db1. simpl. by rewrite lookup_insert_ne. }
      exists p'. by split.
Qed.

Lemma credited_snapshot order_pk db items new k :
  Forall2 (line_snapshot order_pk db) items new →
  credited k new = debited k items.
Proof.
  unfold credited, debited.
  induction 1 as [|ci oi items new (_ & Hpr & Hq & _) _ IH]; [done|].
  destruct (decide (CartItem.product ci = k)) as [Heq|Hne].
  - rewrite !filter_cons_True by congruence. simpl. by rewrite IH, Hq.
  - rewrite !filter_cons_False by congruence. done.
Qed.

(** A successful [checkout] of a cart without repeated product,
    followed by [cancel_order] on the order it returned, brings every
    product's stock back to what it was: what the order lines record is
    what was debited. *)
Lemma checkout_then_cancel_restores_stock now now' pk self db order_pk order self' db' :
  NoDup (CartItem.product <$> Cart_items db pk) →
  order_lines_below_seq db →
  Cart_checkout now pk self db = Some (true, Created order_pk order, self', db') →
  ∃ order'' db'',
    Order_cancel_order now' order_pk order db'
      = Some (true, "Order cancelled successfully", order'', db'')
    ∧ ∀ k p, products db !! k = Some p →
             ∃ p'', products db'' !! k = Some p''
                    ∧ Product.stock p'' = Product.stock p.
Proof.
  intros Hnd Hfresh H.
  destruct (Cart_checkout_lines _ _ _ _ _ _ _ _ Hfresh H) as (_ & Hall & _).
  apply Cart_checkout_success in H
    as (t & db2 & Hval & _ & Hpk & Horder & Hproc & Hself & Hdb').
  pose proof (checkout_validate_spec db (Cart_items db pk)) as Hok.
  rewrite Hval in Hok.
  pose proof (checkout_process_stock now order_pk (Cart_items db pk)
                (Order_objects_create now (Cart.user self) t db).2 db2
                Hnd Hok Hproc) as Hdeb.
  simpl in Hdeb.
  assert (Hprod : products db' = products db2) by (by subst db').
  assert (Hfk : order_lines_have_product db' (Order_items db' order_pk)).
  { eapply Forall2_Forall_r; [exact Hall|].
    rewrite Forall_forall in Hok. apply Forall_forall. intros ci Hci oi (_ & Hp & _).
    destruct (Hok ci Hci) as (p & Hlook & _).
    destruct (Hdeb _ _ Hlook) as (p' & Hp' & _).
    rewrite Hp, Hprod. by eexists. }
  unfold Order_cancel_order.
  assert (Hcan : Order.can_cancel order = true) by (by subst order).
  rewrite Hcan. simpl.
  destruct (cancel_restore_spec now' _ db' Hfk)
    as (db3 & -> & _ & _ & _ & _ & _ & Hstock).
  simpl. do 2 eexists. split; [reflexivity|].
  intros k p Hp. destruct (Hdeb k p Hp) as (p' & Hp' & Hs').
  rewrite <- Hprod in Hp'. destruct (Hstock k p' Hp') as (p'' & Hp'' & Hs'').
  exists p''. split; [done|].
  rewrite Hs'', Hs', (credited_snapshot _ _ _ _ k Hall). lia.
Qed.

(** ** Reviews *)

Section Review_properties.

Variable round2 : Q → Z.

Lemma verify_purchase_cases self db self1 :
  Review_verify_purchase self db = Some self1 →
  self1 = self ∨ self1 = Review.set_is_verified_purchase true self.
Proof.
  unfold Review_verify_purchase.
  destruct (Review.is_verified_purchase self); simpl; [naive_solver|].
  destruct (Review.order_item self) as [k|]; [|naive_solver].
  destruct (OrderItem_objects_get db k) as [item|]; simpl; [|done].
  destruct (orders db !! OrderItem.order item) as [order|]; simpl; [|done].
  destruct (_ && _); naive_solver.
Qed.

Lemma verify_purchase_total self db :
  Review_integrity db self → is_Some (Review_verify_purchase self db).
Proof.
  intros [_ Hfk]. unfold Review_verify_purchase.
  destruct (Review.is_verified_purchase self); simpl; [by eexists|].
  destruct (Review.order_item self) as [k|]; [|by eexists].
  destruct Hfk as (item & Hi & [order Ho]). rewrite Hi; simpl. rewrite Ho; simpl.
  destruct (_ && _); by eexists.
Qed.

Lemma verify_purchase_kept self db :
  Review.is_verified_purchase self = true →
  Review_verify_purchase self db = Some self.
Proof. intros H. unfold Review_verify_purchase. by rewrite H. Qed.

Lemma verify_purchase_delivered self db :
  bought_and_delivered db self →
  ∃ self1, Review_verify_purchase self db = Some self1
           ∧ Review.is_verified_purchase self1 = true
           ∧ (self1 = self ∨ self1 = Review.set_is_verified_purchase true self).
Proof.
  intros (k & item & order & Hk & Hi & Ho & Hs & Hu & Hp).
  unfold Review_verify_purchase.
  destruct (Review.is_verified_purchase self) eqn:Hv; simpl; [by eauto|].
  rewrite Hk, Hi; simpl. rewrite Ho; simpl. rewrite Hs, Hu, Hp.
  rewrite !bool_decide_eq_true_2 by done. simpl. eauto.
Qed.

(** The lines and counters that a review selection reads are those of
    the review table. *)
Lemma visible_reviews_ext db1 db2 k :
  reviews db1 = reviews db2 → visible_reviews db1 k = visible_reviews db2 k.
Proof. unfold visible_reviews. by intros ->. Qed.

(** What [save] returns once the purchase check has returned and the
    product row is there. *)
Lemma Review_save_eq now self_pk self db self1 p :
  Review_verify_purchase self db = Some self1 →
  products db !! Review.product self1 = Some p →
  let pk := default (review_seq db) self_pk in
  let self2 := Review.set_updated_at now self1 in
  let db1 := (Review_super_save now self_pk self1 db).2 in
  let visible := visible_reviews db1 (Review.product self1) in
  Review_save round2 now self_pk self db
  = Some (pk, self2,
          if bool_decide (visible ≠ []) then
            (Product_save now (Review.product self1)
               (Product.set_total_reviews (Z.of_nat (length visible))
                  (Product.set_average_rating (round2 (Avg_rating visible)) p))
               db1).2
          else db1).
Proof.
  intros Hv Hp. unfold Review_save. rewrite Hv. simpl.
  unfold Review_update_product_rating. simpl. rewrite Hp. simpl.
  by case_bool_decide.
Qed.

(** [save] returns once the purchase check has, when the product row
    is there; the instance it returns is stored under the returned key. *)
Lemma Review_save_returns now self_pk self db self1 :
  is_Some (products db !! Review.product self) →
  Review_verify_purchase self db = Some self1 →
  ∃ db',
    Review_save round2 now self_pk self db
    = Some (default (review_seq db) self_pk, Review.set_updated_at now self1, db')
    ∧ reviews db' !! default (review_seq db) self_pk
      = Some (Review.set_updated_at now self1).
Proof.
  intros [p Hp] Hv.
  assert (Hprod : Review.product self1 = Review.product self)
    by (by destruct (verify_purchase_cases _ _ _ Hv) as [->| ->]).
  rewrite <- Hprod in Hp.
  rewrite (Review_save_eq now self_pk self db self1 p Hv Hp).
  eexists. split; [reflexivity|].
  case_bool_decide; simpl; by rewrite lookup_insert_eq.
Qed.

(** C10. When the product of a review has no visible review,
    [update_product_rating] returns without writing: the database, and
    so the product's [average_rating] and [total_reviews], are as
    before. *)
Theorem C10_no_visible_review_keeps_rating now (self : Review.t) db :
  is_Some (products db !! Review.product self) →
  visible_reviews db (Review.product self) = [] →
  Review_update_product_rating round2 now self db = Some db.
Proof.
  intros [p Hp] Hvis. unfold Review_update_product_rating.
  by rewrite Hp, Hvis.
Qed.

(** What [save] leaves, for any rounding: the review stored with its
    rating and, on the product, the rounding of the mean and the count
    of the visible reviews when there is one. *)
Lemma Review_save_rating now self_pk (self : Review.t) db :
  Review_integrity db self →
  ∃ pk self' db',
    Review_save round2 now self_pk self db = Some (pk, self', db')
    ∧ reviews db' !! pk = Some self'
    ∧ reviews db' = <[pk := self']> (reviews db)
    ∧ Review.rating self' = Review.rating self
    ∧ let visible := visible_reviews db' (Review.product self) in
      (visible ≠ [] →
         ∃ p', products db' !! Review.product self = Some p'
               ∧ Product.average_rating p' = round2 (Avg_rating visible)
               ∧ Product.total_reviews p' = Z.of_nat (length visible))
      ∧ (visible = [] → products db' = products db)
      ∧ (Review.is_visible self = false → ∀ kr, kr ∈ visible → kr.1 ≠ pk).
Proof.
  intros Hint. destruct (verify_purchase_total _ _ Hint) as [self1 Hv].
  destruct Hint as [[p Hp] _].
  assert (Hprod : Review.product self1 = Review.product self)
    by (by destruct (verify_purchase_cases _ _ _ Hv) as [->| ->]).
  assert (Hvisib : Review.is_visible self1 = Review.is_visible self)
    by (by destruct (verify_purchase_cases _ _ _ Hv) as [->| ->]).
  assert (Hrating : Review.rating self1 = Review.rating self)
    by (by destruct (verify_purchase_cases _ _ _ Hv) as [->| ->]).
  rewrite <- Hprod in Hp.
  rewrite (Review_save_eq now self_pk self db self1 p Hv Hp).
  rewrite <- Hprod.
  set (pk := default (review_seq db) self_pk).
  set (db1 := (Review_super_save now self_pk self1 db).2).
  set (visible := visible_reviews db1 (Review.product self1)).
  set (db' := if bool_decide (visible ≠ []) then _ else db1).
  assert (Hr : reviews db' = reviews db1) by (subst db'; by case_bool_decide).
  exists pk, (Review.set_updated_at now self1), db'. split; [reflexivity|].
  split; [rewrite Hr; simpl; by rewrite lookup_insert_eq|].
  split; [by rewrite Hr|]. split; [done|].
  rewrite (visible_reviews_ext db' db1 _ Hr). fold visible. cbv zeta.
  split_and!.
  - intros Hne. subst db'. rewrite bool_decide_eq_true_2 by done. simpl.
    eexists. split; [by rewrite lookup_insert_eq|done].
  - intros He. subst db'. rewrite bool_decide_eq_false_2; [done|].
    by intros Hne.
  - intros Hhid [k r] Hkr Hk. simpl in Hk. subst k.
    apply list_elem_of_filter in Hkr as [[_ Hv1] Hkr].
    apply elem_of_map_to_list in Hkr. simpl in Hkr, Hv1.
    rewrite lookup_insert_eq in Hkr. injection Hkr as <-. simpl in Hv1. congruence.
Qed.

(** C7. [save] on a review that refers to an order line of the
    reviewed product in a delivered order of the reviewer returns with
    [is_verified_purchase] true, on the instance and on the stored row;
    and [save] on a review whose [is_verified_purchase] is already true
    returns with it true, whatever the orders are by then. *)
Theorem C7_verified_purchase now self_pk (self : Review.t) db :
  Review_integrity db self →
  (bought_and_delivered db self →
   ∃ pk self' db',
     Review_save round2 now self_pk self db = Some (pk, self', db')
     ∧ Review.is_verified_purchase self' = true
     ∧ reviews db' !! pk = Some self')
  ∧ (Review.is_verified_purchase self = true →
     ∃ pk self' db',
       Review_save round2 now self_pk self db = Some (pk, self', db')
       ∧ Review.is_verified_purchase self' = true
       ∧ reviews db' !! pk = Some self').
Proof.
  intros [Hp _]. split.
  - intros Hb. destruct (verify_purchase_delivered _ _ Hb) as (self1 & Hv & Hflag & _).
    destruct (Review_save_returns now self_pk self db self1 Hp Hv) as (db' & Hs & Hr).
    by exists (default (review_seq db) self_pk), (Review.set_updated_at now self1), db'.
  - intros Hflag. pose proof (verify_purchase_kept self db Hflag) as Hv.
    destruct (Review_save_returns now self_pk self db self Hp Hv) as (db' & Hs & Hr).
    by exists (default (review_seq db) self_pk), (Review.set_updated_at now self), db'.
Qed.

(** C9. [report] on a review whose foreign keys point to rows returns,
    with the review stored; its [reported_count] has grown by one; when
    the new count is at least 5 the review is not visible and the note
    is appended to [moderation_notes]; below 5 both are as before. *)
Theorem C9_report now self_pk (self : Review.t) db :
  Review_integrity db self →
  ∃ pk self' db',
    Review_report round2 now self_pk self db = Some (pk, self', db')
    ∧ reviews db' !! pk = Some self'
    ∧ Review.reported_count self' = Review.reported_count self + 1
    ∧ (5 ≤ Review.reported_count self' →
         Review.is_visible self' = false
         ∧ Review.moderation_notes self'
           = Review.moderation_notes self ++ auto_hidden_note)
    ∧ (Review.reported_count self' < 5 →
         Review.is_visible self' = Review.is_visible self
         ∧ Review.moderation_notes self' = Review.moderation_notes self).
Proof.
  intros Hint. unfold Review_report.
  set (self1 := Review.set_reported_count (Review.reported_count self + 1) self).
  set (self2 := if Review.reported_count self1 >=? 5 then _ else self1).
  assert (Hint2 : Review_integrity db self2).
  { subst self2. by destruct (_ >=? _). }
  destruct (verify_purchase_total _ _ Hint2) as [self3 Hv].
  destruct Hint2 as [Hp _].
  destruct (Review_save_returns now self_pk self2 db self3 Hp Hv) as (db' & Hs & Hr).
  exists (default (review_seq db) self_pk), (Review.set_updated_at now self3), db'.
  split; [done|]. split; [done|].
  assert (Hsame : Review.reported_count self3 = Review.reported_count self2
                  ∧ Review.is_visible self3 = Review.is_visible self2
                  ∧ Review.moderation_notes self3 = Review.moderation_notes self2)
    by (by destruct (verify_purchase_cases _ _ _ Hv) as [->| ->]).
  destruct Hsame as (Hc & Hvis & Hn). simpl. rewrite Hc, Hvis, Hn.
  subst self2. simpl.
  destruct (Review.reported_count self + 1 >=? 5) eqn:E; simpl.
  - split_and!; [done|done|]. apply Z.geb_le in E. lia.
  - rewrite Z.geb_leb in E. apply Z.leb_gt in E. split_and!; [done|lia|done].
Qed.

End Review_properties.

(** ** The rounding of the mean rating *)

Lemma round_half_even_bound n d :
  0 < d → 2 * Z.abs (d * round_half_even n d - n) ≤ d.
Proof.
  intros Hd. unfold round_half_even.
  pose proof (Z.div_mod n d ltac:(lia)) as Hdm.
  pose proof (Z.mod_pos_bound n d Hd) as Hm.
  destruct (2 * (n mod d) <? d) eqn:E1.
  - apply Z.ltb_lt in E1. lia.
  - apply Z.ltb_ge in E1. destruct (d <? 2 * (n mod d)) eqn:E2.
    + apply Z.ltb_lt in E2. lia.
    + apply Z.ltb_ge in E2. destruct (Z.even (n / d)); lia.
Qed.

Lemma pow2_nonneg e : 0 ≤ e → pow2 e = 2 ^ e.
Proof. intros H. unfold pow2. by rewrite Z.max_r. Qed.

Lemma pow2_nonpos e : e ≤ 0 → pow2 e = 1.
Proof. intros H. unfold pow2. by rewrite Z.max_l. Qed.

(** The binade of a quotient from 1 to below 8. *)
Lemma binade_small s n :
  0 < n → n ≤ s → s < 8 * n →
  0 ≤ binade s n ≤ 2 ∧ n * 2 ^ binade s n ≤ s < 2 * (n * 2 ^ binade s n).
Proof.
  intros Hn Hle Hlt. unfold binade.
  pose proof (Z.log2_spec n Hn) as [Hn1 Hn2].
  pose proof (Z.log2_spec s ltac:(lia)) as [Hs1 Hs2].
  pose proof (Z.log2_nonneg n) as Hln.
  assert (Hl0 : Z.log2 n ≤ Z.log2 s) by (apply Z.log2_le_mono; lia).
  assert (Hl3 : Z.log2 s ≤ Z.log2 n + 3).
  { assert (H : Z.log2 s ≤ Z.log2 (8 * n)) by (apply Z.log2_le_mono; lia).
    replace (8 * n) with (n * 2 ^ 3) in H by lia.
    rewrite Z.log2_mul_pow2 in H by lia. lia. }
  set (l := Z.log2 s - Z.log2 n).
  replace (Z.log2 s) with (Z.log2 n + l) in Hs1, Hs2 by lia.
  replace (Z.succ (Z.log2 n + l)) with (Z.log2 n + Z.succ l) in Hs2 by lia.
  rewrite Z.pow_add_r in Hs1, Hs2 by lia.
  rewrite Z.pow_succ_r in Hn2, Hs2 by lia.
  set (P := 2 ^ Z.log2 n) in *.
  assert (Hcase : l = 0 ∨ l = 1 ∨ l = 2 ∨ l = 3) by lia.
  rewrite (pow2_nonpos (- l)), (pow2_nonneg l) by lia.
  clearbody l P.
  destruct (Z.ltb_spec (s * 1) (n * 2 ^ l)) as [E|E];
    destruct Hcase as [-> | [-> | [-> | ->]]];
    change (2 ^ 0) with 1 in *; change (2 ^ 1) with 2 in *;
    change (2 ^ 2) with 4 in *; change (2 ^ 3) with 8 in *;
    change (1 - 1) with 0; change (2 - 1) with 1; change (3 - 1) with 2;
    change (2 ^ 0) with 1; change (2 ^ 1) with 2; change (2 ^ 2) with 4; lia.
Qed.

(** On a quotient [s/n] from 1 to 5, the rounding of the source is
    within half a hundredth of the quotient, up to the error of the
    double: [|h - 100 s/n| <= 1/2 + 2^-44] hundredths. *)
Lemma python_round2_close (x : Q) :
  let s := Qnum x in
  let n := Z.pos (Qden x) in
  n ≤ s → s ≤ 5 * n →
  2 ^ 45 * Z.abs (python_round2 x * n - 100 * s) ≤ (2 ^ 44 + 2) * n
  ∧ 100 ≤ python_round2 x ≤ 500.
Proof.
  intros s n Hle Hlt. assert (Hn : 0 < n) by (subst n; lia).
  unfold python_round2, round_half_even_2dp, float_of_Q.
  fold s n. clearbody s n.
  destruct (Z.eqb_spec s 0) as [->|_]; [lia|].
  rewrite (Z.abs_eq s) by lia.
  destruct (binade_small s n Hn Hle ltac:(lia)) as [Hb Hbs].
  set (b := binade s n) in *. clearbody b.
  rewrite (pow2_nonpos (b - 52)), (pow2_nonneg (- (b - 52))) by lia.
  cbn [Qnum Qden]. rewrite !Z.mul_1_r.
  set (K := 2 ^ (- (b - 52))).
  assert (HK : 0 < K) by (subst K; apply Z.pow_pos_nonneg; lia).
  rewrite Z2Pos.id by done.
  pose proof (round_half_even_bound (s * K) n Hn) as H1.
  set (m := round_half_even (s * K) n) in *. clearbody m.
  pose proof (round_half_even_bound (100 * m) K HK) as H2.
  set (h := round_half_even (100 * m) K) in *. clearbody h.
  assert (H2n : 2 * Z.abs (K * (h * n) - 100 * (n * m)) ≤ K * n).
  { replace (K * (h * n) - 100 * (n * m)) with (n * (K * h - 100 * m)) by ring.
    rewrite Z.abs_mul, (Z.abs_eq n) by lia.
    replace (K * n) with (n * K) by ring.
    rewrite Z.mul_assoc, (Z.mul_comm 2 n), <- Z.mul_assoc.
    apply Z.mul_le_mono_nonneg_l; lia. }
  assert (Hclose : 2 ^ 45 * Z.abs (h * n - 100 * s) ≤ (2 ^ 44 + 2) * n).
  { assert (HKc : K = 2 ^ 50 ∨ K = 2 ^ 51 ∨ K = 2 ^ 52).
    { subst K. assert (Hbc : b = 0 ∨ b = 1 ∨ b = 2) by lia.
      destruct Hbc as [-> | [-> | ->]]; auto. }
    clear Hbs. clearbody K.
    set (X := h * n) in *. set (Y := n * m) in *. clearbody X Y.
    destruct HKc as [-> | [-> | ->]]; lia. }
  split; [exact Hclose|].
  assert (Hlo : 99 * n < h * n) by lia.
  assert (Hhi : h * n < 501 * n) by lia.
  apply Z.mul_lt_mono_pos_r in Hlo, Hhi; lia.
Qed.

Lemma python_round2_mean (x : Q) :
  (1 <= x)%Q → (x <= 5)%Q →
  (Qabs (inject_Z (python_round2 x) - 100 * x) <= (1 # 2) + (1 # 1000000000000))%Q
  ∧ 100 ≤ python_round2 x ≤ 500.
Proof.
  intros H1 H5. unfold Qle in H1, H5. cbn [Qnum Qden] in H1, H5.
  destruct (python_round2_close x ltac:(lia) ltac:(lia)) as [Hc Hb].
  split; [|exact Hb].
  set (h := python_round2 x) in *. clearbody h.
  apply Qabs_Qle_condition. destruct x as [s n]. cbn [Qnum Qden] in *.
  unfold Qle, Qminus, Qplus, Qopp, Qmult, inject_Z. cbn [Qnum Qden].
  rewrite !Pos2Z.inj_mul. lia.
Qed.

(** The mean of ratings from 1 to 5 is from 1 to 5. *)
Lemma Avg_rating_in_choices (rs : list (nat * Review.t)) :
  rs ≠ [] → Forall (λ kr, rating_in_choices kr.2) rs →
  (1 <= Avg_rating rs)%Q ∧ (Avg_rating rs <= 5)%Q.
Proof.
  intros Hne Hall.
  assert (Hsum : Z.of_nat (length rs) ≤ sum_ratings rs ≤ 5 * Z.of_nat (length rs)).
  { clear Hne. induction Hall as [|kr rest Hkr _ IH]; [simpl; lia|].
    unfold rating_in_choices in Hkr. simpl sum_ratings. simpl length. lia. }
  assert (Hlen : Z.pos (Pos.of_nat (length rs)) = Z.of_nat (length rs)).
  { rewrite <- positive_nat_Z, Nat2Pos.id; [done|]. by destruct rs. }
  unfold Avg_rating, Qle. cbn [Qnum Qden]. rewrite Hlen. lia.
Qed.

(** The double of 161/40 is above 4.025 and the double of 203/200 below
    1.015: the source rounds to 4.03 and to 1.01, where the rounding of
    the quotients themselves, ties to even, gives 4.02 and 1.02; 33/8
    is a double, and the tie goes to the even 4.12. *)
Example python_round2_ties :
  python_round2 (161 # 40) = 403 ∧ round_half_even_2dp (161 # 40) = 402
  ∧ python_round2 (203 # 200) = 101 ∧ round_half_even_2dp (203 # 200) = 102
  ∧ python_round2 (33 # 8) = 412
  ∧ python_round2 (13 # 3) = 433.
Proof. by vm_compute. Qed.

(** C6 (amended). [save] on a review whose foreign keys point to rows,
    whose user and product no other row has, the ratings being from 1
    to 5, returns, with the review stored; if the product then has a
    visible review, its [average_rating] is [round(avg, 2)] of the
    source on the mean rating of its visible reviews: the exact value
    of the double nearest to the mean, rounded to two decimals, ties to
    even, which is within half a hundredth of the mean up to the error
    of the double (less than [10^-12] hundredths); and its
    [total_reviews] is their number. If it has none, the product table
    is as before; a review saved with [is_visible] false is not among
    the reviews counted. *)
Theorem C6_save_rating now self_pk (self : Review.t) db :
  Review_integrity db self →
  Review_unique db self_pk self →
  map_Forall (λ _ r, rating_in_choices r) (reviews db) →
  rating_in_choices self →
  ∃ pk self' db',
    Review_save python_round2 now self_pk self db = Some (pk, self', db')
    ∧ reviews db' !! pk = Some self'
    ∧ let visible := visible_reviews db' (Review.product self) in
      (visible ≠ [] →
         ∃ p', products db' !! Review.product self = Some p'
               ∧ Product.average_rating p' = python_round2 (Avg_rating visible)
               ∧ (Qabs (inject_Z (Product.average_rating p')
                        - 100 * Avg_rating visible)
                  <= (1 # 2) + (1 # 1000000000000))%Q
               ∧ Product.total_reviews p' = Z.of_nat (length visible))
      ∧ (visible = [] → products db' = products db)
      ∧ (Review.is_visible self = false → ∀ kr, kr ∈ visible → kr.1 ≠ pk).
Proof.
  intros Hint _ Hrat Hself.
  destruct (Review_save_rating python_round2 now self_pk self db Hint)
    as (pk & self' & db' & Hs & Hst & Hrev & Hrating & Hvis).
  exists pk, self', db'. split; [exact Hs|]. split; [exact Hst|].
  cbv zeta in Hvis |- *. destruct Hvis as (Hne & Hnil & Hhid).
  split_and!; [|exact Hnil|exact Hhid].
  intros Hv. destruct (Hne Hv) as (p' & Hp' & Havg & Htot).
  exists p'. split_and!; [done|done| |done].
  rewrite Havg. apply python_round2_mean; apply Avg_rating_in_choices; try done.
  all: apply Forall_forall; intros [k r] Hkr;
    apply list_elem_of_filter in Hkr as [_ Hkr];
    apply elem_of_map_to_list in Hkr; rewrite Hrev in Hkr; simpl;
    destruct (decide (k = pk)) as [->|Hk];
    [rewrite lookup_insert_eq in Hkr; injection Hkr as <-;
     unfold rating_in_choices in *; by rewrite Hrating
    |rewrite lookup_insert_ne in Hkr by done; exact (Hrat k r Hkr)].
Qed.

(** ** The review properties on concrete tables *)

Lemma C10_no_visible_review_keeps_rating_witness :
  Review_update_product_rating round_half_even_2dp 9 review_four_stars db_scenario
  = Some db_scenario.
Proof.
  apply (C10_no_visible_review_keeps_rating round_half_even_2dp 9
           review_four_stars db_scenario).
  - by exists widget.
  - reflexivity.
Defined.

(** C6, as stated, fails: the fifth report hides the only review of the
    product; after the save that [report] ends with, the product has no
    visible review, yet its [total_reviews] is still 1 and its
    [average_rating] still 4.00. *)
Lemma C6_counterexample :
  ∃ pk self' db' p',
    Review_report python_round2 9 (Some 1%nat) review_four_stars db_reviewed
      = Some (pk, self', db')
    ∧ products db' !! 1%nat = Some p'
    ∧ visible_reviews db' 1 = []
    ∧ Product.total_reviews p' = 1
    ∧ Product.average_rating p' = 400
    ∧ Product.total_reviews p' ≠ Z.of_nat (length (visible_reviews db' 1)).
Proof.
  do 4 eexists. split; [vm_compute; reflexivity|].
  split; [vm_compute; reflexivity|]. by vm_compute.
Qed.

Lemma C6_save_rating_witness :
  Review_integrity db_reviewed review_five_stars
  ∧ Review_unique db_reviewed None review_five_stars
  ∧ ∃ pk self' db',
      Review_save python_round2 9 None review_five_stars db_reviewed
        = Some (pk, self', db')
      ∧ reviews db' !! pk = Some self'
      ∧ let visible := visible_reviews db' (Review.product review_five_stars) in
        (visible ≠ [] →
           ∃ p', products db' !! Review.product review_five_stars = Some p'
                 ∧ Product.average_rating p' = python_round2 (Avg_rating visible)
                 ∧ (Qabs (inject_Z (Product.average_rating p')
                          - 100 * Avg_rating visible)
                    <= (1 # 2) + (1 # 1000000000000))%Q
                 ∧ Product.total_reviews p' = Z.of_nat (length visible))
        ∧ (visible = [] → products db' = products db_reviewed)
        ∧ (Review.is_visible review_five_stars = false →
           ∀ kr, kr ∈ visible → kr.1 ≠ pk).
Proof.
  assert (Hint : Review_integrity db_reviewed review_five_stars).
  { split; [|done]. by eexists. }
  assert (Huniq : Review_unique db_reviewed None review_five_stars).
  { intros k r Hk Hu _. simpl in Hk.
    apply lookup_singleton_Some in Hk as [_ <-]. simpl in Hu. lia. }
  assert (Hrat : map_Forall (λ _ r, rating_in_choices r) (reviews db_reviewed)).
  { apply map_Forall_singleton. unfold rating_in_choices. simpl. lia. }
  assert (Hself : rating_in_choices review_five_stars).
  { unfold rating_in_choices. simpl. lia. }
  split; [exact Hint|]. split; [exact Huniq|].
  exact (C6_save_rating 9 None review_five_stars db_reviewed Hint Huniq Hrat Hself).
Defined.

(** The second review brings the product to 4.50 over two reviews. *)
Example save_second_review :
  ∃ pk self' db',
    Review_save python_round2 9 None review_five_stars db_reviewed
      = Some (pk, self', db')
    ∧ Product.average_rating <$> products db' !! 1%nat = Some 450
    ∧ Product.total_reviews <$> products db' !! 1%nat = Some 2.
Proof. do 3 eexists. split; [vm_compute; reflexivity|]. by vm_compute. Qed.

Lemma C7_verified_purchase_witness :
  Review_integrity db_delivered review_of_purchase
  ∧ bought_and_delivered db_delivered review_of_purchase
  ∧ ∃ pk self' db',
      Review_save round_half_even_2dp 9 None review_of_purchase db_delivered
        = Some (pk, self', db')
      ∧ Review.is_verified_purchase self' = true
      ∧ reviews db' !! pk = Some self'.
Proof.
  assert (Hint : Review_integrity db_delivered review_of_purchase).
  { split; [by eexists|]. simpl. eexists. split; [reflexivity|]. by eexists. }
  assert (Hb : bought_and_delivered db_delivered review_of_purchase).
  { exists 1%nat, (OrderItem.mk 1 1 1 3 5000), (Order.mk 7 "delivered" 15000 0).
    by split_and!. }
  split; [exact Hint|]. split; [exact Hb|].
  exact (proj1 (C7_verified_purchase round_half_even_2dp 9 None
                  review_of_purchase db_delivered Hint) Hb).
Defined.

Lemma C9_report_witness :
  Review_integrity db_reviewed review_four_stars
  ∧ ∃ pk self' db',
      Review_report round_half_even_2dp 9 (Some 1%nat) review_four_stars db_reviewed
        = Some (pk, self', db')
      ∧ reviews db' !! pk = Some self'
      ∧ Review.reported_count self' = Review.reported_count review_four_stars + 1
      ∧ (5 ≤ Review.reported_count self' →
           Review.is_visible self' = false
           ∧ Review.moderation_notes self'
             = Review.moderation_notes review_four_stars ++ auto_hidden_note)
      ∧ (Review.reported_count self' < 5 →
           Review.is_visible self' = Review.is_visible review_four_stars
           ∧ Review.moderation_notes self'
             = Review.moderation_notes review_four_stars).
Proof.
  assert (Hint : Review_integrity db_reviewed review_four_stars).
  { split; [|done]. by eexists. }
  split; [exact Hint|].
  exact (C9_report round_half_even_2dp 9 (Some 1%nat) review_four_stars
           db_reviewed Hint).
Defined.

(** * Further properties of the models *)

(** ** Stock adjustment, any operation *)

(** X1. For a non-negative quantity that the column holds on top of
    the stock of the instance, [adjust_stock] returns [True] exactly
    for [add], and for [remove] when the stock covers the quantity;
    whenever it returns [False] (insufficient stock, or an operation
    that is neither), the instance and the database are as before; and
    the database accepts what the call writes. *)
Theorem adjust_stock_result stock_max now pk (self : Product.t) q op db :
  0 ≤ q →
  stock_in_column stock_max (Product.stock self) = true →
  stock_in_column stock_max (Product.stock self + q) = true →
  let '(ok, self', db') := Product_adjust_stock now pk self q op db in
  (ok = true ↔ op = "add" ∨ (op = "remove" ∧ q ≤ Product.stock self))
  ∧ (ok = false → self' = self ∧ db' = db)
  ∧ Product_adjust_stock_checked stock_max now pk self q op db = Some (ok, self', db').
Proof.
  intros Hq Hs Hsq. apply stock_in_column_spec in Hs, Hsq.
  unfold Product_adjust_stock_checked, Product_adjust_stock.
  destruct (String.eqb op "remove") eqn:Hr.
  - apply String.eqb_eq in Hr as ->.
    destruct (Product.stock self >=? q) eqn:E; simpl.
    + apply Z.geb_le in E. split_and!; [|done|].
      * split; [|done]. intros _. by right.
      * rewrite (proj2 (stock_in_column_spec stock_max (Product.stock self - q)));
          [done|lia].
    + rewrite Z.geb_leb in E. apply Z.leb_gt in E. split_and!; [|done|done].
      split; [done|]. intros [[=]|[_ ?]]. lia.
  - apply String.eqb_neq in Hr.
    destruct (String.eqb op "add") eqn:Ha; simpl.
    + apply String.eqb_eq in Ha as ->. split_and!; [|done|].
      * split; [|done]. by left.
      * rewrite (proj2 (stock_in_column_spec stock_max (Product.stock self + q)));
          [done|lia].
    + apply String.eqb_neq in Ha. split_and!; [|done|done]. split; [done|].
      by intros [?|[? _]].
Qed.

Lemma adjust_stock_result_witness :
  let '(ok, self', db') := Product_adjust_stock 1 1 widget 4 "add" db_scenario in
  (ok = true ↔ "add" = "add" ∨ ("add" = "remove" ∧ 4 ≤ Product.stock widget))
  ∧ (ok = false → self' = widget ∧ db' = db_scenario)
  ∧ Product_adjust_stock_checked postgresql_integer_max 1 1 widget 4 "add" db_scenario
    = Some (ok, self', db').
Proof.
  apply (adjust_stock_result postgresql_integer_max 1 1 widget 4 "add" db_scenario);
    [lia|reflexivity..].
Defined.

(** X2. Whatever the operation and the quantity, [adjust_stock] writes
    to nothing but the row of its own product: the other product rows,
    the carts, cart lines, orders, order lines, reviews, recorded
    movements and key sequences are as before. *)
Theorem adjust_stock_writes_own_row_only now pk (self : Product.t) q op db :
  let db' := (Product_adjust_stock now pk self q op db).2 in
  (∀ k, k ≠ pk → products db' !! k = products db !! k)
  ∧ carts db' = carts db
  ∧ cart_items db' = cart_items db
  ∧ orders db' = orders db
  ∧ order_items db' = order_items db
  ∧ reviews db' = reviews db
  ∧ stock_movements db' = stock_movements db
  ∧ order_seq db' = order_seq db
  ∧ order_item_seq db' = order_item_seq db
  ∧ review_seq db' = review_seq db.
Proof.
  simpl. destruct (adjust_stock_db now pk self q op db) as [->|[s ->]]; [done|].
  simpl. split_and!; try done. intros k Hk. by rewrite lookup_insert_ne.
Qed.

(** X3. For a non-negative quantity and an instance whose stock the
    column holds: if the column holds the stock with the quantity on
    top, adding the quantity and then removing it from the instance as
    left by the first call succeeds and gives back the stock, on the
    instance and on the stored row; and if the stock covers the
    quantity, removing it and adding it back does. The database
    accepts each of the writes. *)
Theorem adjust_stock_add_remove_round_trip stock_max now now' pk (self : Product.t)
    q db :
  0 ≤ q →
  stock_in_column stock_max (Product.stock self) = true →
  (stock_in_column stock_max (Product.stock self + q) = true →
   let '(_, self1, db1) := Product_adjust_stock now pk self q "add" db in
   let '(ok, self2, db2) := Product_adjust_stock now' pk self1 q "remove" db1 in
   ok = true
   ∧ Product.stock self2 = Product.stock self
   ∧ Product.stock <$> products db2 !! pk = Some (Product.stock self)
   ∧ Product_adjust_stock_checked stock_max now pk self q "add" db
     = Some (true, self1, db1)
   ∧ Product_adjust_stock_checked stock_max now' pk self1 q "remove" db1
     = Some (true, self2, db2))
  ∧ (q ≤ Product.stock self →
     let '(_, self1, db1) := Product_adjust_stock now pk self q "remove" db in
     let '(ok, self2, db2) := Product_adjust_stock now' pk self1 q "add" db1 in
     ok = true
     ∧ Product.stock self2 = Product.stock self
     ∧ Product.stock <$> products db2 !! pk = Some (Product.stock self)
     ∧ Product_adjust_stock_checked stock_max now pk self q "remove" db
       = Some (true, self1, db1)
     ∧ Product_adjust_stock_checked stock_max now' pk self1 q "add" db1
       = Some (true, self2, db2)).
Proof.
  intros Hq0 Hin. pose proof (proj1 (stock_in_column_spec _ _) Hin) as Hs. split.
  - intros Hin'. pose proof (proj1 (stock_in_column_spec _ _) Hin') as Hs'.
    unfold Product_adjust_stock_checked.
    rewrite adjust_stock_add_eq, adjust_stock_remove_eq. simpl.
    assert (E : (Product.stock self + q >=? q) = true) by (apply Z.geb_le; lia).
    rewrite E. simpl. rewrite lookup_insert_eq. simpl.
    rewrite Hin'. simpl.
    replace (Product.stock self + q - q) with (Product.stock self) by lia.
    rewrite Hin. simpl. split_and!; done.
  - intros Hq. unfold Product_adjust_stock_checked. rewrite adjust_stock_remove_eq.
    assert (E : (Product.stock self >=? q) = true) by (apply Z.geb_le; lia).
    rewrite E, adjust_stock_add_eq. simpl. rewrite lookup_insert_eq. simpl.
    rewrite (proj2 (stock_in_column_spec stock_max (Product.stock self - q))) by lia.
    replace (Product.stock self - q + q) with (Product.stock self) by lia.
    rewrite Hin. simpl. split_and!; done.
Qed.

Lemma adjust_stock_add_remove_round_trip_witness :
  (let '(_, self1, db1) := Product_adjust_stock 1 1 widget 4 "add" db_scenario in
   let '(ok, self2, db2) := Product_adjust_stock 2 1 self1 4 "remove" db1 in
   ok = true
   ∧ Product.stock self2 = Product.stock widget
   ∧ Product.stock <$> products db2 !! 1%nat = Some (Product.stock widget)
   ∧ Product_adjust_stock_checked postgresql_integer_max 1 1 widget 4 "add" db_scenario
     = Some (true, self1, db1)
   ∧ Product_adjust_stock_checked postgresql_integer_max 2 1 self1 4 "remove" db1
     = Some (true, self2, db2))
  ∧ (let '(_, self1, db1) := Product_adjust_stock 1 1 widget 4 "remove" db_scenario in
     let '(ok, self2, db2) := Product_adjust_stock 2 1 self1 4 "add" db1 in
     ok = true
     ∧ Product.stock self2 = Product.stock widget
     ∧ Product.stock <$> products db2 !! 1%nat = Some (Product.stock widget)
     ∧ Product_adjust_stock_checked postgresql_integer_max 1 1 widget 4 "remove" db_scenario
       = Some (true, self1, db1)
     ∧ Product_adjust_stock_checked postgresql_integer_max 2 1 self1 4 "add" db1
       = Some (true, self2, db2)).
Proof.
  split.
  - apply (proj1 (adjust_stock_add_remove_round_trip postgresql_integer_max 1 2 1 widget 4
                    db_scenario
                    ltac:(lia) eq_refl)).
    reflexivity.
  - apply (proj2 (adjust_stock_add_remove_round_trip postgresql_integer_max 1 2 1 widget 4
                    db_scenario
                    ltac:(lia) eq_refl)).
    simpl. lia.
Defined.

(** ** The stock ledger *)

Lemma ledger_delta_cons k m rest :
  ledger_delta k (m :: rest)
  = (if decide (StockMovement.product m = k) then movement_delta m else 0)
    + ledger_delta k rest.
Proof.
  unfold ledger_delta. destruct (decide (StockMovement.product m = k)).
  - by rewrite filter_cons_True.
  - by rewrite filter_cons_False.
Qed.

(** The ledger stays inside the column over a list exactly when it
    does at the first movement and, from the tables that its [save]
    leaves, over the others. *)
Lemma ledger_in_column_cons stock_max db m rest p0 p' :
  products db !! StockMovement.product m = Some p0 →
  Product.stock p' = Product.stock p0 + movement_delta m →
  let db1 :=
    set_stock_movements (stock_movements db ++ [m])
      (set_products (<[StockMovement.product m := p']> (products db)) db) in
  ledger_in_column stock_max db (m :: rest)
  ↔ stock_in_column stock_max (Product.stock p0 + movement_delta m) = true
    ∧ ledger_in_column stock_max db1 rest.
Proof.
  intros Hp0 Hs'. cbv zeta. split.
  - intros H. split.
    + specialize (H 0%nat m p0 eq_refl Hp0). simpl in H.
      rewrite ledger_delta_cons in H. rewrite decide_True in H by done.
      unfold ledger_delta in H. simpl in H. by rewrite Z.add_0_r in H.
    + intros i m' p1 Hi Hp1. simpl in Hp1.
      destruct (decide (StockMovement.product m = StockMovement.product m'))
        as [Heq|Hne].
      * rewrite <- Heq, lookup_insert_eq in Hp1. injection Hp1 as <-.
        assert (Hp0' : products db !! StockMovement.product m' = Some p0)
          by (by rewrite <- Heq).
        specialize (H (S i) m' p0 Hi Hp0'). simpl in H.
        rewrite ledger_delta_cons, decide_True in H by done.
        rewrite <- Heq. rewrite Hs'. rewrite <- Heq in H.
        by rewrite Z.add_assoc in H.
      * rewrite lookup_insert_ne in Hp1 by done.
        specialize (H (S i) m' p1 Hi Hp1). simpl in H.
        rewrite ledger_delta_cons, decide_False in H by done. done.
  - intros [H0 Hrest] i m' p Hi Hp. destruct i as [|j]; simpl in Hi.
    + injection Hi as <-. rewrite Hp0 in Hp. injection Hp as <-. simpl.
      rewrite ledger_delta_cons, decide_True by done.
      unfold ledger_delta. simpl. by rewrite Z.add_0_r.
    + simpl. rewrite ledger_delta_cons.
      destruct (decide (StockMovement.product m = StockMovement.product m'))
        as [Heq|Hne].
      * assert (p = p0) as -> by (rewrite <- Heq, Hp0 in Hp; by injection Hp).
        assert (Hp1 : products
                        (set_stock_movements (stock_movements db ++ [m])
                           (set_products
                              (<[StockMovement.product m := p']> (products db)) db))
                      !! StockMovement.product m' = Some p').
        { simpl. by rewrite <- Heq, lookup_insert_eq. }
        specialize (Hrest j m' p' Hi Hp1). rewrite Hs' in Hrest.
        by rewrite Z.add_assoc.
      * assert (Hp1 : products
                        (set_stock_movements (stock_movements db ++ [m])
                           (set_products
                              (<[StockMovement.product m := p']> (products db)) db))
                      !! StockMovement.product m' = Some p).
        { simpl. by rewrite lookup_insert_ne. }
        exact (Hrest j m' p Hp1 Hi) || exact (Hrest j m' p Hi Hp1).
Qed.

(** X4. Movements of declared types that point to product rows, saved
    one after the other, are all saved exactly when, by the ledger, no
    one of them takes the stock of its product out of the column:
    below zero or above the largest integer; the first that does is
    refused, and the sequence ends with its exception. When they are
    all saved they are recorded, in order, after those already there,
    and each product's stock ends at its stock before plus the changes
    of the movements on it: a movement's quantity for [in] and
    [adjustment], minus the absolute value of its quantity for [out]
    (the sign entered for an [out] movement does not matter). *)
Theorem stock_ledger stock_max now (ms : list StockMovement.t) :
  ∀ db,
    movements_have_product db ms →
    Forall movement_type_declared ms →
    (ledger_in_column stock_max db ms
     ↔ is_Some (StockMovement_save_all stock_max now ms db))
    ∧ ∀ db',
        StockMovement_save_all stock_max now ms db = Some db' →
        stock_movements db' = (stock_movements db ++ ms)%list
        ∧ ∀ k p, products db !! k = Some p →
                 ∃ p', products db' !! k = Some p'
                       ∧ Product.stock p' = Product.stock p + ledger_delta k ms.
Proof.
  induction ms as [|m rest IH]; intros db Hfk Hty; simpl.
  - split; [split; [by eexists|by intros _ i m p Hi]|].
    intros db' [= <-]. split; [by rewrite app_nil_r|].
    intros k p Hp. exists p. split; [done|]. unfold ledger_delta; simpl. lia.
  - apply Forall_cons in Hfk as [[p0 Hp0] Hrest].
    apply Forall_cons in Hty as [_ Hty].
    destruct (StockMovement_save_eq stock_max now m db p0 Hp0) as (p1 & Hs1 & ->).
    rewrite (ledger_in_column_cons stock_max db m rest p0 p1 Hp0 Hs1).
    destruct (stock_in_column stock_max (Product.stock p0 + movement_delta m))
      eqn:Hin; simpl.
    + set (db1 := set_stock_movements _ _).
      assert (Hfk1 : movements_have_product db1 rest).
      { eapply Forall_impl; [exact Hrest|]. intros m' [q Hq]. subst db1. simpl.
        destruct (decide (StockMovement.product m = StockMovement.product m'))
          as [<-|Hne].
        - rewrite lookup_insert_eq. by eexists.
        - rewrite lookup_insert_ne by done. by eexists. }
      destruct (IH db1 Hfk1 Hty) as [Hiff Hres]. split.
      * rewrite <- Hiff. split; [by intros [_ ?]|by split].
      * intros db' Hrun. destruct (Hres db' Hrun) as [Hms Hstock]. split.
        -- rewrite Hms. subst db1. simpl. by rewrite <- app_assoc.
        -- intros k p Hp. rewrite ledger_delta_cons.
           destruct (decide (StockMovement.product m = k)) as [Heq|Hne].
           ++ destruct (Hstock k p1) as (p' & Hp' & Hs).
              { subst db1 k. simpl. by rewrite lookup_insert_eq. }
              exists p'. split; [done|]. rewrite Hs, Hs1.
              subst k. rewrite Hp0 in Hp. injection Hp as <-. lia.
           ++ destruct (Hstock k p) as (p' & Hp' & Hs).
              { subst db1. simpl. by rewrite lookup_insert_ne. }
              exists p'. split; [done|]. lia.
    + split; [|done]. split; [by intros [? _]|]. by intros [? ?].
Qed.

Lemma stock_ledger_witness :
  (ledger_in_column postgresql_integer_max db_scenario movements_in_out
   ↔ is_Some (StockMovement_save_all postgresql_integer_max 3 movements_in_out
                db_scenario))
  ∧ ∀ db',
      StockMovement_save_all postgresql_integer_max 3 movements_in_out db_scenario
      = Some db' →
      stock_movements db' = (stock_movements db_scenario ++ movements_in_out)%list
      ∧ ∀ k p, products db_scenario !! k = Some p →
               ∃ p', products db' !! k = Some p'
                     ∧ Product.stock p'
                       = Product.stock p + ledger_delta k movements_in_out.
Proof.
  apply (stock_ledger postgresql_integer_max 3 movements_in_out db_scenario).
  - repeat constructor; by exists widget.
  - apply Forall_cons. split; [by left|].
    apply Forall_cons. split; [right; by left|]. constructor.
Defined.

(** Ten units, plus five, minus two; and a list that takes sixteen
    units out of fifteen is refused. *)
Example stock_ledger_run :
  (∃ db',
     StockMovement_save_all postgresql_integer_max 3 movements_in_out db_scenario
     = Some db'
     ∧ Product.stock <$> products db' !! 1%nat = Some 13)
  ∧ StockMovement_save_all postgresql_integer_max 3
      [StockMovement.mk 1 5 "in"; StockMovement.mk 1 (-16) "out"] db_scenario
    = None.
Proof.
  split; [|by vm_compute].
  eexists. split; [vm_compute; reflexivity|]. by vm_compute.
Qed.

(** ** Checkout: when it succeeds, and what it does to the stock *)

Lemma checkout_validate_ok db items :
  Forall (line_ok db) items → checkout_validate db items = Some None.
Proof.
  intros Hok. pose proof (checkout_validate_spec db items) as Hv.
  destruct (checkout_validate db items) as [[m|]|]; [| done |].
  - destruct Hv as (item & Hi & Ho). rewrite Forall_forall in Hok.
    by destruct (line_ok_not_offends db item m (Hok item Hi)).
  - destruct Hv. eapply Forall_impl; [exact Hok|]. intros item (p & Hp & _).
    by exists p.
Qed.

Lemma sum_subtotals_total db items :
  lines_have_product db items → is_Some (sum_subtotals db items).
Proof.
  induction 1 as [|item rest [p Hp] _ [t IH]]; simpl; [by eexists|].
  unfold CartItem_subtotal. rewrite Hp. simpl. rewrite IH. simpl. by eexists.
Qed.

Lemma checkout_process_total now order_pk items :
  ∀ db, lines_have_product db items →
        is_Some (checkout_process now order_pk items db).
Proof.
  induction items as [|item rest IH]; intros db Hfk; simpl; [by eexists|].
  apply Forall_cons in Hfk as [[p Hp] Hrest]. rewrite Hp. simpl.
  set (db1 := OrderItem_objects_create _ _ _ _ db).
  destruct (Product_adjust_stock now (CartItem.product item) p
              (CartItem.quantity item) "remove" db1) as [[ok p'] db'] eqn:E.
  apply IH. eapply Forall_impl; [exact Hrest|]. intros r [pr Hpr].
  assert (Hdb' : db' = (Product_adjust_stock now (CartItem.product item) p
                          (CartItem.quantity item) "remove" db1).2)
    by (by rewrite E).
  rewrite Hdb'.
  destruct (adjust_stock_db now (CartItem.product item) p
              (CartItem.quantity item) "remove" db1) as [->|[s ->]]; simpl.
  - by eexists.
  - destruct (decide (CartItem.product item = CartItem.product r)) as [<-|Hne].
    + rewrite lookup_insert_eq. by eexists.
    + rewrite lookup_insert_ne by done. by eexists.
Qed.

(** X5. When every line of the cart has an available product holding
    the line's quantity, [checkout] returns success: the order it
    returns is pending, belongs to the cart's user and has the next key
    of the sequence, and the cart, instance and stored row, is
    [checked_out]. With C2 this makes the test of the lines the only
    way for [checkout] to fail. *)
Theorem checkout_succeeds_when_lines_ok now pk (self : Cart.t) db :
  Forall (line_ok db) (Cart_items db pk) →
  ∃ order self' db',
    Cart_checkout now pk self db
      = Some (true, Created (order_seq db) order, self', db')
    ∧ Order.status order = "pending"
    ∧ Order.user order = Cart.user self
    ∧ Cart.status self' = "checked_out"
    ∧ carts db' !! pk = Some self'.
Proof.
  intros Hok.
  assert (Hfk : lines_have_product db (Cart_items db pk)).
  { eapply Forall_impl; [exact Hok|]. intros item (p & Hp & _). by exists p. }
  unfold Cart_checkout. rewrite (checkout_validate_ok _ _ Hok). simpl.
  unfold Cart_total_price. destruct (sum_subtotals_total _ _ Hfk) as [t ->]. simpl.
  change (Cart_items _ pk) with (Cart_items db pk).
  set (db1 := mkDB _ _ _ _ _ _ _ _ _ _).
  destruct (checkout_process_total now (order_seq db) (Cart_items db pk) db1 Hfk)
    as [db2 ->].
  simpl. do 3 eexists. split; [reflexivity|]. simpl.
  split_and!; try done. by rewrite lookup_insert_eq.
Qed.

Lemma checkout_succeeds_when_lines_ok_witness :
  ∃ order self' db',
    Cart_checkout 100 1 (Cart.mk 7 "active" 0) db_scenario
      = Some (true, Created (order_seq db_scenario) order, self', db')
    ∧ Order.status order = "pending"
    ∧ Order.user order = Cart.user (Cart.mk 7 "active" 0)
    ∧ Cart.status self' = "checked_out"
    ∧ carts db' !! 1%nat = Some self'.
Proof.
  apply (checkout_succeeds_when_lines_ok 100 1 (Cart.mk 7 "active" 0) db_scenario).
  repeat constructor. exists widget. split_and!; [done|done|]. simpl. lia.
Defined.

(** X6. [Cart.checkout] has no test for an empty cart: on a cart
    without lines it returns success with a pending order of amount 0,
    which gets no line, no product row changes, and the cart is marked
    [checked_out]. *)
Theorem checkout_of_empty_cart now pk (self : Cart.t) db :
  Cart_items db pk = [] →
  ∃ db',
    Cart_checkout now pk self db
      = Some (true,
              Created (order_seq db) (Order.mk (Cart.user self) "pending" 0 now),
              Cart.set_updated_at now (Cart.set_status "checked_out" self), db')
    ∧ orders db' !! order_seq db = Some (Order.mk (Cart.user self) "pending" 0 now)
    ∧ order_items db' = order_items db
    ∧ products db' = products db
    ∧ Cart.status <$> carts db' !! pk = Some "checked_out".
Proof.
  intros Hempty. unfold Cart_checkout, Cart_total_price. rewrite Hempty. simpl.
  change (Cart_items _ pk) with (Cart_items db pk). rewrite Hempty. simpl.
  eexists. split; [reflexivity|]. simpl. rewrite !lookup_insert_eq. done.
Qed.

Lemma checkout_of_empty_cart_witness :
  ∃ db',
    Cart_checkout 100 1 (Cart.mk 7 "active" 0) db_empty_cart
      = Some (true,
              Created (order_seq db_empty_cart)
                      (Order.mk (Cart.user (Cart.mk 7 "active" 0)) "pending" 0 100),
              Cart.set_updated_at 100
                (Cart.set_status "checked_out" (Cart.mk 7 "active" 0)), db')
    ∧ orders db' !! order_seq db_empty_cart
      = Some (Order.mk (Cart.user (Cart.mk 7 "active" 0)) "pending" 0 100)
    ∧ order_items db' = order_items db_empty_cart
    ∧ products db' = products db_empty_cart
    ∧ Cart.status <$> carts db' !! 1%nat = Some "checked_out".
Proof.
  apply (checkout_of_empty_cart 100 1 (Cart.mk 7 "active" 0) db_empty_cart).
  reflexivity.
Defined.

(** X7. After a successful [checkout] of a cart in which no product
    comes twice, every product's stock is its stock before minus the
    quantity of the cart's line for it (products without line keep
    their stock), and its price is unchanged. *)
Theorem checkout_debits_each_product now pk (self : Cart.t) db
    order_pk order self' db' :
  NoDup (CartItem.product <$> Cart_items db pk) →
  Cart_checkout now pk self db = Some (true, Created order_pk order, self', db') →
  ∀ k p, products db !! k = Some p →
         ∃ p', products db' !! k = Some p'
               ∧ Product.stock p' = Product.stock p - debited k (Cart_items db pk)
               ∧ Product.price p' = Product.price p.
Proof.
  intros Hnd H k p Hp.
  apply Cart_checkout_success in H
    as (t & db2 & Hval & _ & Hpk & Horder & Hproc & Hself & Hdb').
  pose proof (checkout_validate_spec db (Cart_items db pk)) as Hok.
  rewrite Hval in Hok.
  destruct (checkout_process_stock now order_pk (Cart_items db pk)
              (Order_objects_create now (Cart.user self) t db).2 db2
              Hnd Hok Hproc k p Hp) as (p' & Hp' & Hs).
  apply checkout_process_spec in Hproc as (_ & _ & _ & _ & _ & Hprice).
  exists p'. subst db'. simpl. split_and!; [done|done|].
  specialize (Hprice k). rewrite Hp' in Hprice. simpl in Hprice.
  rewrite Hp in Hprice. by injection Hprice.
Qed.

Lemma checkout_debits_each_product_witness :
  ∃ order self' db',
    Cart_checkout 100 1 (Cart.mk 7 "active" 0) db_scenario
      = Some (true, Created 1 order, self', db')
    ∧ ∀ k p, products db_scenario !! k = Some p →
             ∃ p', products db' !! k = Some p'
                   ∧ Product.stock p'
                     = Product.stock p - debited k (Cart_items db_scenario 1)
                   ∧ Product.price p' = Product.price p.
Proof.
  do 3 eexists. split; [vm_compute; reflexivity|].
  eapply (checkout_debits_each_product 100 1 (Cart.mk 7 "active" 0) db_scenario).
  - repeat constructor. apply not_elem_of_nil.
  - vm_compute. reflexivity.
Defined.

(** ** Stock stays non-negative through checkout and cancellation *)

Lemma checkout_process_nonneg now order_pk items :
  ∀ db db2,
    stocks_nonneg db →
    checkout_process now order_pk items db = Some db2 →
    stocks_nonneg db2.
Proof.
  induction items as [|item rest IH]; intros db db2 Hnn H; simpl in H.
  - by injection H as <-.
  - destruct (products db !! CartItem.product item) as [p|] eqn:Hp; [|done].
    simpl in H. rewrite adjust_stock_remove_eq in H.
    pose proof (map_Forall_lookup_1 _ _ _ _ Hnn Hp) as Hp0. simpl in Hp0.
    destruct (Product.stock p >=? CartItem.quantity item) eqn:E.
    + eapply IH; [|exact H]. unfold stocks_nonneg. simpl.
      apply map_Forall_insert_2; [|done]. simpl. apply Z.geb_le in E. lia.
    + eapply IH; [|exact H]. done.
Qed.

Lemma cancel_restore_nonneg now items :
  ∀ db db',
    stocks_nonneg db → quantities_nonneg items →
    cancel_restore now items db = Some db' →
    stocks_nonneg db'.
Proof.
  induction items as [|item rest IH]; intros db db' Hnn Hq H; simpl in H.
  - by injection H as <-.
  - apply Forall_cons in Hq as [Hq0 Hq].
    destruct (products db !! OrderItem.product item) as [p|] eqn:Hp; [|done].
    simpl in H.
    pose proof (map_Forall_lookup_1 _ _ _ _ Hnn Hp) as Hp0. simpl in Hp0.
    eapply IH; [|exact Hq|exact H]. unfold stocks_nonneg. simpl.
    apply map_Forall_insert_2; [|done]. simpl. lia.
Qed.

(** X8. From tables without negative stock, [Cart.checkout] never
    leaves a negative stock, whatever the cart holds and whether it
    succeeds or fails; and neither does [Order.cancel_order] when the
    order's lines record no negative quantity. *)
Theorem checkout_and_cancel_keep_stock_nonneg now db :
  stocks_nonneg db →
  (∀ pk (self : Cart.t) r self' db',
     Cart_checkout now pk self db = Some (r, self', db') → stocks_nonneg db')
  ∧ (∀ pk (self : Order.t) r self' db',
       quantities_nonneg (Order_items db pk) →
       Order_cancel_order now pk self db = Some (r, self', db') →
       stocks_nonneg db').
Proof.
  intros Hnn. split.
  - intros pk self r self' db' H. unfold Cart_checkout in H.
    destruct (checkout_validate db (Cart_items db pk)) as [[m|]|]; simpl in H;
      [by injection H as <- <- <-| |done].
    destruct (Cart_total_price db pk) as [t|]; simpl in H; [|done].
    change (Cart_items _ pk) with (Cart_items db pk) in H.
    match type of H with
    | context [checkout_process now ?k ?l ?d] =>
        destruct (checkout_process now k l d) as [db2|] eqn:Hproc
    end; simpl in H; [|done].
    injection H as <- <- <-.
    apply checkout_process_nonneg in Hproc; done.
  - intros pk self r self' db' Hq H. unfold Order_cancel_order in H.
    destruct (Order.can_cancel self); simpl in H; [|by injection H as <- <- <-].
    destruct (cancel_restore now (Order_items db pk) db) as [db1|] eqn:Hrun;
      simpl in H; [|done].
    injection H as <- <- <-. change (stocks_nonneg db1).
    by eapply cancel_restore_nonneg.
Qed.

Lemma checkout_and_cancel_keep_stock_nonneg_witness :
  stocks_nonneg db_ordered
  ∧ (∀ pk (self : Cart.t) r self' db',
       Cart_checkout 5 pk self db_ordered = Some (r, self', db') → stocks_nonneg db')
  ∧ (∀ pk (self : Order.t) r self' db',
       quantities_nonneg (Order_items db_ordered pk) →
       Order_cancel_order 5 pk self db_ordered = Some (r, self', db') →
       stocks_nonneg db').
Proof.
  assert (H : stocks_nonneg db_ordered).
  { apply map_Forall_singleton. simpl. lia. }
  split; [exact H|]. exact (checkout_and_cancel_keep_stock_nonneg 5 db_ordered H).
Defined.

(** X9. [cancel_order] called again on the instance that a successful
    cancellation returned, or on the order as it is then stored, is
    refused and writes nothing: a cancelled order is not credited
    twice. *)
Theorem cancel_order_not_twice now now' pk (self : Order.t) db m self' db' :
  Order_cancel_order now pk self db = Some (true, m, self', db') →
  orders db' !! pk = Some self'
  ∧ Order_cancel_order now' pk self' db'
    = Some (false, "Order cannot be cancelled", self', db').
Proof.
  intros H. unfold Order_cancel_order in H.
  destruct (Order.can_cancel self); simpl in H; [|done].
  destruct (cancel_restore now (Order_items db pk) db) as [db1|]; simpl in H; [|done].
  injection H as <- <- <-. simpl. split; [by rewrite lookup_insert_eq|done].
Qed.

Lemma cancel_order_not_twice_witness :
  ∃ self' db',
    Order_cancel_order 200 1 (Order.mk 7 "pending" 15000 0) db_ordered
      = Some (true, "Order cancelled successfully", self', db')
    ∧ orders db' !! 1%nat = Some self'
    ∧ Order_cancel_order 300 1 self' db'
      = Some (false, "Order cannot be cancelled", self', db').
Proof.
  do 2 eexists. split; [vm_compute; reflexivity|].
  eapply (cancel_order_not_twice 200 300 1 (Order.mk 7 "pending" 15000 0) db_ordered).
  vm_compute. reflexivity.
Defined.

(** ** Cart lines: validation on save against the test of checkout *)

Lemma CartItem_clean_ok db self :
  CartItem_clean db self = Some None ↔ line_ok db self.
Proof.
  unfold CartItem_clean, line_ok. split.
  - destruct (products db !! CartItem.product self) as [p|]; simpl; [|done].
    destruct (CartItem.quantity self >? Product.stock p) eqn:E; [done|].
    destruct (Product.available p) eqn:Ha; simpl; [|done].
    intros _. exists p. rewrite Z.gtb_ltb in E. apply Z.ltb_ge in E. done.
  - intros (p & -> & Ha & Hq). simpl.
    assert (E : (CartItem.quantity self >? Product.stock p) = false)
      by (rewrite Z.gtb_ltb; apply Z.ltb_ge; lia).
    by rewrite E, Ha.
Qed.

(** X10. [CartItem.clean] returns without error exactly for the lines
    that pass the test of [Cart.checkout]; so a cart whose lines all
    pass [clean] passes the validation loop of [checkout]. The two do
    not name the same reason, though: for a line that asks more than
    the stock of a product that is not available, [clean] reports the
    stock and [checkout] the availability. *)
Theorem clean_agrees_with_checkout db (self : CartItem.t) :
  (CartItem_clean db self = Some None ↔ line_ok db self)
  ∧ (∀ items, Forall (λ i, CartItem_clean db i = Some None) items →
              checkout_validate db items = Some None)
  ∧ (∀ p, products db !! CartItem.product self = Some p →
          Product.available p = false →
          Product.stock p < CartItem.quantity self →
          CartItem_clean db self
            = Some (Some ("Only " ++ pretty (Product.stock p)
                          ++ " items available in stock"))
          ∧ checkout_validate db [self]
            = Some (Some ("Product " ++ Product.name p ++ " is not available"))).
Proof.
  split_and!.
  - apply CartItem_clean_ok.
  - intros items Hall. apply checkout_validate_ok.
    eapply Forall_impl; [exact Hall|]. intros i. apply CartItem_clean_ok.
  - intros p Hp Ha Hq. unfold CartItem_clean. simpl. rewrite Hp. simpl.
    assert (E : (CartItem.quantity self >? Product.stock p) = true)
      by (by apply Z.gtb_lt).
    by rewrite E, Ha.
Qed.

Lemma clean_agrees_with_checkout_witness :
  CartItem_clean db_discontinued (CartItem.mk 1 1 3)
    = Some (Some "Only 2 items available in stock")
  ∧ checkout_validate db_discontinued [CartItem.mk 1 1 3]
    = Some (Some "Product Widget is not available").
Proof.
  apply (proj2 (proj2 (clean_agrees_with_checkout db_discontinued
                         (CartItem.mk 1 1 3)))
           (Product.mk "Widget" 5000 2 false 0 0 0 0)).
  - reflexivity.
  - reflexivity.
  - simpl. lia.
Defined.

Lemma cart_line_keys_products (items : list CartItem.t) pk :
  NoDup (cart_line_keys items) →
  NoDup (CartItem.product <$> filter (λ i, CartItem.cart i = pk) items).
Proof.
  unfold cart_line_keys. induction items as [|item rest IH]; intros Hnd.
  - constructor.
  - rewrite fmap_cons in Hnd. apply NoDup_cons in Hnd as [Hnotin Hnd].
    destruct (decide (CartItem.cart item = pk)) as [Heq|Hne].
    + rewrite filter_cons_True by done. rewrite fmap_cons. apply NoDup_cons.
      split; [|by apply IH].
      intros Hin. apply list_elem_of_fmap in Hin as (other & Hp & Hin).
      apply list_elem_of_filter in Hin as [Hc Hin]. apply Hnotin.
      apply list_elem_of_fmap. exists other. split; [|done]. by rewrite Hp, Heq, Hc.
    + rewrite filter_cons_False by done. by apply IH.
Qed.

(** X11. A line that [CartItem.save] inserts passes the test of
    [checkout] at that moment (its product is available and holds its
    quantity); it is appended to the table and no product row changes;
    and if no two lines of the table had the same cart and product, no
    two have afterwards, so that no cart holds a product twice. *)
Theorem CartItem_save_inserts_valid_unique_line
    (clean_fields : DB → CartItem.t → bool) db (self : CartItem.t) db' :
  CartItem_save clean_fields db self = Some (Some db') →
  line_ok db self
  ∧ cart_items db' = (cart_items db ++ [self])%list
  ∧ products db' = products db
  ∧ (NoDup (cart_line_keys (cart_items db)) →
     NoDup (cart_line_keys (cart_items db'))
     ∧ ∀ pk, NoDup (CartItem.product <$> Cart_items db' pk)).
Proof.
  unfold CartItem_save, CartItem_full_clean. intros H.
  destruct (CartItem_clean db self) as [e|] eqn:Hc; simpl in H; [|done].
  destruct (clean_fields db self); simpl in H; [|done].
  destruct e as [m|]; simpl in H; [done|].
  unfold CartItem_validate_unique in H. case_bool_decide as Hu; simpl in H; [|done].
  injection H as <-. simpl. split_and!; try done.
  - by apply CartItem_clean_ok.
  - intros Hnd.
    assert (Hnd' : NoDup (cart_line_keys (cart_items db ++ [self]))).
    { unfold cart_line_keys in *. rewrite fmap_app. apply NoDup_app.
      split_and!; [done| |apply NoDup_singleton].
      intros k Hk Hk'. apply list_elem_of_singleton in Hk'. by subst k. }
    split; [done|]. intros pk. by apply cart_line_keys_products.
Qed.

Lemma CartItem_save_inserts_valid_unique_line_witness :
  ∃ db',
    CartItem_save (λ _ _, true) db_empty_cart (CartItem.mk 1 1 3) = Some (Some db')
    ∧ line_ok db_empty_cart (CartItem.mk 1 1 3)
    ∧ cart_items db' = (cart_items db_empty_cart ++ [CartItem.mk 1 1 3])%list
    ∧ products db' = products db_empty_cart
    ∧ (NoDup (cart_line_keys (cart_items db_empty_cart)) →
       NoDup (cart_line_keys (cart_items db'))
       ∧ ∀ pk, NoDup (CartItem.product <$> Cart_items db' pk)).
Proof.
  eexists. split; [vm_compute; reflexivity|].
  apply (CartItem_save_inserts_valid_unique_line (λ _ _, true) db_empty_cart
           (CartItem.mk 1 1 3)).
  vm_compute. reflexivity.
Defined.

(** A second line for the same cart and product is refused. *)
Example CartItem_save_twice :
  CartItem_save (λ _ _, true) db_scenario (CartItem.mk 1 1 2) = Some None.
Proof. vm_compute. reflexivity. Qed.

(** ** Reviews: the purchase flag, repeated reports, creation *)

Lemma string_append_assoc (a b c : string) : (a ++ b) ++ c = a ++ (b ++ c).
Proof.
  induction a as [|ch a IH]; [done|].
  change (String ch ((a ++ b) ++ c) = String ch (a ++ (b ++ c))). by f_equal.
Qed.

Lemma string_append_nil_r (a : string) : a ++ "" = a.
Proof.
  induction a as [|ch a IH]; [done|].
  change (String ch (a ++ "") = String ch a). by f_equal.
Qed.

Section Review_further_properties.

Variable round2 : Q → Z.

Lemma verify_purchase_only_if self db self1 :
  Review_verify_purchase self db = Some self1 →
  Review.is_verified_purchase self1 = true →
  Review.is_verified_purchase self = true ∨ bought_and_delivered db self.
Proof.
  unfold Review_verify_purchase.
  destruct (Review.is_verified_purchase self) eqn:Hf; simpl; [by left|].
  destruct (Review.order_item self) as [k|] eqn:Hk; [|intros [= <-] ?; congruence].
  destruct (OrderItem_objects_get db k) as [item|] eqn:Hi; simpl; [|done].
  destruct (orders db !! OrderItem.order item) as [order|] eqn:Ho; simpl; [|done].
  destruct (_ && _) eqn:Hc; intros [= <-] Hflag; [|congruence].
  right. apply andb_true_iff in Hc as [Hc Hp]. apply andb_true_iff in Hc as [Hu Hs].
  apply bool_decide_eq_true in Hu, Hp. apply String.eqb_eq in Hs.
  by exists k, item, order.
Qed.

(** X12. [save] sets [is_verified_purchase] for nothing else: a review
    that comes out of [save] with the flag true either had it true, or
    refers to an order line of the reviewed product in a delivered
    order of the reviewer. *)
Theorem save_verifies_purchases_only now self_pk (self : Review.t) db pk self' db' :
  Review_save round2 now self_pk self db = Some (pk, self', db') →
  Review.is_verified_purchase self' = true →
  Review.is_verified_purchase self = true ∨ bought_and_delivered db self.
Proof.
  intros H Hflag. unfold Review_save in H.
  destruct (Review_verify_purchase self db) as [self1|] eqn:Hv; simpl in H; [|done].
  destruct (Review_update_product_rating round2 now _ _) as [db2|]; simpl in H;
    [|done].
  injection H as <- <- <-. by eapply verify_purchase_only_if.
Qed.

Lemma Review_save_frame now self_pk self db pk self' db' :
  Review_save round2 now self_pk self db = Some (pk, self', db') →
  orders db' = orders db
  ∧ order_items db' = order_items db
  ∧ (∀ k, is_Some (products db !! k) → is_Some (products db' !! k))
  ∧ Review.product self' = Review.product self
  ∧ Review.order_item self' = Review.order_item self
  ∧ Review.user self' = Review.user self.
Proof.
  intros H. unfold Review_save in H.
  destruct (Review_verify_purchase self db) as [self1|] eqn:Hv; simpl in H; [|done].
  unfold Review_update_product_rating in H. simpl in H.
  destruct (products db !! Review.product self1) as [p|]; simpl in H; [|done].
  assert (Hsame : Review.product self1 = Review.product self
                  ∧ Review.order_item self1 = Review.order_item self
                  ∧ Review.user self1 = Review.user self)
    by (by destruct (verify_purchase_cases _ _ _ Hv) as [->| ->]).
  destruct Hsame as (Hp & Ho & Hu).
  case_bool_decide; injection H as <- <- <-; simpl; split_and!; try done.
  intros k Hk. destruct (decide (Review.product self1 = k)) as [<-|Hne].
  - rewrite lookup_insert_eq. by eexists.
  - by rewrite lookup_insert_ne.
Qed.

Lemma Review_integrity_frame db db' self self' :
  Review_integrity db self →
  orders db' = orders db → order_items db' = order_items db →
  (∀ k, is_Some (products db !! k) → is_Some (products db' !! k)) →
  Review.product self' = Review.product self →
  Review.order_item self' = Review.order_item self →
  Review_integrity db' self'.
Proof.
  intros [Hp Hfk] Ho Hoi Hprod Hsp Hso. unfold Review_integrity.
  rewrite Hsp, Hso. split; [by apply Hprod|].
  destruct (Review.order_item self) as [k|]; [|done].
  unfold OrderItem_objects_get in *. by rewrite Hoi, Ho.
Qed.

(** One call of [report] on a stored review. *)
Lemma Review_report_step now pk self db :
  Review_integrity db self →
  ∃ self' db',
    Review_report round2 now (Some pk) self db = Some (pk, self', db')
    ∧ Review_integrity db' self'
    ∧ reviews db' !! pk = Some self'
    ∧ Review.reported_count self' = Review.reported_count self + 1
    ∧ Review.is_visible self'
      = (if Review.reported_count self + 1 >=? 5 then false
         else Review.is_visible self)
    ∧ Review.moderation_notes self'
      = (if Review.reported_count self + 1 >=? 5
         then Review.moderation_notes self ++ auto_hidden_note
         else Review.moderation_notes self).
Proof.
  intros Hint. unfold Review_report.
  set (self1 := Review.set_reported_count (Review.reported_count self + 1) self).
  set (self2 := if Review.reported_count self1 >=? 5 then _ else self1).
  assert (Hint2 : Review_integrity db self2).
  { subst self2. by destruct (_ >=? _). }
  destruct (verify_purchase_total _ _ Hint2) as [self3 Hv].
  pose proof Hint2 as [Hp _].
  destruct (Review_save_returns round2 now (Some pk) self2 db self3 Hp Hv)
    as (db' & Hs & Hr).
  simpl in Hs, Hr.
  exists (Review.set_updated_at now self3), db'. split; [done|].
  destruct (Review_save_frame _ _ _ _ _ _ _ Hs) as (Ho & Hoi & Hprod & Hsp & Hso & _).
  split; [by eapply Review_integrity_frame|]. split; [done|].
  assert (Hsame : Review.reported_count self3 = Review.reported_count self2
                  ∧ Review.is_visible self3 = Review.is_visible self2
                  ∧ Review.moderation_notes self3 = Review.moderation_notes self2)
    by (by destruct (verify_purchase_cases _ _ _ Hv) as [->| ->]).
  destruct Hsame as (Hc & Hvis & Hn). simpl. rewrite Hc, Hvis, Hn.
  subst self2. simpl. by destruct (Review.reported_count self + 1 >=? 5).
Qed.

(** X13. After [n] calls of [report] on a stored review whose foreign
    keys point to rows, [reported_count] has grown by [n]; if at least
    one call was made and the count has reached 5, the review is not
    visible, otherwise its visibility is as before: a report never
    makes a hidden review visible again; and the note has been
    appended once for every call that left the count at 5 or more, so
    a review reported beyond the fifth time carries the note several
    times. *)
Theorem report_times_counts now (n : nat) pk :
  ∀ (self : Review.t) db,
    Review_integrity db self →
    ∃ self' db',
      Review_report_times round2 now n pk self db = Some (self', db')
      ∧ Review.reported_count self' = Review.reported_count self + Z.of_nat n
      ∧ Review.is_visible self'
        = (if bool_decide (n = 0%nat)
              || (Review.reported_count self + Z.of_nat n <? 5)
           then Review.is_visible self else false)
      ∧ Review.moderation_notes self'
        = Review.moderation_notes self
          ++ note_times
               (Z.to_nat (Z.min (Z.of_nat n)
                                (Review.reported_count self + Z.of_nat n - 4)))
      ∧ (n ≠ 0%nat → reviews db' !! pk = Some self').
Proof.
  induction n as [|n IH]; intros self db Hint.
  - exists self, db. simpl. split_and!; try done; [lia|].
    assert (E : Z.to_nat (Z.min 0 (Review.reported_count self + 0 - 4)) = 0%nat)
      by lia.
    change (Z.of_nat 0) with 0. rewrite E. simpl. by rewrite string_append_nil_r.
  - destruct (Review_report_step now pk self db Hint)
      as (self1 & db1 & Hs & Hint1 & Hr1 & Hc1 & Hv1 & Hn1).
    destruct (IH self1 db1 Hint1) as (self' & db' & Hrun & Hc & Hv & Hn & Hr).
    exists self', db'. simpl. rewrite Hs. simpl. split; [done|].
    split; [lia|]. split.
    + rewrite Hv, Hv1, Hc1.
      destruct (decide (n = 0%nat)) as [->|Hn0].
      * simpl. change (Z.of_nat 1) with 1.
        destruct (Review.reported_count self + 1 >=? 5) eqn:E.
        -- apply Z.geb_le in E.
           assert (E' : (Review.reported_count self + 1 <? 5) = false)
             by (apply Z.ltb_ge; lia).
           by rewrite E'.
        -- rewrite Z.geb_leb in E. apply Z.leb_gt in E.
           assert (E' : (Review.reported_count self + 1 <? 5) = true)
             by (by apply Z.ltb_lt).
           by rewrite E'.
      * rewrite (bool_decide_eq_false_2 (n = 0%nat)) by done. simpl.
        replace (Review.reported_count self + 1 + Z.of_nat n)
          with (Review.reported_count self + Z.of_nat (S n)) by lia.
        destruct (Review.reported_count self + Z.of_nat (S n) <? 5) eqn:E; [|done].
        apply Z.ltb_lt in E.
        assert (E' : (Review.reported_count self + 1 >=? 5) = false)
          by (rewrite Z.geb_leb; apply Z.leb_gt; lia).
        by rewrite E'.
    + split.
      * rewrite Hn, Hn1, Hc1.
        destruct (Review.reported_count self + 1 >=? 5) eqn:E.
        -- apply Z.geb_le in E. rewrite string_append_assoc.
           change (auto_hidden_note ++ note_times ?k) with (note_times (S k)).
           do 2 f_equal. lia.
        -- rewrite Z.geb_leb in E. apply Z.leb_gt in E. do 2 f_equal. lia.
      * intros _. destruct (decide (n = 0%nat)) as [->|Hn0].
        -- simpl in Hrun. by injection Hrun as <- <-.
        -- by apply Hr.
Qed.

End Review_further_properties.

Lemma save_verifies_purchases_only_witness :
  ∃ pk self' db',
    Review_save round_half_even_2dp 9 None review_of_purchase db_delivered
      = Some (pk, self', db')
    ∧ Review.is_verified_purchase self' = true
    ∧ (Review.is_verified_purchase review_of_purchase = true
       ∨ bought_and_delivered db_delivered review_of_purchase).
Proof.
  assert (H : ∃ pk self' db',
            Review_save round_half_even_2dp 9 None review_of_purchase db_delivered
            = Some (pk, self', db') ∧ Review.is_verified_purchase self' = true).
  { do 3 eexists. split; [vm_compute; reflexivity|]. reflexivity. }
  destruct H as (pk & self' & db' & Hs & Hf).
  exists pk, self', db'. split; [exact Hs|]. split; [exact Hf|].
  exact (save_verifies_purchases_only round_half_even_2dp 9 None review_of_purchase
           db_delivered pk self' db' Hs Hf).
Defined.

Lemma report_times_counts_witness :
  Review_integrity db_reviewed review_four_stars
  ∧ ∃ self' db',
      Review_report_times round_half_even_2dp 9 3 1 review_four_stars db_reviewed
        = Some (self', db')
      ∧ Review.reported_count self'
        = Review.reported_count review_four_stars + Z.of_nat 3
      ∧ Review.is_visible self'
        = (if bool_decide (3%nat = 0%nat)
              || (Review.reported_count review_four_stars + Z.of_nat 3 <? 5)
           then Review.is_visible review_four_stars else false)
      ∧ Review.moderation_notes self'
        = Review.moderation_notes review_four_stars
          ++ note_times
               (Z.to_nat (Z.min (Z.of_nat 3)
                            (Review.reported_count review_four_stars
                             + Z.of_nat 3 - 4)))
      ∧ (3%nat ≠ 0%nat → reviews db' !! 1%nat = Some self').
Proof.
  assert (Hint : Review_integrity db_reviewed review_four_stars).
  { split; [|done]. by eexists. }
  split; [exact Hint|].
  exact (report_times_counts round_half_even_2dp 9 3 1 review_four_stars
           db_reviewed Hint).
Defined.

(** ** Reviews created through the view *)

Lemma review_exists_true db user product :
  review_exists db user product = true
  ↔ ∃ k r, reviews db !! k = Some r
           ∧ Review.user r = user ∧ Review.product r = product.
Proof. unfold review_exists. by rewrite bool_decide_eq_true. Qed.

Lemma delivered_purchase_exists_true db user product :
  delivered_purchase_exists db user product = true
  ↔ delivered_purchase db user product.
Proof.
  unfold delivered_purchase_exists, delivered_purchase.
  rewrite existsb_exists. split.
  - intros (item & Hin & H). apply list_elem_of_In in Hin.
    destruct (orders db !! OrderItem.order item) as [order|] eqn:Ho; [|done].
    apply andb_true_iff in H as [H Hp]. apply andb_true_iff in H as [Hu Hs].
    apply bool_decide_eq_true in Hu, Hp. apply String.eqb_eq in Hs.
    by exists item, order.
  - intros (item & order & Hin & Ho & Hu & Hs & Hp). exists item.
    split; [by apply list_elem_of_In|]. rewrite Ho.
    rewrite !bool_decide_eq_true_2 by done. simpl.
    rewrite andb_true_r. by apply String.eqb_eq.
Qed.

(** X14. [perform_create] refuses, with its message, a user who
    already has a review of the product, visible or not. When it
    creates the review, the review is stored as given (user, product,
    rating), visible; it is marked as a verified purchase exactly when
    the user has a delivered order with a line for the product; the
    product's [total_reviews] is the number of its visible reviews, at
    least 1; and a second creation by the same user for the same
    product is refused. *)
Theorem review_create_once_per_product (round2 : Q → Z) now user product rating db :
  (review_exists db user product = true →
   ReviewViewSet_perform_create round2 now user product rating db
   = Some (inl "You have already reviewed this product"))
  ∧ (∀ pk self' db',
       ReviewViewSet_perform_create round2 now user product rating db
       = Some (inr (pk, self', db')) →
       reviews db' !! pk = Some self'
       ∧ Review.user self' = user
       ∧ Review.product self' = product
       ∧ Review.rating self' = rating
       ∧ Review.is_visible self' = true
       ∧ (Review.is_verified_purchase self' = true
          ↔ delivered_purchase db user product)
       ∧ (∃ p', products db' !! product = Some p'
                ∧ Product.total_reviews p'
                  = Z.of_nat (length (visible_reviews db' product))
                ∧ 1 ≤ Product.total_reviews p')
       ∧ ∀ now' rating',
           ReviewViewSet_perform_create round2 now' user product rating' db'
           = Some (inl "You have already reviewed this product")).
Proof.
  unfold ReviewViewSet_perform_create. split.
  - by intros ->.
  - intros pk self' db' H.
    destruct (review_exists db user product) eqn:Hex; [done|].
    set (review := Review.mk _ _ _ _ _ _ _ _ _ _) in H.
    destruct (Review_save round2 now None review db) as [[[pk0 s0] d0]|] eqn:Hs;
      simpl in H; [|done].
    injection H as -> -> ->.
    assert (Hv : Review_verify_purchase review db = Some review).
    { unfold Review_verify_purchase. simpl. by destruct (delivered_purchase_exists _ _ _). }
    unfold Review_save in Hs. rewrite Hv in Hs. simpl in Hs.
    unfold Review_update_product_rating in Hs. simpl in Hs.
    destruct (products db !! product) as [p|] eqn:Hp; simpl in Hs; [|done].
    match type of Hs with
    | context [visible_reviews ?d product] => set (db1 := d) in *
    end.
    assert (Hstored : reviews db1 !! review_seq db
                      = Some (Review.set_updated_at now review))
      by (subst db1; simpl; by rewrite lookup_insert_eq).
    assert (Hvis : (review_seq db, Review.set_updated_at now review)
                   ∈ visible_reviews db1 product).
    { apply list_elem_of_filter. split; [done|]. by apply elem_of_map_to_list. }
    assert (Hne : visible_reviews db1 product ≠ []).
    { intros Hnil. rewrite Hnil in Hvis. by apply elem_of_nil in Hvis. }
    rewrite bool_decide_eq_true_2 in Hs by done.
    injection Hs as <- <- <-.
    split_and!; try done.
    + simpl. apply delivered_purchase_exists_true.
    + eexists. split; [simpl; by rewrite lookup_insert_eq|].
      simpl. split; [done|].
      destruct (visible_reviews db1 product); [done|]. simpl. lia.
    + intros now' rating'.
      assert (Hex' : review_exists
                       (set_products
                          (<[product := Product.set_last_stock_update now
                               (Product.set_updated now
                                  (Product.set_total_reviews
                                     (Z.of_nat (length (visible_reviews db1 product)))
                                     (Product.set_average_rating
                                        (round2 (Avg_rating
                                                   (visible_reviews db1 product)))
                                        p)))]> (products db1)) db1)
                       user product = true).
      { apply review_exists_true.
        exists (review_seq db), (Review.set_updated_at now review).
        split; [exact Hstored|done]. }
      simpl in Hex'. simpl. by rewrite Hex'.
Qed.

Lemma review_create_once_per_product_witness :
  ∃ pk self' db',
    ReviewViewSet_perform_create round_half_even_2dp 9 7 1 5 db_delivered
      = Some (inr (pk, self', db'))
    ∧ reviews db' !! pk = Some self'
    ∧ Review.user self' = 7%nat
    ∧ Review.product self' = 1%nat
    ∧ Review.rating self' = 5
    ∧ Review.is_visible self' = true
    ∧ (Review.is_verified_purchase self' = true
       ↔ delivered_purchase db_delivered 7 1)
    ∧ (∃ p', products db' !! 1%nat = Some p'
             ∧ Product.total_reviews p'
               = Z.of_nat (length (visible_reviews db' 1))
             ∧ 1 ≤ Product.total_reviews p')
    ∧ ∀ now' rating',
        ReviewViewSet_perform_create round_half_even_2dp now' 7 1 rating' db'
        = Some (inl "You have already reviewed this product").
Proof.
  do 3 eexists. split; [vm_compute; reflexivity|].
  apply (proj2 (review_create_once_per_product round_half_even_2dp 9 7 1 5
                  db_delivered)).
  vm_compute. reflexivity.
Defined.

(** X15. If no two reviews are by the same user on the same product,
    none are after [perform_create], whether it creates a review or
    refuses. *)
Theorem review_create_keeps_one_per_user_product (round2 : Q → Z)
    now user product rating db r :
  one_review_per_user_product db →
  ReviewViewSet_perform_create round2 now user product rating db = Some r →
  match r with
  | inl _ => True
  | inr (_, _, db') => one_review_per_user_product db'
  end.
Proof.
  intros Huniq H. destruct r as [m|[[pk self'] db']]; [done|].
  unfold ReviewViewSet_perform_create in H.
  destruct (review_exists db user product) eqn:Hex; [done|].
  assert (Hnone : ∀ k r, reviews db !! k = Some r →
                         ¬ (Review.user r = user ∧ Review.product r = product)).
  { intros k r0 Hr0 Hr. assert (review_exists db user product = true); [|congruence].
    apply review_exists_true. by exists k, r0. }
  set (review := Review.mk _ _ _ _ _ _ _ _ _ _) in H.
  destruct (Review_save round2 now None review db) as [[[pk0 s0] d0]|] eqn:Hs;
    simpl in H; [|done].
  injection H as -> -> ->.
  assert (Hv : Review_verify_purchase review db = Some review).
  { unfold Review_verify_purchase. simpl. by destruct (delivered_purchase_exists _ _ _). }
  unfold Review_save in Hs. rewrite Hv in Hs. simpl in Hs.
  unfold Review_update_product_rating in Hs. simpl in Hs.
  destruct (products db !! product) as [p|]; simpl in Hs; [|done].
  assert (Hrev : reviews db'
                 = <[review_seq db := Review.set_updated_at now review]> (reviews db)).
  { by case_bool_decide; injection Hs as <- <- <-. }
  intros k1 k2 r1 r2 H1 H2 Hu Hp. rewrite Hrev in H1, H2.
  destruct (decide (k1 = review_seq db)) as [->|Hk1];
    destruct (decide (k2 = review_seq db)) as [->|Hk2]; [done| | |].
  - rewrite lookup_insert_eq in H1. rewrite lookup_insert_ne in H2 by done.
    injection H1 as <-. simpl in Hu, Hp. destruct (Hnone k2 r2 H2). by split.
  - rewrite lookup_insert_eq in H2. rewrite lookup_insert_ne in H1 by done.
    injection H2 as <-. simpl in Hu, Hp. destruct (Hnone k1 r1 H1). by split.
  - rewrite lookup_insert_ne in H1, H2 by done. by eapply Huniq.
Qed.

Lemma review_create_keeps_one_per_user_product_witness :
  ∃ r,
    ReviewViewSet_perform_create round_half_even_2dp 9 8 1 5 db_reviewed = Some r
    ∧ match r with
      | inl _ => True
      | inr (_, _, db') => one_review_per_user_product db'
      end.
Proof.
  eexists. split; [vm_compute; reflexivity|].
  apply (review_create_keeps_one_per_user_product round_half_even_2dp 9 8 1 5
           db_reviewed).
  - intros k1 k2 r1 r2 H1 H2 _ _. unfold db_reviewed in H1, H2. simpl in H1, H2.
    apply lookup_singleton_Some in H1 as [<- _].
    by apply lookup_singleton_Some in H2 as [<- _].
  - vm_compute. reflexivity.
Defined.

(** ** The wishlist toggle *)

Lemma latest_added_elem rows r : latest_added rows = Some r → r ∈ rows.
Proof.
  revert r. induction rows as [|x rest IH]; intros r H; simpl in H; [done|].
  destruct (latest_added rest) as [r'|].
  - destruct (WishlistItem.added_at x <? WishlistItem.added_at r'); injection H as <-.
    + right. by apply IH.
    + left.
  - injection H as <-. left.
Qed.

Lemma latest_added_None rows : latest_added rows = None → rows = [].
Proof.
  destruct rows as [|x rest]; [done|]. simpl.
  destruct (latest_added rest) as [r'|]; [|done].
  by destruct (WishlistItem.added_at x <? WishlistItem.added_at r').
Qed.

Lemma NoDup_fmap_elem_inj {A B} (f : A → B) (l : list A) x y :
  NoDup (f <$> l) → x ∈ l → y ∈ l → f x = f y → x = y.
Proof.
  induction l as [|a l IH]; intros Hnd Hx Hy Hf; [by apply elem_of_nil in Hx|].
  rewrite fmap_cons in Hnd. apply NoDup_cons in Hnd as [Hnotin Hnd].
  apply elem_of_cons in Hx as [->|Hx]; apply elem_of_cons in Hy as [->|Hy].
  - done.
  - destruct Hnotin. rewrite Hf. by apply list_elem_of_fmap_2.
  - destruct Hnotin. rewrite <- Hf. by apply list_elem_of_fmap_2.
  - by apply IH.
Qed.

(** One toggle of an existing product on a well-formed wishlist. *)
Lemma WishlistViewSet_toggle_step now user pid db w :
  wishlist_wf w → is_Some (products db !! pid) → pid ≠ 0%nat →
  let r := WishlistViewSet_toggle now user (Some pid) db w in
  wishlist_wf r.2
  ∧ (r.1 = Toggle_removed ∧ in_wishlist w user pid ∧ ¬ in_wishlist r.2 user pid
     ∨ r.1 = Toggle_added ∧ ¬ in_wishlist w user pid ∧ in_wishlist r.2 user pid
       ∧ wishlist_filter w user pid = []
       ∧ r.2 = mkWishlist
                 (wishlist_items w
                  ++ [WishlistItem.mk (wishlist_seq w) user pid now ""])
                 (S (wishlist_seq w)))
  ∧ ∀ user' pid', (user', pid') ≠ (user, pid) →
                  (in_wishlist r.2 user' pid' ↔ in_wishlist w user' pid').
Proof.
  intros (Hpk & Hkey & Hseq) [p Hp] Hpid. unfold WishlistViewSet_toggle.
  destruct pid as [|pid']; [done|]. rewrite Hp.
  destruct (latest_added (wishlist_filter w user (S pid'))) as [item|] eqn:Hl; simpl.
  - apply latest_added_elem in Hl. apply list_elem_of_filter in Hl as [[Hu Hpr] Hin].
    split_and!.
    + unfold wishlist_wf. simpl. split_and!.
      * eapply sublist_NoDup; [exact Hpk|]. apply fmap_sublist, sublist_filter.
      * eapply sublist_NoDup; [exact Hkey|]. apply fmap_sublist, sublist_filter.
      * rewrite Forall_forall in Hseq. apply Forall_forall.
        intros r Hr. apply list_elem_of_filter in Hr as [_ Hr]. by apply Hseq.
    + left. split; [done|]. split; [by exists item|].
      intros (r & Hr & Hru & Hrp). simpl in Hr.
      apply list_elem_of_filter in Hr as [Hne Hr]. apply Hne. f_equal.
      eapply (NoDup_fmap_elem_inj _ _ _ _ Hkey); [done|done|]. simpl. congruence.
    + intros user' pid'' Hother. unfold in_wishlist. simpl. split.
      * intros (r & Hr & Hru & Hrp). apply list_elem_of_filter in Hr as [_ Hr].
        by exists r.
      * intros (r & Hr & Hru & Hrp). exists r. split; [|done].
        apply list_elem_of_filter. split; [|done]. intros Heq.
        assert (r = item) as ->
          by (by eapply (NoDup_fmap_elem_inj _ _ _ _ Hpk)).
        apply Hother. congruence.
  - apply latest_added_None in Hl.
    assert (Hnot : ¬ in_wishlist w user (S pid')).
    { intros (r & Hr & Hru & Hrp).
      by eapply (filter_nil_not_elem_of _ _ r Hl). }
    split_and!.
    + unfold wishlist_wf. simpl. rewrite !fmap_app. simpl. split_and!.
      * apply NoDup_app. split_and!; [done| |apply NoDup_singleton].
        intros k Hk Hk'. apply list_elem_of_singleton in Hk' as ->.
        apply list_elem_of_fmap in Hk as (r & Hr & Hin).
        rewrite Forall_forall in Hseq. specialize (Hseq r Hin). lia.
      * apply NoDup_app. split_and!; [done| |apply NoDup_singleton].
        intros k Hk Hk'. apply list_elem_of_singleton in Hk' as ->.
        apply list_elem_of_fmap in Hk as (r & Hr & Hin). apply Hnot.
        exists r. injection Hr as Hu' Hp'. by split_and!.
      * apply Forall_app. split.
        -- eapply Forall_impl; [exact Hseq|]. intros r Hr. simpl in Hr. lia.
        -- apply Forall_singleton. simpl. lia.
    + right. split_and!; try done.
      eexists. split; [apply elem_of_app; right; apply list_elem_of_singleton; done|].
      done.
    + intros user' pid'' Hother. unfold in_wishlist. simpl. split.
      * intros (r & Hr & Hru & Hrp). apply elem_of_app in Hr as [Hr|Hr].
        -- by exists r.
        -- apply list_elem_of_singleton in Hr as ->. simpl in *.
           destruct Hother. congruence.
      * intros (r & Hr & Hru & Hrp). exists r. split; [|done].
        apply elem_of_app. by left.
Qed.

(** X16. [toggle] answers a request without product number, or with
    the number 0, and a request for a product that does not exist,
    with its error message and leaves the wishlist as it is. For an
    existing product it removes the product from the user's wishlist
    when it is there and answers [removed], and adds it when it is not
    and answers [added]; no other product of the user and no other
    user's wishlist changes, and no user gets a product twice. *)
Theorem wishlist_toggle_flips_membership now user db w :
  WishlistViewSet_toggle now user None db w
    = (Toggle_invalid "Product ID is required", w)
  ∧ WishlistViewSet_toggle now user (Some 0%nat) db w
    = (Toggle_invalid "Product ID is required", w)
  ∧ ∀ pid, pid ≠ 0%nat →
      (products db !! pid = None →
       WishlistViewSet_toggle now user (Some pid) db w
       = (Toggle_invalid "Invalid product ID", w))
      ∧ (is_Some (products db !! pid) → wishlist_wf w →
         let r := WishlistViewSet_toggle now user (Some pid) db w in
         wishlist_wf r.2
         ∧ (r.1 = Toggle_removed ∧ in_wishlist w user pid
            ∧ ¬ in_wishlist r.2 user pid
            ∨ r.1 = Toggle_added ∧ ¬ in_wishlist w user pid
              ∧ in_wishlist r.2 user pid)
         ∧ ∀ user' pid', (user', pid') ≠ (user, pid) →
                         (in_wishlist r.2 user' pid' ↔ in_wishlist w user' pid')).
Proof.
  split; [done|]. split; [done|]. intros pid Hpid. split.
  - intros Hp. unfold WishlistViewSet_toggle. destruct pid; [done|]. by rewrite Hp.
  - intros Hp Hwf.
    destruct (WishlistViewSet_toggle_step now user pid db w Hwf Hp Hpid)
      as (Hwf' & Hflip & Hother).
    split; [done|]. split; [|done].
    destruct Hflip as [(? & ? & ?)|(? & ? & ? & _)]; [by left|by right].
Qed.

Lemma wishlist_toggle_flips_membership_witness :
  let r := WishlistViewSet_toggle 60 8 (Some 1%nat) db_scenario wishlist_of_7 in
  wishlist_wf r.2
  ∧ (r.1 = Toggle_removed ∧ in_wishlist wishlist_of_7 8 1
     ∧ ¬ in_wishlist r.2 8 1
     ∨ r.1 = Toggle_added ∧ ¬ in_wishlist wishlist_of_7 8 1
       ∧ in_wishlist r.2 8 1)
  ∧ ∀ user' pid', (user', pid') ≠ (8%nat, 1%nat) →
                  (in_wishlist r.2 user' pid' ↔ in_wishlist wishlist_of_7 user' pid').
Proof.
  apply (proj2 (proj2 (proj2 (wishlist_toggle_flips_membership 60 8 db_scenario
                                wishlist_of_7)) 1%nat ltac:(done))).
  - by exists widget.
  - unfold wishlist_wf, wishlist_of_7. simpl. split_and!.
    + apply NoDup_singleton.
    + apply NoDup_singleton.
    + apply Forall_singleton. simpl. lia.
Defined.

(** X17. Two toggles of the same existing product by the same user
    bring every wishlist back: each user has the same products on the
    wishlist as before. The two answers are [added] then [removed], or
    [removed] then [added]; in the first case the table itself is as
    before. *)
Theorem wishlist_toggle_twice now now' user pid db w :
  wishlist_wf w → is_Some (products db !! pid) → pid ≠ 0%nat →
  let r1 := WishlistViewSet_toggle now user (Some pid) db w in
  let r2 := WishlistViewSet_toggle now' user (Some pid) db r1.2 in
  (∀ user' pid', in_wishlist r2.2 user' pid' ↔ in_wishlist w user' pid')
  ∧ (r1.1 = Toggle_added ∧ r2.1 = Toggle_removed
     ∧ wishlist_items r2.2 = wishlist_items w
     ∨ r1.1 = Toggle_removed ∧ r2.1 = Toggle_added).
Proof.
  intros Hwf Hp Hpid.
  destruct (WishlistViewSet_toggle_step now user pid db w Hwf Hp Hpid)
    as (Hwf1 & Hflip1 & Hother1).
  destruct (WishlistViewSet_toggle_step now' user pid db _ Hwf1 Hp Hpid)
    as (Hwf2 & Hflip2 & Hother2).
  cbv zeta in *. split.
  - intros user' pid'.
    destruct (decide ((user', pid') = (user, pid))) as [[= -> ->]|Hne].
    + destruct Hflip1 as [(_ & Hin & Hout)|(_ & Hout & Hin & _)];
        destruct Hflip2 as [(_ & Hin2 & Hout2)|(_ & Hout2 & Hin2 & _)];
        try done; tauto.
    + rewrite (Hother2 _ _ Hne). by apply Hother1.
  - destruct Hflip1 as [(Hr1 & Hin & Hout)|(Hr1 & Hout & Hin & Hnil & Hw1)].
    + right. split; [done|].
      by destruct Hflip2 as [(_ & Hin2 & _)|(Hr2 & _)].
    + left. split; [done|].
      destruct Hflip2 as [(Hr2 & _ & _)|(_ & Hout2 & _)]; [|done].
      split; [done|].
      destruct Hwf as (_ & _ & Hseq). rewrite Hw1.
      unfold WishlistViewSet_toggle. destruct pid as [|pid']; [done|].
      destruct Hp as [p Hp]. rewrite Hp.
      unfold wishlist_filter at 1. simpl. rewrite filter_app.
      unfold wishlist_filter in Hnil. rewrite Hnil. simpl.
      rewrite filter_cons_True by done. simpl.
      rewrite filter_app. rewrite filter_cons_False by (simpl; intros ?; done).
      rewrite filter_nil, app_nil_r.
      clear -Hseq. induction (wishlist_items w) as [|x l IH]; [done|].
      apply Forall_cons in Hseq as [Hx Hl].
      rewrite filter_cons_True by (simpl; lia). f_equal. by apply IH.
Qed.

Lemma wishlist_toggle_twice_witness :
  let r1 := WishlistViewSet_toggle 60 8 (Some 1%nat) db_scenario wishlist_of_7 in
  let r2 := WishlistViewSet_toggle 61 8 (Some 1%nat) db_scenario r1.2 in
  (∀ user' pid', in_wishlist r2.2 user' pid' ↔ in_wishlist wishlist_of_7 user' pid')
  ∧ (r1.1 = Toggle_added ∧ r2.1 = Toggle_removed
     ∧ wishlist_items r2.2 = wishlist_items wishlist_of_7
     ∨ r1.1 = Toggle_removed ∧ r2.1 = Toggle_added).
Proof.
  apply (wishlist_toggle_twice 60 61 8 1 db_scenario wishlist_of_7).
  - unfold wishlist_wf, wishlist_of_7. simpl. split_and!.
    + apply NoDup_singleton.
    + apply NoDup_singleton.
    + apply Forall_singleton. simpl. lia.
  - by exists widget.
  - done.
Defined.

(** ** Default addresses *)

Lemma demote_other_defaults_lookup self_pk self rows k :
  demote_other_defaults self_pk self rows !! k
  = (λ a, if bool_decide (Address.user a = Address.user self
                          ∧ Address.type a = Address.type self
                          ∧ Address.is_default a = true
                          ∧ Some k ≠ self_pk)
          then Address.set_is_default false a else a) <$> rows !! k.
Proof.
  unfold demote_other_defaults. rewrite map_lookup_imap.
  by destruct (rows !! k).
Qed.

Lemma unique_default_address_per_type_lookup rows :
  unique_default_address_per_type rows
  ↔ ∀ k1 k2 a1 a2,
      rows !! k1 = Some a1 → rows !! k2 = Some a2 →
      Address.user a1 = Address.user a2 →
      Address.type a1 = Address.type a2 →
      Address.is_default a1 = Address.is_default a2 →
      k1 = k2.
Proof.
  unfold unique_default_address_per_type, map_Forall. split.
  - intros H k1 k2 a1 a2 H1 H2. exact (H k1 a1 H1 k2 a2 H2).
  - intros H k1 a1 H1 k2 a2 H2. by apply (H k1 k2 a1 a2).
Qed.

(** A table that breaks the constraint has two rows to show for it. *)
Lemma not_unique_default_address_per_type rows :
  ¬ unique_default_address_per_type rows →
  ∃ k1 k2 a1 a2,
    rows !! k1 = Some a1 ∧ rows !! k2 = Some a2
    ∧ Address.user a1 = Address.user a2
    ∧ Address.type a1 = Address.type a2
    ∧ Address.is_default a1 = Address.is_default a2
    ∧ k1 ≠ k2.
Proof.
  unfold unique_default_address_per_type. intros H.
  apply map_not_Forall in H; [|apply _].
  destruct H as (k1 & a1 & H1 & H). apply map_not_Forall in H; [|apply _].
  destruct H as (k2 & a2 & H2 & H). exists k1, k2, a1, a2.
  destruct (decide (Address.user a1 = Address.user a2)); [|by destruct H].
  destruct (decide (Address.type a1 = Address.type a2)); [|by destruct H].
  destruct (decide (Address.is_default a1 = Address.is_default a2));
    [|by destruct H].
  split_and!; try done. intros ->. by apply H.
Qed.

(** The [update] of the other defaults is refused exactly when a row
    that it demotes meets a row of the same user and type that is not
    default. *)
Lemma demote_other_defaults_unique self_pk self rows :
  unique_default_address_per_type rows →
  unique_default_address_per_type (demote_other_defaults self_pk self rows)
  ↔ ¬ ∃ k a k' a',
        rows !! k = Some a
        ∧ Address.user a = Address.user self
        ∧ Address.type a = Address.type self
        ∧ Address.is_default a = false
        ∧ rows !! k' = Some a'
        ∧ Some k' ≠ self_pk
        ∧ Address.user a' = Address.user self
        ∧ Address.type a' = Address.type self
        ∧ Address.is_default a' = true.
Proof.
  intros Hu. pose proof (proj1 (unique_default_address_per_type_lookup _) Hu) as Hu'.
  split.
  - intros Hd (k & a & k' & a' & Hk & Hau & Hat & Had & Hk' & Hne & Hau' & Hat' & Had').
    pose proof (proj1 (unique_default_address_per_type_lookup _) Hd) as Hd'.
    assert (k' = k) as ->.
    { apply (Hd' k' k (Address.set_is_default false a') a).
      - rewrite demote_other_defaults_lookup, Hk'. simpl.
        by rewrite bool_decide_eq_true_2.
      - rewrite demote_other_defaults_lookup, Hk. simpl.
        rewrite bool_decide_eq_false_2; [done|]. intros (_ & _ & ? & _). congruence.
      - simpl. congruence.
      - simpl. congruence.
      - simpl. congruence. }
    congruence.
  - intros Hno. apply unique_default_address_per_type_lookup.
    intros k1 k2 b1 b2 H1 H2 Hbu Hbt Hbd.
    rewrite demote_other_defaults_lookup in H1, H2.
    destruct (rows !! k1) as [a1|] eqn:Ha1; simpl in H1; [|done].
    destruct (rows !! k2) as [a2|] eqn:Ha2; simpl in H2; [|done].
    injection H1 as <-. injection H2 as <-.
    case_bool_decide as Hc1; case_bool_decide as Hc2; simpl in Hbu, Hbt, Hbd.
    + destruct Hc1 as (? & ? & ? & _), Hc2 as (? & ? & ? & _).
      apply (Hu' k1 k2 a1 a2); congruence.
    + destruct Hc1 as (? & ? & ? & ?). destruct Hno.
      exists k2, a2, k1, a1. split_and!; congruence.
    + destruct Hc2 as (? & ? & ? & ?). destruct Hno.
      exists k1, a1, k2, a2. split_and!; congruence.
    + by apply (Hu' k1 k2 a1 a2).
Qed.

(** The write of a row is refused exactly when another row has its
    user, type and default flag. *)
Lemma insert_address_unique pk self rows :
  unique_default_address_per_type rows →
  unique_default_address_per_type (<[pk := self]> rows)
  ↔ ¬ ∃ k a,
        k ≠ pk ∧ rows !! k = Some a
        ∧ Address.user a = Address.user self
        ∧ Address.type a = Address.type self
        ∧ Address.is_default a = Address.is_default self.
Proof.
  intros Hu. pose proof (proj1 (unique_default_address_per_type_lookup _) Hu) as Hu'.
  split.
  - intros Hi (k & a & Hne & Hk & Hau & Hat & Had).
    pose proof (proj1 (unique_default_address_per_type_lookup _) Hi) as Hi'.
    apply Hne. apply (Hi' k pk a self); try done.
    + by rewrite lookup_insert_ne.
    + by rewrite lookup_insert_eq.
  - intros Hno. apply unique_default_address_per_type_lookup.
    intros k1 k2 a1 a2 H1 H2 Hbu Hbt Hbd.
    destruct (decide (k1 = pk)) as [->|Hk1];
      destruct (decide (k2 = pk)) as [->|Hk2]; [done| | |].
    + rewrite lookup_insert_eq in H1. injection H1 as <-.
      rewrite lookup_insert_ne in H2 by done. destruct Hno.
      exists k2, a2. split_and!; congruence.
    + rewrite lookup_insert_eq in H2. injection H2 as <-.
      rewrite lookup_insert_ne in H1 by done. destruct Hno.
      exists k1, a1. split_and!; congruence.
    + rewrite lookup_insert_ne in H1, H2 by done. by apply (Hu' k1 k2 a1 a2).
Qed.

(** X18. On a table that keeps the unique constraint on user, type and
    default flag, [Address.save] raises exactly when the user has, of
    the type of the address, a row that is not default beside the
    address itself, if the address is not default, or beside another
    default row, if it is: demoting that row would give two rows that
    are not default. So a user with a default and another address of a
    type can neither save a further default address of that type nor
    make the other one the default. When [save] returns, the address
    is stored under its key, the table keeps the constraint, an
    address marked default is the only default address of its user and
    type, and the addresses of other users and of other types are as
    they were. *)
Theorem address_save_single_default self_pk (self : Address.t) book :
  unique_default_address_per_type (addresses book) →
  address_keys_below_seq book →
  (Address_save self_pk self book = None ↔ address_save_clash self_pk self book)
  ∧ ∀ pk book',
      Address_save self_pk self book = Some (pk, book') →
      pk = default (address_seq book) self_pk
      ∧ addresses book' !! pk = Some self
      ∧ unique_default_address_per_type (addresses book')
      ∧ (Address.is_default self = true →
         ∀ k a, addresses book' !! k = Some a →
                Address.user a = Address.user self →
                Address.type a = Address.type self →
                Address.is_default a = true → k = pk)
      ∧ (∀ k a, k ≠ pk → addresses book !! k = Some a →
                Address.user a ≠ Address.user self
                ∨ Address.type a ≠ Address.type self →
                addresses book' !! k = Some a)
      ∧ one_default_per_type book'.
Proof.
  intros Hu Hseq.
  set (pk0 := default (address_seq book) self_pk).
  assert (Hpk : ∀ k, is_Some (addresses book !! k) → k ≠ pk0 ↔ Some k ≠ self_pk).
  { intros k [a Hk]. subst pk0. destruct self_pk as [k0|]; simpl.
    - split; congruence.
    - apply Hseq in Hk. split; [done|]. intros _. lia. }
  assert (Hres : ∀ rows,
            (∀ k a, k ≠ pk0 → addresses book !! k = Some a →
                    Address.user a ≠ Address.user self
                    ∨ Address.type a ≠ Address.type self →
                    rows !! k = Some a) →
            unique_default_address_per_type (<[pk0 := self]> rows) →
            ∀ seq,
              pk0 = default (address_seq book) self_pk
              ∧ addresses (mkAddressBook (<[pk0 := self]> rows) seq) !! pk0 = Some self
              ∧ unique_default_address_per_type
                  (addresses (mkAddressBook (<[pk0 := self]> rows) seq))
              ∧ (Address.is_default self = true →
                 ∀ k a, addresses (mkAddressBook (<[pk0 := self]> rows) seq) !! k
                        = Some a →
                        Address.user a = Address.user self →
                        Address.type a = Address.type self →
                        Address.is_default a = true → k = pk0)
              ∧ (∀ k a, k ≠ pk0 → addresses book !! k = Some a →
                        Address.user a ≠ Address.user self
                        ∨ Address.type a ≠ Address.type self →
                        addresses (mkAddressBook (<[pk0 := self]> rows) seq) !! k
                        = Some a)
              ∧ one_default_per_type (mkAddressBook (<[pk0 := self]> rows) seq)).
  { intros rows Hframe Hu2 seq.
    pose proof (proj1 (unique_default_address_per_type_lookup _) Hu2) as Hu2'.
    simpl. split_and!; [done|by rewrite lookup_insert_eq|done| | |].
    - intros Hd k a Hk Hau Hat Had.
      apply (Hu2' k pk0 a self); [done|by rewrite lookup_insert_eq|congruence..].
    - intros k a Hne Hk Hother. rewrite lookup_insert_ne by done. by apply Hframe.
    - intros k1 k2 a1 a2 H1 H2 Hau Hat Hd1 Hd2. simpl in H1, H2.
      apply (Hu2' k1 k2 a1 a2); congruence. }
  unfold Address_save, address_save_clash. fold pk0.
  destruct (Address.is_default self) eqn:Hd.
  - pose proof (demote_other_defaults_unique self_pk self (addresses book) Hu) as HA.
    case_bool_decide as Hu1; simpl.
    + assert (Hu2 : unique_default_address_per_type
                      (<[pk0 := self]>
                         (demote_other_defaults self_pk self (addresses book)))).
      { apply insert_address_unique; [done|].
        intros (k & a & Hne & Hk & Hau & Hat & Had).
        rewrite demote_other_defaults_lookup in Hk.
        destruct (addresses book !! k) as [a0|] eqn:Hk0; simpl in Hk; [|done].
        injection Hk as <-. case_bool_decide as Hc; simpl in Had; [congruence|].
        apply Hc. split_and!; try congruence. apply Hpk; [by eexists|done]. }
      rewrite bool_decide_eq_true_2 by done. split.
      * split; [done|]. intros (k & a & Hk & Hau & Hat & Had & k' & a' & ? & ? & ? & ? & ?).
        destruct (proj1 HA Hu1). exists k, a, k', a'. by split_and!.
      * intros pk book' [= <- <-]. apply Hres; [|done].
        intros k a Hne Hk Hother. rewrite demote_other_defaults_lookup, Hk. simpl.
        rewrite bool_decide_eq_false_2; [done|].
        intros (? & ? & _). by destruct Hother.
    + split; [|done]. split; [|done]. intros _.
      destruct (not_unique_default_address_per_type _ Hu1)
        as (k1 & k2 & b1 & b2 & H1 & H2 & Hbu & Hbt & Hbd & Hne).
      pose proof (proj1 (unique_default_address_per_type_lookup _) Hu) as Hu'.
      rewrite demote_other_defaults_lookup in H1, H2.
      destruct (addresses book !! k1) as [a1|] eqn:Ha1; simpl in H1; [|done].
      destruct (addresses book !! k2) as [a2|] eqn:Ha2; simpl in H2; [|done].
      injection H1 as <-. injection H2 as <-.
      case_bool_decide as Hc1; case_bool_decide as Hc2; simpl in Hbu, Hbt, Hbd.
      * destruct Hc1 as (? & ? & ? & _), Hc2 as (? & ? & ? & _).
        destruct Hne. apply (Hu' k1 k2 a1 a2); congruence.
      * destruct Hc1 as (? & ? & ? & ?).
        exists k2, a2. split_and!; try congruence.
        exists k1, a1. split_and!; congruence.
      * destruct Hc2 as (? & ? & ? & ?).
        exists k1, a1. split_and!; try congruence.
        exists k2, a2. split_and!; congruence.
      * destruct Hne. by apply (Hu' k1 k2 a1 a2).
  - simpl. pose proof (insert_address_unique pk0 self (addresses book) Hu) as HB.
    case_bool_decide as Hu2.
    + split.
      * split; [done|]. intros (k & a & Hk & Hau & Hat & Had & Hne).
        destruct (proj1 HB Hu2). exists k, a.
        split_and!; try congruence. apply Hpk; [by eexists|done].
      * intros pk book' [= <- <-]. by apply Hres.
    + split; [|done]. split; [|done]. intros _.
      assert (Hu3 : ¬ unique_default_address_per_type (<[pk0 := self]> (addresses book)))
        by done.
      destruct (not_unique_default_address_per_type _ Hu3)
        as (k1 & k2 & b1 & b2 & H1 & H2 & Hbu & Hbt & Hbd & Hne).
      pose proof (proj1 (unique_default_address_per_type_lookup _) Hu) as Hu'.
      destruct (decide (k1 = pk0)) as [->|Hk1];
        destruct (decide (k2 = pk0)) as [->|Hk2]; [done| | |].
      * rewrite lookup_insert_eq in H1. injection H1 as <-.
        rewrite lookup_insert_ne in H2 by done.
        exists k2, b2. split_and!; try congruence. apply Hpk; [by eexists|done].
      * rewrite lookup_insert_eq in H2. injection H2 as <-.
        rewrite lookup_insert_ne in H1 by done.
        exists k1, b1. split_and!; try congruence. apply Hpk; [by eexists|done].
      * rewrite lookup_insert_ne in H1, H2 by done.
        destruct Hne. by apply (Hu' k1 k2 b1 b2).
Qed.

Lemma address_save_single_default_witness :
  unique_default_address_per_type (addresses book_of_7)
  ∧ address_keys_below_seq book_of_7
  ∧ ∃ pk book',
      Address_save None (Address.mk 7 "shipping" true) book_of_7 = Some (pk, book')
      ∧ pk = 3%nat
      ∧ addresses book' !! pk = Some (Address.mk 7 "shipping" true)
      ∧ unique_default_address_per_type (addresses book')
      ∧ ∀ k a, addresses book' !! k = Some a →
               Address.user a = 7%nat → Address.type a = "shipping" →
               Address.is_default a = true → k = pk.
Proof.
  assert (Hu : unique_default_address_per_type (addresses book_of_7)).
  { unfold unique_default_address_per_type.
    apply (bool_decide_eq_true_1 (map_Forall _ _)). by vm_compute. }
  assert (Hseq : address_keys_below_seq book_of_7).
  { unfold address_keys_below_seq.
    apply (bool_decide_eq_true_1 (map_Forall _ _)). by vm_compute. }
  split; [exact Hu|]. split; [exact Hseq|].
  destruct (Address_save None (Address.mk 7 "shipping" true) book_of_7)
    as [[pk book']|] eqn:Hs; [|by vm_compute in Hs].
  destruct (proj2 (address_save_single_default None (Address.mk 7 "shipping" true)
                     book_of_7 Hu Hseq) pk book' Hs)
    as (Hpk & Hst & Hu' & Hsole & _).
  exists pk, book'. split_and!; [done|done|done|done|]. exact (Hsole eq_refl).
Defined.

(** The new default shipping address takes the place of the old one;
    the billing address stays default. With a default and another
    shipping address in the table, a third one that is default is
    refused, and so is making the other one the default. *)
Example address_save_run :
  (λ r : nat * AddressBook,
     (r.1, Address.is_default <$> addresses r.2 !! 1%nat,
      Address.is_default <$> addresses r.2 !! 2%nat,
      Address.is_default <$> addresses r.2 !! 3%nat))
    <$> Address_save None (Address.mk 7 "shipping" true) book_of_7
  = Some (3%nat, Some false, Some true, Some true)
  ∧ Address_save None (Address.mk 7 "shipping" true) book_of_two = None
  ∧ Address_save (Some 1%nat) (Address.mk 7 "shipping" true) book_of_two = None.
Proof. by vm_compute. Qed.

(** ** The summary of a product's reviews *)

Lemma rating_counts_le (reviews : list (nat * Review.t)) :
  (distribution_total (rating_counts reviews) ≤ length reviews)%nat
  ∧ (Forall (λ kr, 1 ≤ Review.rating kr.2 ≤ 5) reviews →
     distribution_total (rating_counts reviews) = length reviews).
Proof.
  unfold distribution_total, rating_counts. simpl.
  induction reviews as [|kr rest [IHle IHeq]]; [done|].
  assert (Hcases : Review.rating kr.2 = 1 ∨ Review.rating kr.2 = 2
                   ∨ Review.rating kr.2 = 3 ∨ Review.rating kr.2 = 4
                   ∨ Review.rating kr.2 = 5
                   ∨ ¬ (1 ≤ Review.rating kr.2 ≤ 5)) by lia.
  rewrite !filter_cons. split.
  - repeat case_decide; simpl; lia.
  - intros Hall. apply Forall_cons in Hall as [Hkr Hall]. specialize (IHeq Hall).
    repeat case_decide; simpl; lia.
Qed.

(** X19. The [reviews] action gives a summary only for a product with
    a visible review (without one it raises). In the summary, the
    number of reviews shown is the number of visible reviews of the
    product, at least 1, whatever the page holds; the number of
    verified reviews is at most the number of reviews shown and so is
    the sum of the rating distribution; when every visible review of
    the product has a rating from 1 to 5, the distribution sums to the
    number of reviews shown exactly. A rating outside 1 to 5 is shown
    but counted under no star. *)
Theorem reviews_summary_counts db product_pk summary :
  ProductViewSet_reviews_summary db product_pk = Some summary →
  visible_reviews db product_pk ≠ []
  ∧ (1 ≤ total_reviews_shown summary)%nat
  ∧ total_reviews_shown summary = length (visible_reviews db product_pk)
  ∧ (verified_reviews summary ≤ total_reviews_shown summary)%nat
  ∧ (distribution_total (rating_distribution summary)
     ≤ total_reviews_shown summary)%nat
  ∧ (Forall (λ kr, 1 ≤ Review.rating kr.2 ≤ 5) (visible_reviews db product_pk) →
     distribution_total (rating_distribution summary)
     = total_reviews_shown summary).
Proof.
  unfold ProductViewSet_reviews_summary. intros H.
  destruct (products db !! product_pk) as [p|]; simpl in H; [|done].
  case_bool_decide as Hpage; [done|].
  injection H as <-. simpl.
  destruct (rating_counts_le (visible_reviews db product_pk)) as [Hle Heq].
  assert (Hne : visible_reviews db product_pk ≠ []).
  { intros He. apply Hpage. by rewrite He. }
  split_and!; [exact Hne| |done|apply length_filter|exact Hle|exact Heq].
  destruct (visible_reviews db product_pk); [done|simpl; lia].
Qed.

(** A product without visible review: the action raises. *)
Lemma reviews_summary_without_reviews db product_pk :
  visible_reviews db product_pk = [] →
  ProductViewSet_reviews_summary db product_pk = None.
Proof.
  intros He. unfold ProductViewSet_reviews_summary. rewrite He.
  by destruct (products db !! product_pk).
Qed.

Lemma reviews_summary_counts_witness :
  ∃ summary,
    ProductViewSet_reviews_summary db_reviewed 1 = Some summary
    ∧ visible_reviews db_reviewed 1 ≠ []
    ∧ (1 ≤ total_reviews_shown summary)%nat
    ∧ total_reviews_shown summary = length (visible_reviews db_reviewed 1)
    ∧ (verified_reviews summary ≤ total_reviews_shown summary)%nat
    ∧ (distribution_total (rating_distribution summary)
       ≤ total_reviews_shown summary)%nat
    ∧ (Forall (λ kr, 1 ≤ Review.rating kr.2 ≤ 5) (visible_reviews db_reviewed 1) →
       distribution_total (rating_distribution summary)
       = total_reviews_shown summary).
Proof.
  eexists. split; [vm_compute; reflexivity|].
  apply (reviews_summary_counts db_reviewed 1). vm_compute. reflexivity.
Defined.

(** ** Password complexity *)

Lemma password_accepted_iff min_length password :
  PasswordComplexityValidator_validate min_length password = None
  ↔ min_length ≤ Z.of_nat (length password)
    ∧ existsb is_upper password = true
    ∧ existsb is_lower password = true
    ∧ existsb is_digit password = true
    ∧ existsb is_special password = true.
Proof.
  unfold PasswordComplexityValidator_validate.
  destruct (Z.of_nat (length password) <? min_length) eqn:E.
  - apply Z.ltb_lt in E. split; [done|]. intros [? _]. lia.
  - apply Z.ltb_ge in E.
    destruct (existsb is_upper password), (existsb is_lower password),
      (existsb is_digit password), (existsb is_special password);
      simpl; split; try done; intros (_ & ? & ? & ? & ?); done.
Qed.

Lemma character_classes_disjoint c :
  (if is_upper c then 1 else 0) + (if is_lower c then 1 else 0)
  + (if is_digit c then 1 else 0) + (if is_special c then 1 else 0) ≤ 1.
Proof.
  unfold is_upper, is_lower, is_digit, is_special.
  destruct (65 <=? c)%N eqn:E1, (c <=? 90)%N eqn:E2, (97 <=? c)%N eqn:E3,
    (c <=? 122)%N eqn:E4, (48 <=? c)%N eqn:E5, (c <=? 57)%N eqn:E6; simpl;
    case_bool_decide as Hs; try lia;
    try (apply N.leb_le in E1); try (apply N.leb_le in E2);
    try (apply N.leb_le in E3); try (apply N.leb_le in E4);
    try (apply N.leb_le in E5); try (apply N.leb_le in E6);
    try (apply N.leb_gt in E1); try (apply N.leb_gt in E2);
    try (apply N.leb_gt in E3); try (apply N.leb_gt in E4);
    try (apply N.leb_gt in E5); try (apply N.leb_gt in E6);
    try lia;
    unfold special_characters in Hs;
    repeat (apply elem_of_cons in Hs as [->|Hs]; [lia|]);
    by apply elem_of_nil in Hs.
Qed.

Lemma existsb_count (f : N → bool) (l : list N) :
  existsb f l = true → 1 ≤ foldr (λ c acc, (if f c then 1 else 0) + acc) 0 l.
Proof.
  induction l as [|c l IH]; simpl; [done|].
  assert (0 ≤ foldr (λ c acc, (if f c then 1 else 0) + acc) 0 l).
  { clear. induction l as [|c l IH]; simpl; [done|]. destruct (f c); lia. }
  destruct (f c); simpl; [lia|]. intros H'. specialize (IH H'). lia.
Qed.

Lemma class_counts_le_length (l : list N) :
  foldr (λ c acc, (if is_upper c then 1 else 0) + acc) 0 l
  + foldr (λ c acc, (if is_lower c then 1 else 0) + acc) 0 l
  + foldr (λ c acc, (if is_digit c then 1 else 0) + acc) 0 l
  + foldr (λ c acc, (if is_special c then 1 else 0) + acc) 0 l
  ≤ Z.of_nat (length l).
Proof.
  induction l as [|c l IH]; simpl; [done|].
  pose proof (character_classes_disjoint c). lia.
Qed.

(** X20. A password that [validate] accepts has at least four
    characters and at least [min_length]: the four searches are for
    classes of characters without a common member, so four different
    characters are needed even when [min_length] asks for fewer. *)
Theorem password_accepted_length min_length password :
  PasswordComplexityValidator_validate min_length password = None →
  4 ≤ Z.of_nat (length password) ∧ min_length ≤ Z.of_nat (length password).
Proof.
  intros H. apply password_accepted_iff in H as (Hlen & Hu & Hl & Hd & Hs).
  split; [|done].
  apply existsb_count in Hu, Hl, Hd, Hs.
  pose proof (class_counts_le_length password). lia.
Qed.

Lemma password_accepted_length_witness :
  4 ≤ Z.of_nat (length password_ok) ∧ 8 ≤ Z.of_nat (length password_ok).
Proof.
  apply (password_accepted_length 8 password_ok). vm_compute. reflexivity.
Defined.

Lemma existsb_sublist (f : N → bool) (l k : list N) :
  l `sublist_of` k → existsb f l = true → existsb f k = true.
Proof.
  induction 1 as [|c l k _ IH|c l k _ IH]; simpl; [done| |].
  - destruct (f c); simpl; [done|]. exact IH.
  - intros H. rewrite (IH H). apply orb_true_r.
Qed.

(** X21. Adding characters never makes [validate] refuse: if it
    accepts a password, it accepts every string from which the password
    can be had by deleting characters. *)
Theorem password_accepted_longer min_length (password longer : str) :
  password `sublist_of` longer →
  PasswordComplexityValidator_validate min_length password = None →
  PasswordComplexityValidator_validate min_length longer = None.
Proof.
  intros Hsub H. apply password_accepted_iff in H as (Hlen & Hu & Hl & Hd & Hs).
  apply password_accepted_iff. pose proof (sublist_length _ _ Hsub).
  split_and!; [lia|by eapply existsb_sublist..].
Qed.

Lemma password_accepted_longer_witness :
  PasswordComplexityValidator_validate 8 (32%N :: password_ok ++ [126%N]) = None.
Proof.
  apply (password_accepted_longer 8 password_ok (32%N :: password_ok ++ [126%N])).
  - apply sublist_cons. apply sublist_inserts_r. done.
  - vm_compute. reflexivity.
Defined.

(** ** Products that are not in stock *)

(** X22. A product whose [in_stock] is false cannot be bought: for a
    line of positive quantity of it, [CartItem.clean] raises its error,
    and [Cart.checkout] of any cart holding such a line (the lines
    pointing to product rows) returns failure and writes nothing. *)
Theorem not_in_stock_cannot_be_bought now db (item : CartItem.t) p :
  products db !! CartItem.product item = Some p →
  Product_in_stock p = false →
  0 < CartItem.quantity item →
  (∃ m, CartItem_clean db item = Some (Some m))
  ∧ ∀ pk (self : Cart.t),
      item ∈ Cart_items db pk →
      lines_have_product db (Cart_items db pk) →
      ∃ m, Cart_checkout now pk self db = Some (false, Message m, self, db).
Proof.
  intros Hp Hin Hq.
  assert (Hnot : ¬ line_ok db item).
  { intros (p' & Hp' & Ha & Hle). rewrite Hp in Hp'. injection Hp' as <-.
    unfold Product_in_stock in Hin. rewrite Ha, andb_true_r in Hin.
    rewrite Z.gtb_ltb in Hin. apply Z.ltb_ge in Hin. lia. }
  split.
  - destruct (CartItem_clean db item) as [[m|]|] eqn:Hc.
    + by exists m.
    + apply CartItem_clean_ok in Hc. destruct (Hnot Hc).
    + unfold CartItem_clean in Hc. rewrite Hp in Hc. simpl in Hc.
      destruct (CartItem.quantity item >? Product.stock p); [done|].
      by destruct (negb (Product.available p)).
  - intros pk self Hitem Hfk. unfold Cart_checkout.
    pose proof (checkout_validate_spec db (Cart_items db pk)) as Hv.
    destruct (checkout_validate db (Cart_items db pk)) as [[m|]|]; simpl.
    + by exists m.
    + rewrite Forall_forall in Hv. destruct (Hnot (Hv item Hitem)).
    + destruct (Hv Hfk).
Qed.

Lemma not_in_stock_cannot_be_bought_witness :
  CartItem.mk 1 1 1 ∈ Cart_items db_sold_out_cart 1
  ∧ (∃ m, CartItem_clean db_sold_out_cart (CartItem.mk 1 1 1) = Some (Some m))
  ∧ ∃ m, Cart_checkout 5 1 (Cart.mk 7 "active" 0) db_sold_out_cart
         = Some (false, Message m, Cart.mk 7 "active" 0, db_sold_out_cart).
Proof.
  assert (Hitems : Cart_items db_sold_out_cart 1 = [CartItem.mk 1 1 1])
    by reflexivity.
  assert (Hin : CartItem.mk 1 1 1 ∈ Cart_items db_sold_out_cart 1).
  { rewrite Hitems. apply elem_of_cons. by left. }
  destruct (not_in_stock_cannot_be_bought 5 db_sold_out_cart (CartItem.mk 1 1 1)
              sold_out) as [Hclean Hcheckout].
  - reflexivity.
  - reflexivity.
  - simpl. lia.
  - split; [exact Hin|]. split; [exact Hclean|].
    apply (Hcheckout 1%nat (Cart.mk 7 "active" 0) Hin).
    rewrite Hitems. constructor; [by exists sold_out|constructor].
Defined.

(** The cart with the line on the product without stock: [clean]
    reports the stock, [checkout] fails on it. *)
Example not_in_stock_run :
  CartItem_clean db_sold_out_cart (CartItem.mk 1 1 1)
  = Some (Some "Only 0 items available in stock")
  ∧ Cart_checkout 5 1 (Cart.mk 7 "active" 0) db_sold_out_cart
    = Some (false, Message "Insufficient stock for Gadget", Cart.mk 7 "active" 0,
            db_sold_out_cart).
Proof. by vm_compute. Qed.

(** ** The checkout action of the view, twice *)

Lemma pending_order_exists_true db user k order :
  orders db !! k = Some order →
  Order.user order = user → Order.status order = "pending" →
  pending_order_exists db user = true.
Proof.
  intros Hk Hu Hs. unfold pending_order_exists. apply bool_decide_eq_true.
  intros Hnil.
  assert (Hin : (k, order) ∈ filter
                  (λ ko : nat * Order.t,
                     Order.user ko.2 = user ∧ Order.status ko.2 = "pending")
                  (map_to_list (orders db))).
  { apply list_elem_of_filter. split; [done|]. by apply elem_of_map_to_list. }
  rewrite Hnil in Hin. by apply elem_of_nil in Hin.
Qed.

(** X23. When the [checkout] action of the view answers 200, it has
    stored a pending order of amount 0 for the user, without order
    line, and deleted every line of the user's cart; no product row
    and no cart row has changed, so no stock is debited and the cart
    is not marked [checked_out]; the lines of the other carts are as
    before. After that the action never answers 200 for this user as
    long as the orders are the same: the cart is empty, and if it is
    filled again the pending order stands in the way. *)
Theorem view_checkout_once now user request_status db order_pk order db' :
  CartViewSet_checkout now user request_status db = (HTTP_200_OK order_pk order, db') →
  Order.total_amount order = 0
  ∧ Order.status order = "pending"
  ∧ Order.user order = user
  ∧ orders db' !! order_pk = Some order
  ∧ order_items db' = order_items db
  ∧ products db' = products db
  ∧ carts db' = carts db
  ∧ (∃ cart_pk cart,
       Cart_get_by_user db user = Some (cart_pk, cart)
       ∧ Cart_items db' cart_pk = []
       ∧ ∀ other, other ≠ cart_pk → Cart_items db' other = Cart_items db other)
  ∧ ∀ db'' now' request_status' order_pk' order' db''',
      orders db'' = orders db' →
      CartViewSet_checkout now' user request_status' db''
      ≠ (HTTP_200_OK order_pk' order', db''').
Proof.
  unfold CartViewSet_checkout. intros H.
  destruct (Cart_get_by_user db user) as [[cart_pk cart]|] eqn:Hcart; [|done].
  case_bool_decide as Hitems; [done|].
  destruct (match request_status with
            | Some s => negb (bool_decide (s ∈ Order_STATUS_CHOICES))
            | None => false
            end); [done|].
  destruct (pending_order_exists db user) eqn:Hpend; [done|].
  simpl in H. injection H as <- <- <-. simpl.
  split_and!; try done.
  - by rewrite lookup_insert_eq.
  - exists cart_pk, cart. split; [done|]. unfold Cart_items. simpl. split.
    + induction (cart_items db) as [|x l IH]; [done|].
      destruct (decide (CartItem.cart x = cart_pk)) as [Heq|Hne].
      * rewrite (filter_cons_False (λ i, CartItem.cart i ≠ cart_pk)) by tauto.
        exact IH.
      * rewrite (filter_cons_True (λ i, CartItem.cart i ≠ cart_pk)) by done.
        rewrite filter_cons_False by done. exact IH.
    + intros other Hother. induction (cart_items db) as [|x l IH]; [done|].
      destruct (decide (CartItem.cart x = cart_pk)) as [Heq|Hne].
      * rewrite (filter_cons_False (λ i, CartItem.cart i ≠ cart_pk)) by tauto.
        rewrite (filter_cons_False (λ i, CartItem.cart i = other)) by congruence.
        exact IH.
      * rewrite (filter_cons_True (λ i, CartItem.cart i ≠ cart_pk)) by done.
        destruct (decide (CartItem.cart x = other)) as [Ho|Hno].
        -- rewrite !(filter_cons_True (λ i, CartItem.cart i = other)) by done.
           by rewrite IH.
        -- rewrite !(filter_cons_False (λ i, CartItem.cart i = other)) by done.
           exact IH.
  - intros db'' now' request_status' order_pk' order' db''' Horders.
    assert (Hp : pending_order_exists db'' user = true).
    { eapply (pending_order_exists_true db'' user (order_seq db)).
      - rewrite Horders. by rewrite lookup_insert_eq.
      - done.
      - done. }
    destruct (Cart_get_by_user db'' user) as [[c1 c2]|]; [|done].
    case_bool_decide; [done|].
    destruct (match request_status' with
              | Some s => negb (bool_decide (s ∈ Order_STATUS_CHOICES))
              | None => false
              end); [done|].
    by rewrite Hp.
Qed.

Lemma view_checkout_once_witness :
  ∃ order db',
    CartViewSet_checkout 100 7 None db_scenario = (HTTP_200_OK 1 order, db')
    ∧ Order.total_amount order = 0
    ∧ products db' = products db_scenario
    ∧ carts db' = carts db_scenario
    ∧ ∀ db'' now' request_status' order_pk' order' db''',
        orders db'' = orders db' →
        CartViewSet_checkout now' 7 request_status' db''
        ≠ (HTTP_200_OK order_pk' order', db''').
Proof.
  assert (H : ∃ order db',
            CartViewSet_checkout 100 7 None db_scenario = (HTTP_200_OK 1 order, db')).
  { do 2 eexists. vm_compute. reflexivity. }
  destruct H as (order & db' & H). exists order, db'. split; [exact H|].
  destruct (view_checkout_once 100 7 None db_scenario 1 order db' H)
    as (H1 & _ & _ & _ & _ & H2 & H3 & _ & H4).
  by split_and!.
Defined.

(** ** The profile and the cart of a saved user *)

Lemma NoDup_all_equal {A} (l : list A) :
  NoDup l → (∀ x y, x ∈ l → y ∈ l → x = y) → l = [] ∨ ∃ x, l = [x].
Proof.
  intros Hnd Heq. destruct l as [|x [|y l]]; [by left|right; by exists x|].
  apply NoDup_cons in Hnd as [Hx _]. destruct Hx.
  rewrite (Heq x y); [left|left|right; left].
Qed.

Lemma rows_of_elem {A} (owner : A → nat) (rows : gmap nat A) user k r :
  (k, r) ∈ rows_of owner rows user ↔ rows !! k = Some r ∧ owner r = user.
Proof.
  unfold rows_of. rewrite list_elem_of_filter, elem_of_map_to_list. simpl. tauto.
Qed.

Lemma rows_of_unique {A} (owner : A → nat) seq (rows : gmap nat A) user :
  one_row_per_user owner seq rows →
  rows_of owner rows user = [] ∨ ∃ k r, rows_of owner rows user = [(k, r)].
Proof.
  intros [Huniq _].
  destruct (NoDup_all_equal (rows_of owner rows user)) as [->|[[k r] ->]].
  - apply NoDup_filter, NoDup_map_to_list.
  - intros [k1 r1] [k2 r2] H1 H2.
    apply rows_of_elem in H1 as [H1 Ho1]. apply rows_of_elem in H2 as [H2 Ho2].
    assert (k1 = k2) as -> by (eapply Huniq; [done|done|congruence]).
    congruence.
  - by left.
  - right. by exists k, r.
Qed.

(** [get_or_create] on a table with one row per user at most. *)
Lemma get_or_create_spec {A} (owner : A → nat) (fresh : A) seq (rows : gmap nat A) :
  one_row_per_user owner seq rows →
  ∃ rows' seq',
    get_or_create owner fresh seq rows = Some (rows', seq')
    ∧ one_row_per_user owner seq' rows'
    ∧ (∃ k r, rows_of owner rows' (owner fresh) = [(k, r)])
    ∧ (∀ k r, owner r ≠ owner fresh → rows' !! k = Some r ↔ rows !! k = Some r)
    ∧ (rows_of owner rows (owner fresh) ≠ [] → rows' = rows ∧ seq' = seq)
    ∧ (∀ k r, rows !! k = Some r → rows' !! k = Some r)
    ∧ (rows_of owner rows (owner fresh) = [] → rows' !! seq = Some fresh).
Proof.
  intros Hone. pose proof Hone as [Huniq Hbelow]. unfold get_or_create.
  destruct (rows_of_unique owner seq rows (owner fresh) Hone)
    as [Hnil|(k & r & Hrow)].
  - rewrite Hnil.
    assert (Hnone : ∀ k r, rows !! k = Some r → owner r ≠ owner fresh).
    { intros k r Hk Ho.
      assert (Hin : (k, r) ∈ rows_of owner rows (owner fresh))
        by (by apply rows_of_elem).
      rewrite Hnil in Hin. by apply elem_of_nil in Hin. }
    assert (Hfresh : rows !! seq = None).
    { destruct (rows !! seq) as [r|] eqn:Hs; [|done].
      specialize (Hbelow _ _ Hs). lia. }
    assert (Hone' : one_row_per_user owner (S seq) (<[seq := fresh]> rows)).
    { split.
      - intros k1 k2 r1 r2 H1 H2 Ho.
        destruct (decide (k1 = seq)) as [->|Hk1];
          destruct (decide (k2 = seq)) as [->|Hk2]; [done| | |].
        + rewrite lookup_insert_eq in H1. rewrite lookup_insert_ne in H2 by done.
          injection H1 as <-. by destruct (Hnone k2 r2 H2).
        + rewrite lookup_insert_eq in H2. rewrite lookup_insert_ne in H1 by done.
          injection H2 as <-. by destruct (Hnone k1 r1 H1).
        + rewrite lookup_insert_ne in H1, H2 by done. by eapply Huniq.
      - intros k r Hk. destruct (decide (k = seq)) as [->|Hne]; [lia|].
        rewrite lookup_insert_ne in Hk by done. specialize (Hbelow _ _ Hk). lia. }
    do 2 eexists. split; [reflexivity|]. split; [exact Hone'|]. split_and!.
    + destruct (rows_of_unique owner _ _ (owner fresh) Hone')
        as [Hnil'|(k & r & Hrow)]; [|by exists k, r].
      assert (Hin : (seq, fresh) ∈ rows_of owner (<[seq := fresh]> rows) (owner fresh)).
      { apply rows_of_elem. by rewrite lookup_insert_eq. }
      rewrite Hnil' in Hin. by apply elem_of_nil in Hin.
    + intros k r Ho. destruct (decide (k = seq)) as [->|Hne].
      * rewrite lookup_insert_eq, Hfresh. split; [|done]. intros [= <-]. done.
      * by rewrite lookup_insert_ne.
    + done.
    + intros k r Hk. destruct (decide (k = seq)) as [->|Hne]; [congruence|].
      by rewrite lookup_insert_ne.
    + intros _. by rewrite lookup_insert_eq.
  - rewrite Hrow. do 2 eexists. split; [reflexivity|]. split; [exact Hone|].
    split_and!; [by exists k, r|done|done|done|done].
Qed.

(** X24. On tables in which no user has two profiles or two carts (and
    the keys are below the sequences), the receiver returns; afterwards
    the saved user has exactly one profile and exactly one cart, which
    the lookup of the checkout action finds. A user who had no cart
    gets an active one; a user who had one keeps it as it is, whatever
    its status. No profile and no cart that was there is changed or
    deleted, so those of the other users are untouched; no user has
    two profiles or two carts; and the receiver run again for the same
    user, as at every later save of the user, changes nothing. *)
Theorem user_saved_has_one_cart now instance created acc db :
  one_row_per_user Profile.user (profile_seq acc) (profiles acc) →
  one_row_per_user Cart.user (cart_seq acc) (carts db) →
  ∃ acc' db',
    create_or_update_user_related_models now instance created acc db
      = Some (acc', db')
    ∧ one_row_per_user Profile.user (profile_seq acc') (profiles acc')
    ∧ one_row_per_user Cart.user (cart_seq acc') (carts db')
    ∧ (∃ k p, rows_of Profile.user (profiles acc') instance = [(k, p)])
    ∧ (∃ k c, rows_of Cart.user (carts db') instance = [(k, c)]
              ∧ Cart_get_by_user db' instance = Some (k, c)
              ∧ (rows_of Cart.user (carts db) instance = [] →
                 c = Cart.mk instance "active" now)
              ∧ (∀ k0 c0, carts db !! k0 = Some c0 → Cart.user c0 = instance →
                          k = k0 ∧ c = c0))
    ∧ (∀ k p, profiles acc !! k = Some p → profiles acc' !! k = Some p)
    ∧ (∀ k c, carts db !! k = Some c → carts db' !! k = Some c)
    ∧ (∀ k p, Profile.user p ≠ instance →
              profiles acc' !! k = Some p ↔ profiles acc !! k = Some p)
    ∧ (∀ k c, Cart.user c ≠ instance →
              carts db' !! k = Some c ↔ carts db !! k = Some c)
    ∧ (∀ now' created',
         create_or_update_user_related_models now' instance created' acc' db'
         = Some (acc', db')).
Proof.
  intros Hp Hc. unfold create_or_update_user_related_models.
  destruct (get_or_create_spec Profile.user (Profile.mk instance) _ _ Hp)
    as (ps & pseq & Hgp & Hp' & Hprow & Hpother & _ & Hpkept & _).
  destruct (get_or_create_spec Cart.user (Cart.mk instance "active" now) _ _ Hc)
    as (cs & cseq & Hgc & Hc' & (k & c & Hcrow) & Hcother & _ & Hckept & Hcnew).
  simpl in Hprow, Hcrow, Hcother, Hpother, Hcnew.
  rewrite Hgp, Hgc. simpl. do 2 eexists. split; [reflexivity|]. simpl.
  assert (Hmine : ∀ k0 c0, cs !! k0 = Some c0 → Cart.user c0 = instance →
                           k = k0 ∧ c = c0).
  { intros k0 c0 Hk0 Hu0.
    assert (Hin : (k0, c0) ∈ rows_of Cart.user cs instance)
      by (by apply rows_of_elem).
    rewrite Hcrow in Hin. apply list_elem_of_singleton in Hin.
    by injection Hin as -> ->. }
  split_and!; try done.
  - exists k, c. split_and!; [done| | |].
    + unfold Cart_get_by_user. simpl. unfold rows_of in Hcrow.
      destruct (list_find (λ kc : nat * Cart.t, Cart.user kc.2 = instance)
                  (map_to_list cs)) as [[i y]|] eqn:Hf.
      * apply list_find_Some in Hf as (Hi & Hy & _).
        assert (Hin : y ∈ filter (λ kr : nat * Cart.t, Cart.user kr.2 = instance)
                        (map_to_list cs)).
        { apply list_elem_of_filter. split; [done|].
          by eapply list_elem_of_lookup_2. }
        rewrite Hcrow in Hin. apply list_elem_of_singleton in Hin as ->. done.
      * apply list_find_None in Hf.
        assert (Hin : (k, c) ∈ filter (λ kr : nat * Cart.t, Cart.user kr.2 = instance)
                        (map_to_list cs))
          by (rewrite Hcrow; apply list_elem_of_singleton; done).
        apply list_elem_of_filter in Hin as [Hu Hin].
        rewrite Forall_forall in Hf. by destruct (Hf _ Hin).
    + intros Hnil. by destruct (Hmine _ _ (Hcnew Hnil) eq_refl) as [_ ->].
    + intros k0 c0 Hk0 Hu0. apply Hmine; [|done]. by apply Hckept.
  - intros now' created'.
    destruct (get_or_create_spec Profile.user (Profile.mk instance) _ _ Hp')
      as (ps2 & pseq2 & Hgp2 & _ & _ & _ & Hsame_p & _).
    destruct (get_or_create_spec Cart.user (Cart.mk instance "active" now') _ _ Hc')
      as (cs2 & cseq2 & Hgc2 & _ & _ & _ & Hsame_c & _).
    rewrite Hgp2, Hgc2. simpl.
    destruct Hprow as (kp & p & Hprow).
    destruct Hsame_p as [-> ->]; [simpl; by rewrite Hprow|].
    destruct Hsame_c as [-> ->]; [simpl; by rewrite Hcrow|].
    by destruct db.
Qed.

(** User 8 is saved for the first time, beside user 7, who has a cart. *)
Lemma user_saved_has_one_cart_witness :
  ∃ acc' db',
    create_or_update_user_related_models 5 8 true no_accounts db_scenario
      = Some (acc', db')
    ∧ (∃ k c, rows_of Cart.user (carts db') 8 = [(k, c)]
              ∧ Cart_get_by_user db' 8 = Some (k, c)
              ∧ (rows_of Cart.user (carts db_scenario) 8 = [] →
                 c = Cart.mk 8 "active" 5))
    ∧ (∀ k c, carts db_scenario !! k = Some c → carts db' !! k = Some c)
    ∧ (∀ now' created',
         create_or_update_user_related_models now' 8 created' acc' db'
         = Some (acc', db')).
Proof.
  destruct (user_saved_has_one_cart 5 8 true no_accounts db_scenario)
    as (acc' & db' & H1 & _ & _ & _ & (k & c & H2 & H3 & H4 & _) & _ & H5 & _ & _ & H6).
  - split; [|intros k r Hk; simpl in Hk; by rewrite lookup_empty in Hk].
    intros k1 k2 r1 r2 Hk. simpl in Hk. by rewrite lookup_empty in Hk.
  - unfold db_scenario. simpl. split.
    + intros k1 k2 r1 r2 H1 H2 _.
      apply lookup_singleton_Some in H1 as [<- _].
      by apply lookup_singleton_Some in H2 as [<- _].
    + intros k r Hk. apply lookup_singleton_Some in Hk as [<- _]. lia.
  - exists acc', db'. split_and!; [done| |done|done]. by exists k, c.
Defined.

(** A user whose cart is checked out keeps that cart at the next save:
    the receiver creates no active one. *)
Example user_saved_keeps_cart :
  (λ r : Accounts * DB, carts r.2)
    <$> create_or_update_user_related_models 5 7 false (mkAccounts ∅ 1 2) db_ordered
  = Some {[ 1%nat := Cart.mk 7 "checked_out" 0 ]}.
Proof. by vm_compute. Qed.

(** ** Lists read from the environment *)

Lemma str_lstrip_head s c : head (str_lstrip s) = Some c → is_space c = false.
Proof.
  induction s as [|a s IH]; simpl; [done|].
  destruct (is_space a) eqn:E; [exact IH|]. simpl. by intros [= <-].
Qed.

Lemma str_lstrip_suffix s : ∃ p, s = (p ++ str_lstrip s)%list.
Proof.
  induction s as [|a s [p IH]]; simpl; [by exists []|].
  destruct (is_space a).
  - exists (a :: p). simpl. by f_equal.
  - by exists [].
Qed.

Lemma str_strip_trimmed s : str_strip s ≠ [] → trimmed (str_strip s).
Proof.
  intros Hne. split; [done|]. unfold str_strip, str_rstrip in *.
  set (t := str_lstrip s) in *.
  destruct (str_lstrip_suffix (reverse t)) as [p Hp].
  assert (Ht : t = (reverse (str_lstrip (reverse t)) ++ reverse p)%list).
  { rewrite <- reverse_app, <- Hp. by rewrite reverse_involutive. }
  split.
  - intros c Hc.
    assert (Hhead : head t = Some c).
    { rewrite Ht, head_app. by rewrite Hc. }
    subst t. by eapply str_lstrip_head.
  - intros c Hc. rewrite last_reverse in Hc. by eapply str_lstrip_head.
Qed.

Lemma trimmed_str_strip s : trimmed s → str_strip s = s.
Proof.
  intros (Hne & Hhead & Hlast). unfold str_strip, str_rstrip.
  assert (Hl : str_lstrip s = s).
  { destruct s as [|a s]; [done|]. simpl. by rewrite (Hhead a eq_refl). }
  rewrite Hl.
  assert (Hr : str_lstrip (reverse s) = reverse s).
  { destruct (reverse s) as [|a r] eqn:Hrev; [done|]. simpl.
    rewrite (Hlast a); [done|]. rewrite <- head_reverse, Hrev. done. }
  by rewrite Hr, reverse_involutive.
Qed.

(** X25. [get_list_secret] gives the default list, or the empty list
    when there is none, for a variable that is not set. For a variable
    that is set, an empty separator raises, and otherwise every item of
    the result is non-empty and neither starts nor ends with white
    space: empty and blank pieces are dropped. *)
Theorem list_secret_items_trimmed env key (fallback : option (list str)) separator :
  (env !! key = None →
   get_list_secret env key fallback separator = Some (default [] fallback))
  ∧ (is_Some (env !! key) → separator = [] →
     get_list_secret env key fallback separator = None)
  ∧ (∀ items, is_Some (env !! key) →
              get_list_secret env key fallback separator = Some items →
              Forall trimmed items).
Proof.
  unfold get_list_secret. split_and!.
  - intros ->. by destruct fallback.
  - intros [v ->] ->. done.
  - intros items [v ->] H.
    destruct (str_split v separator) as [pieces|]; [|done].
    injection H as <-. apply Forall_forall. intros item Hin.
    apply list_elem_of_filter in Hin as [Hne Hin].
    apply list_elem_of_fmap in Hin as (piece & -> & _).
    by apply str_strip_trimmed.
Qed.

Lemma list_secret_items_trimmed_witness :
  Forall trimmed hosts.
Proof.
  apply (proj2 (proj2 (list_secret_items_trimmed {[ [1%N] := hosts_value ]}
                         [1%N] None [44%N])) hosts).
  - by eexists.
  - vm_compute. reflexivity.
Defined.

Lemma split_scan_piece (c : N) (item : str) :
  ∀ current rest,
    c ∉ item →
    split_scan [c] 0 current (item ++ rest)
    = split_scan [c] 0 (reverse item ++ current) rest.
Proof.
  induction item as [|a item IH]; intros current rest Hc; [done|].
  apply not_elem_of_cons in Hc as [Hne Hc].
  change ((a :: item) ++ rest)%list with (a :: (item ++ rest))%list.
  cbn [split_scan str_startswith].
  assert (E : (c =? a)%N = false) by (by apply N.eqb_neq).
  rewrite E. simpl. rewrite IH by done.
  by rewrite reverse_cons, <- app_assoc.
Qed.

Lemma split_scan_join (c : N) (items : list str) :
  items ≠ [] → Forall (λ item, c ∉ item) items →
  split_scan [c] 0 [] (str_join [c] items) = items.
Proof.
  induction items as [|item rest IH]; intros Hne Hall; [done|].
  apply Forall_cons in Hall as [Hc Hrest].
  destruct rest as [|item' rest'].
  - simpl. rewrite <- (app_nil_r item) at 1. rewrite split_scan_piece by done.
    simpl. by rewrite app_nil_r, reverse_involutive.
  - change (str_join [c] (item :: item' :: rest'))
      with (item ++ c :: str_join [c] (item' :: rest'))%list.
    rewrite split_scan_piece by done.
    cbn [split_scan str_startswith]. rewrite N.eqb_refl. simpl.
    rewrite app_nil_r, reverse_involutive. f_equal. by apply IH.
Qed.

(** X26. A list of items that are non-empty, without white space at
    either end and without the separator character, joined with that
    character and set as the variable, is read back by
    [get_list_secret] item for item. *)
Theorem list_secret_round_trip env key (fallback : option (list str)) (c : N)
    (items : list str) :
  Forall (λ item, trimmed item ∧ c ∉ item) items →
  env !! key = Some (str_join [c] items) →
  get_list_secret env key fallback [c] = Some items.
Proof.
  intros Hall Henv. unfold get_list_secret. rewrite Henv. simpl. f_equal.
  destruct items as [|item rest]; [done|].
  rewrite split_scan_join; [|done|].
  - clear Henv. induction Hall as [|x l [Hx _] _ IH]; [done|].
    rewrite fmap_cons, (trimmed_str_strip x Hx).
    destruct Hx as [Hne _]. rewrite filter_cons_True by done. by rewrite IH.
  - eapply Forall_impl; [exact Hall|]. by intros x [_ ?].
Qed.

Lemma list_secret_round_trip_witness :
  get_list_secret {[ [1%N] := str_join [44%N] hosts ]} [1%N] None [44%N]
  = Some hosts.
Proof.
  apply (list_secret_round_trip {[ [1%N] := str_join [44%N] hosts ]} [1%N] None
           44%N hosts).
  - repeat constructor; try done; simpl.
    + by intros c [= <-].
    + by intros c [= <-].
    + intros H. apply list_elem_of_singleton in H. done.
    + by intros c [= <-].
    + by intros c [= <-].
    + intros H. apply list_elem_of_singleton in H. done.
  - reflexivity.
Defined.

(** ** Checkout undone by cancellation *)

(** X27. When [checkout] of a cart in which no product comes twice has
    succeeded, [cancel_order] on the order that it returned succeeds,
    leaves the order stored as cancelled, and every product has the
    stock that it had before the checkout: the quantities that the
    order lines record are the quantities that were debited. *)
Theorem checkout_cancel_round_trip now now' pk (self : Cart.t) db
    order_pk order self' db' :
  NoDup (CartItem.product <$> Cart_items db pk) →
  order_lines_below_seq db →
  Cart_checkout now pk self db = Some (true, Created order_pk order, self', db') →
  ∃ order'' db'',
    Order_cancel_order now' order_pk order db'
      = Some (true, "Order cancelled successfully", order'', db'')
    ∧ Order.status order'' = "cancelled"
    ∧ orders db'' !! order_pk = Some order''
    ∧ ∀ k p, products db !! k = Some p →
             ∃ p'', products db'' !! k = Some p''
                    ∧ Product.stock p'' = Product.stock p.
Proof.
  intros Hnd Hfresh H.
  destruct (checkout_then_cancel_restores_stock now now' pk self db order_pk order
              self' db' Hnd Hfresh H) as (order'' & db'' & Hc & Hstock).
  exists order'', db''. split; [exact Hc|].
  unfold Order_cancel_order in Hc.
  destruct (Order.can_cancel order); simpl in Hc; [|done].
  destruct (cancel_restore now' (Order_items db' order_pk) db') as [db1|];
    simpl in Hc; [|done].
  injection Hc as <- <-. simpl. split_and!; [done| |done].
  by rewrite lookup_insert_eq.
Qed.

Lemma checkout_cancel_round_trip_witness :
  ∃ order self' db' order'' db'',
    Cart_checkout 100 1 (Cart.mk 7 "active" 0) db_scenario
      = Some (true, Created 1 order, self', db')
    ∧ Order_cancel_order 200 1 order db'
      = Some (true, "Order cancelled successfully", order'', db'')
    ∧ Order.status order'' = "cancelled"
    ∧ orders db'' !! 1%nat = Some order''
    ∧ ∀ k p, products db_scenario !! k = Some p →
             ∃ p'', products db'' !! k = Some p''
                    ∧ Product.stock p'' = Product.stock p.
Proof.
  assert (Hc : ∃ order self' db',
             Cart_checkout 100 1 (Cart.mk 7 "active" 0) db_scenario
             = Some (true, Created 1 order, self', db')).
  { do 3 eexists. vm_compute. reflexivity. }
  destruct Hc as (order & self' & db' & Hc).
  destruct (checkout_cancel_round_trip 100 200 1 (Cart.mk 7 "active" 0)
              db_scenario 1 order self' db') as (order'' & db'' & H1 & H2 & H3 & H4).
  - repeat constructor. apply not_elem_of_nil.
  - constructor.
  - exact Hc.
  - by exists order, self', db', order'', db''.
Defined.
